(** * Fraud-detection rules over trajectory events: a shallow embedding

    The rules of [llm_rules/] and [llm-rules-partial-functions/rules/] are
    Python functions [detect(rule, events, context)].  This development
    embeds the ones the specification talks about and proves, or refutes,
    what the specification says about them.

    Conventions of the embedding:
    - a [datetime] is an integer number of seconds on the naive time line;
      [.date()] is the quotient by 86400;
    - Python floats are idealised as exact rationals ([Q]);
    - a Python [dict] is an insertion-ordered association list;
    - a raised exception is the left injection of [Py];
    - a rule is a function of the values of its arguments, except where the
      question is what the rule does to the objects it is given: there the
      rule runs on a store of objects ([St]), lists are objects changed in
      place, and the arguments are addresses;
    - every event of the model is a [TrajectoryEvent], so the test
      [isinstance(event, TrajectoryEvent)] is always true and is left out. *)

From Stdlib Require Import ZArith QArith Qabs Qminmax Qround List String Bool Lia Lqa.
From Stdlib Require Import DecimalString.
Import ListNotations.

Open Scope string_scope.
Open Scope list_scope.
Open Scope Z_scope.

(** ** Python preliminaries *)

Inductive PyExn : Type :=
| AttributeError (attr : string)
| ZeroDivisionError
| ValueError
| TypeError
| IndexError
| SystemError.

(** A computation that either raises or returns. *)
Definition Py (A : Type) : Type := (PyExn + A)%type.

Definition ret {A} (a : A) : Py A := inr a.
Definition raise {A} (e : PyExn) : Py A := inl e.
Definition bind {A B} (c : Py A) (k : A -> Py B) : Py B :=
  match c with
  | inl e => inl e
  | inr a => k a
  end.

Notation "x <- c ;; k" := (bind c (fun x => k))
  (at level 61, c at next level, right associativity).

(** [for x in xs: acc = body(acc, x)], stopping at the first exception. *)
Fixpoint for_each {A S} (xs : list A) (body : S -> A -> Py S) (s : S) : Py S :=
  match xs with
  | [] => ret s
  | x :: rest => s' <- body s x ;; for_each rest body s'
  end.

Definition Qltb (a b : Q) : bool := negb (Qle_bool b a).
Definition Qleb (a b : Q) : bool := Qle_bool a b.

(** Python's [/] on floats: division by zero raises. *)
Definition py_div (a b : Q) : Py Q :=
  if Qeq_bool b 0 then raise ZeroDivisionError else ret (a / b)%Q.

(** Insertion-ordered dictionaries: [d.get(k)] and [d.items()]. *)
Fixpoint dict_get {K V} (eqb : K -> K -> bool) (d : list (K * V)) (k : K) : option V :=
  match d with
  | [] => None
  | (k', v) :: rest => if eqb k k' then Some v else dict_get eqb rest k
  end.

Definition dict_keys {K V} (d : list (K * V)) : list K := map fst d.
Definition dict_items {K V} (d : list (K * V)) : list (K * V) := d.

(** [if k not in d: d[k] = []] followed by [d[k].append(x)]. *)
Fixpoint dict_append {K A} (eqb : K -> K -> bool)
    (d : list (K * list A)) (k : K) (x : A) : list (K * list A) :=
  match d with
  | [] => [(k, [x])]
  | (k', xs) :: rest =>
      if eqb k k' then (k', xs ++ [x]) :: rest
      else (k', xs) :: dict_append eqb rest k x
  end.

(** The number of values held by a dictionary of lists. *)
Definition total_length {K A} (d : list (K * list A)) : nat :=
  fold_right (fun kv n => (List.length (snd kv) + n)%nat) 0%nat d.

(** Grouping loop shared by the rules: one [dict_append] per element. *)
Definition group_by {K A} (eqb : K -> K -> bool) (key : A -> K) (xs : list A)
  : list (K * list A) :=
  fold_left (fun d x => dict_append eqb d (key x) x) xs [].

(** [sorted(xs, key=...)] and [list.sort(key=...)]: a stable sort. *)
Fixpoint insert_by {A} (key : A -> Z) (x : A) (xs : list A) : list A :=
  match xs with
  | [] => [x]
  | y :: rest => if key y <=? key x then y :: insert_by key x rest else x :: y :: rest
  end.

Definition sorted_by {A} (key : A -> Z) (xs : list A) : list A :=
  fold_right (insert_by key) [] xs.

(** [sorted] with a key that may raise: the keys are computed first, for
    every element in order, and the first exception aborts the call. *)
Fixpoint keys_of {A} (key : A -> Py Z) (xs : list A) : Py (list (Z * A)) :=
  match xs with
  | [] => ret []
  | x :: rest =>
      k <- key x ;;
      ks <- keys_of key rest ;;
      ret ((k, x) :: ks)
  end.

Definition sorted_by_py {A} (key : A -> Py Z) (xs : list A) : Py (list A) :=
  ks <- keys_of key xs ;;
  ret (map snd (sorted_by fst ks)).

(** [min] and [max] of a list; Python raises [ValueError] on an empty one. *)
Definition py_min (xs : list Z) : Py Z :=
  match xs with
  | [] => raise ValueError
  | x :: rest => ret (fold_left Z.min rest x)
  end.

Definition py_max (xs : list Z) : Py Z :=
  match xs with
  | [] => raise ValueError
  | x :: rest => ret (fold_left Z.max rest x)
  end.

(** [xs[0]] *)
Definition first_item {A} (xs : list A) : Py A :=
  match xs with
  | [] => raise IndexError
  | x :: _ => ret x
  end.

(** [min(xs, key=...)] on a list known to start with [x]: the first of the
    elements with the least key. *)
Definition min_by {A} (key : A -> Z) (x : A) (rest : list A) : A :=
  fold_left (fun best y => if key y <? key best then y else best) rest x.

(** The distinct elements of a list, in order of first occurrence. *)
Fixpoint distinct (xs : list string) : list string :=
  match xs with
  | [] => []
  | x :: rest => x :: filter (fun y => negb (String.eqb x y)) (distinct rest)
  end.

(** [for i in range(n): for j in range(i+1, n)]: the pairs in loop order. *)
Fixpoint pairs {A} (xs : list A) : list (A * A) :=
  match xs with
  | [] => []
  | x :: rest => map (fun y => (x, y)) rest ++ pairs rest
  end.

(** [for i in range(len(xs) - 1)]: consecutive pairs. *)
Fixpoint consecutive {A} (xs : list A) : list (A * A) :=
  match xs with
  | x :: ((y :: _) as rest) => (x, y) :: consecutive rest
  | _ => []
  end.

(** ** Data model (expensecbr.base) *)

Definition datetime : Type := Z.

Definition date_of (t : datetime) : Z := t / 86400.

(** Modelled from the spec: the class [TimeWindow] of [expensecbr.base] is
    not part of the sources; section 3 gives its four fields. *)
Record TimeWindow : Type := mkTimeWindow {
  earliest_start : datetime;
  latest_end : datetime;
  exact_start_time : option datetime;
  exact_end_time : option datetime
}.

(** Modelled from the spec: [Location] of [expensecbr.base], section 3. *)
Record Location : Type := mkLocation {
  city : string;
  specific_location : option string;
  full_address : option string
}.

Inductive EventClass : Type :=
| FlightEvent | RailwayEvent | TaxiEvent | FuelEvent | HotelEvent | DailyCheckInEvent.

Definition class_name (c : EventClass) : string :=
  match c with
  | FlightEvent => "FlightEvent"
  | RailwayEvent => "RailwayEvent"
  | TaxiEvent => "TaxiEvent"
  | FuelEvent => "FuelEvent"
  | HotelEvent => "HotelEvent"
  | DailyCheckInEvent => "DailyCheckInEvent"
  end.

Definition EventClass_eqb (a b : EventClass) : bool :=
  String.eqb (class_name a) (class_name b).

(** Modelled from the spec: the event classes of [expensecbr.base], section 3:
    the common payload and the fields the rules read from the variants. *)
Record Event : Type := mkEvent {
  event_id : string;
  user_id : string;
  user_name : string;
  department : string;
  event_class : EventClass;
  time_window : TimeWindow;
  location : option Location;
  from_location : option Location;
  to_location : option Location;
  departure_location : option Location;
  arrival_location : option Location;
  amount : Q;
  hotel_name : string;
  guest_name : string;
  is_self_paid : bool
}.

(** Modelled from the spec: attribute access by name on a time window.
    Section 3 gives the window exactly four attributes; any other name
    raises [AttributeError]. *)
Definition TimeWindow_getattr (w : TimeWindow) (name : string) : Py (option datetime) :=
  if String.eqb name "earliest_start" then ret (Some (earliest_start w))
  else if String.eqb name "latest_end" then ret (Some (latest_end w))
  else if String.eqb name "exact_start_time" then ret (exact_start_time w)
  else if String.eqb name "exact_end_time" then ret (exact_end_time w)
  else raise (AttributeError name).

(** [w.<name>] used as a datetime in a comparison or a difference. *)
Definition TimeWindow_time (w : TimeWindow) (name : string) : Py datetime :=
  v <- TimeWindow_getattr w name ;;
  match v with
  | Some t => ret t
  | None => raise TypeError
  end.

(** Modelled from the spec: [e.<name>] used as a time window.  Section 3
    puts the window of an event under [time_window] and under no other
    name. *)
Definition Event_window (e : Event) (name : string) : Py TimeWindow :=
  if String.eqb name "time_window" then ret (time_window e)
  else raise (AttributeError name).

(** Modelled from the spec: [rule.time_difference(t1, t2, unit=...)] belongs
    to [expensecbr.fde], which is not part of the sources.  The rules
    document it as the signed difference [t2 - t1] in the unit asked for
    (negative when [t2] is before [t1]). *)
Inductive TimeUnit : Type := Minutes | Hours.

Definition seconds_per (u : TimeUnit) : Z :=
  match u with
  | Minutes => 60
  | Hours => 3600
  end.

Definition time_difference (t1 t2 : datetime) (u : TimeUnit) : Q :=
  (inject_Z (t2 - t1) / inject_Z (seconds_per u))%Q.

(** The [rule] object handed to every [detect]: the helpers of
    [expensecbr.fde] the rules call.  Their code is not part of the
    sources, so they are fields of the interface. *)
Record Rule : Type := mkRule {
  is_same_city : option Location -> option Location -> bool;
  get_distance : option Location -> option Location -> option Q;
  calculate_travel_time : option Location -> option Location -> Q -> Q;
  is_within_distance : option Location -> option Location -> Q -> bool;
  do_time_intervals_overlap : TimeWindow -> TimeWindow -> bool;
  get_overlap_duration : TimeWindow -> TimeWindow -> TimeUnit -> Q
}.

(** The [context] mapping of numeric settings. *)
Definition Context : Type := list (string * Q).

Definition context_get (context : Context) (key : string) (default : Q) : Q :=
  match dict_get String.eqb context key with
  | Some v => v
  | None => default
  end.

(** What a [detect] returns: [False], one finding, or a list of findings. *)
Inductive Detected (F : Type) : Type :=
| NoFinding
| Finding (f : F)
| Findings (fs : list F).
Arguments NoFinding {F}.
Arguments Finding {F} f.
Arguments Findings {F} fs.

(** [return xs if xs else False] *)
Definition findings_or_false {F} (xs : list F) : Detected F :=
  match xs with
  | [] => NoFinding
  | _ => Findings xs
  end.

(** Python's [a or b] where [a] is a datetime or [None]: a datetime is
    always truthy, so [b] is taken exactly when [a] is [None]. *)
Definition py_or (a : option datetime) (b : datetime) : datetime :=
  match a with
  | Some t => t
  | None => b
  end.

(** [int(x)] for a non-negative float, printed in decimal. *)
Definition str_of_int (z : Z) : string :=
  NilZero.string_of_int (Z.to_int z).

(** Python's [round]: to the nearest integer, ties to the even one. *)
Definition py_round (q : Q) : Z :=
  let f := Qfloor q in
  let r := (q - inject_Z f)%Q in
  if Qltb r (1 # 2) then f
  else if Qltb (1 # 2) r then f + 1
  else if Z.even f then f else f + 1.

Definition option_to_list {A} (o : option A) : list A :=
  match o with
  | Some a => [a]
  | None => []
  end.

(** ** llm-rules-partial-functions/rules/fd_ubiquitous_presence.py *)

(** A distance in kilometres, or [float('inf')]. *)
Inductive Distance : Type :=
| Km (d : Q)
| Infinity.

(** [d > q], [d / q] for a positive [q], and [t < d] on floats that may be
    infinite. *)
Definition Distance_gtb (d : Distance) (q : Q) : bool :=
  match d with
  | Km x => Qltb q x
  | Infinity => true
  end.

Definition Distance_div (d : Distance) (q : Q) : Distance :=
  match d with
  | Km x => Km (x / q)
  | Infinity => Infinity
  end.

Definition lt_Distance (t : Q) (d : Distance) : bool :=
  match d with
  | Km x => Qltb t x
  | Infinity => true
  end.

(** [xs[-1]] *)
Definition last_item {A} (xs : list A) : Py A :=
  match rev xs with
  | [] => raise IndexError
  | x :: _ => ret x
  end.

Module PartialFunctions.

Definition CITY_DISTANCES : list ((string * string) * Q) :=
  [ (("北京市", "上海市"), 1318%Q);
    (("北京市", "广州市"), 1952%Q);
    (("北京市", "深圳市"), 1953%Q);
    (("北京市", "成都市"), 1671%Q);
    (("北京市", "武汉市"), 1052%Q);
    (("上海市", "广州市"), 1213%Q);
    (("上海市", "深圳市"), 1207%Q);
    (("上海市", "成都市"), 1666%Q);
    (("上海市", "武汉市"), 686%Q);
    (("广州市", "深圳市"), 107%Q);
    (("广州市", "成都市"), 1235%Q);
    (("广州市", "武汉市"), 841%Q);
    (("深圳市", "成都市"), 1308%Q);
    (("深圳市", "武汉市"), 938%Q);
    (("成都市", "武汉市"), 1043%Q) ].

Definition MAX_REASONABLE_DAILY_TRAVEL_KM : Q := 1200.

Definition pair_eqb (a b : string * string) : bool :=
  String.eqb (fst a) (fst b) && String.eqb (snd a) (snd b).

Definition get_city_distance (city1 city2 : string) : Distance :=
  match dict_get pair_eqb CITY_DISTANCES (city1, city2) with
  | Some d => Km d
  | None =>
      match dict_get pair_eqb CITY_DISTANCES (city2, city1) with
      | Some d => Km d
      | None => Infinity
      end
  end.

Record ImpossibleCityPair : Type := mkImpossibleCityPair {
  ic_city1 : string;
  ic_city2 : string;
  ic_distance : Distance;
  ic_min_travel_hours : Distance;
  ic_city1_event_ids : list string;
  ic_city2_event_ids : list string;
  ic_city1_earliest : datetime;
  ic_city1_latest : datetime;
  ic_city2_earliest : datetime;
  ic_city2_latest : datetime
}.

Record PresenceFinding : Type := mkPresenceFinding {
  pf_primary_event_id : string;
  pf_user_id : string;
  pf_user_name : string;
  pf_department : string;
  pf_date : Z;
  pf_impossible_city_pairs : list ImpossibleCityPair;
  pf_num_cities_visited : nat
}.

Definition by_start (e : Event) : Z := earliest_start (time_window e).

(** Lines 81-89: the day's events by city; an event without a location or
    with an empty city is left out. *)
Definition add_visit (cities_visited : list (string * list Event)) (event : Event)
  : list (string * list Event) :=
  match location event with
  | None => cities_visited
  | Some l =>
      if String.eqb (city l) "" then cities_visited
      else dict_append String.eqb cities_visited (city l) event
  end.

(** The body of the loop over pairs of cities, lines 101-148.  The source
    sorts the two lists of [cities_visited] in place; the sort is stable, so
    sorting them again for a later pair changes nothing, and the lists are
    sorted here where they are read. *)
Definition check_city_pair (entry1 entry2 : string * list Event)
  : Py (option ImpossibleCityPair) :=
  let '(city1, events1) := entry1 in
  let '(city2, events2) := entry2 in
  let distance := get_city_distance city1 city2 in
  if Distance_gtb distance MAX_REASONABLE_DAILY_TRAVEL_KM then
    let city1_events := sorted_by by_start events1 in
    let city2_events := sorted_by by_start events2 in
    first1 <- first_item city1_events ;;
    last1 <- last_item city1_events ;;
    first2 <- first_item city2_events ;;
    last2 <- last_item city2_events ;;
    let city1_earliest := earliest_start (time_window first1) in
    let city1_latest := latest_end (time_window last1) in
    let city2_earliest := earliest_start (time_window first2) in
    let city2_latest := latest_end (time_window last2) in
    let time_diff1 := Qabs (inject_Z (city2_earliest - city1_latest) / 3600) in
    let time_diff2 := Qabs (inject_Z (city1_earliest - city2_latest) / 3600) in
    let min_travel_hours := Distance_div distance 300 in
    let impossible :=
      lt_Distance time_diff1 min_travel_hours && lt_Distance time_diff2 min_travel_hours in
    if impossible then
      ret (Some {|
        ic_city1 := city1;
        ic_city2 := city2;
        ic_distance := distance;
        ic_min_travel_hours := min_travel_hours;
        ic_city1_event_ids := map event_id city1_events;
        ic_city2_event_ids := map event_id city2_events;
        ic_city1_earliest := city1_earliest;
        ic_city1_latest := city1_latest;
        ic_city2_earliest := city2_earliest;
        ic_city2_latest := city2_latest
      |})
    else ret None
  else ret None.

Definition add_impossible_pair
    (impossible_city_pairs : list ImpossibleCityPair)
    (pair : (string * list Event) * (string * list Event))
  : Py (list ImpossibleCityPair) :=
  found <- check_city_pair (fst pair) (snd pair) ;;
  ret (impossible_city_pairs ++ option_to_list found).

(** The body of the loop over the dates of one user, lines 73-164. *)
Definition check_date (user_id : string)
    (fraud_instances : list PresenceFinding) (item : Z * list Event)
  : Py (list PresenceFinding) :=
  let '(event_date, daily_events) := item in
  if (List.length daily_events <? 2)%nat then ret fraud_instances
  else
    let cities_visited := fold_left add_visit daily_events [] in
    if (List.length cities_visited <? 2)%nat then ret fraud_instances
    else
      impossible_city_pairs <-
        for_each (pairs (dict_items cities_visited)) add_impossible_pair [] ;;
      match impossible_city_pairs with
      | [] => ret fraud_instances
      | _ =>
          sample_event <- first_item daily_events ;;
          ret (fraud_instances ++ [{|
            pf_primary_event_id := event_id sample_event;
            pf_user_id := user_id;
            pf_user_name := user_name sample_event;
            pf_department := department sample_event;
            pf_date := event_date;
            pf_impossible_city_pairs := impossible_city_pairs;
            pf_num_cities_visited := List.length cities_visited
          |}])
      end.

(** The body of the loop over users, lines 60-164. *)
Definition check_user (fraud_instances : list PresenceFinding)
    (item : string * list Event) : Py (list PresenceFinding) :=
  let '(user_id, user_events) := item in
  if (List.length user_events <? 2)%nat then ret fraud_instances
  else
    let events_by_date :=
      group_by Z.eqb (fun e => date_of (earliest_start (time_window e))) user_events in
    for_each (dict_items events_by_date) (check_date user_id) fraud_instances.

Definition detect_ubiquitous_presence
    (rule : Rule) (events : list Event) (context : Context)
  : Py (Detected PresenceFinding) :=
  match events with
  | [] => ret NoFinding
  | _ =>
      let events_by_user := group_by String.eqb user_id events in
      fraud_instances <- for_each (dict_items events_by_user) check_user [] ;;
      ret (findings_or_false fraud_instances)
  end.

End PartialFunctions.

Section Rules.

(** [isinstance(e, TransportEvent)]: the class hierarchy of
    [expensecbr.base] is not part of the sources, so membership in the
    transport base class is a parameter of the development. *)
Variable isinstance_TransportEvent : EventClass -> bool.

(** ** fd_transport_reverse_time.py *)

Record ReverseTimeFinding : Type := mkReverseTimeFinding {
  rt_primary_event_id : string;
  rt_event_type : string;
  rt_start_time : datetime;
  rt_end_time : datetime;
  rt_time_diff_minutes : Q;
  rt_time_diff_formatted : string;
  rt_from_location : option Location;
  rt_to_location : option Location;
  rt_amount : Q
}.

(** [not events or len(events) != 1] *)
Definition singleton_guard (events : list Event) : bool :=
  match events with
  | [] => true
  | _ => negb (Nat.eqb (List.length events) 1)
  end.

Definition detect_transport_reverse_time
    (rule : Rule) (events : list Event) (context : Context)
  : Detected ReverseTimeFinding :=
  if singleton_guard events then NoFinding
  else match events with
  | [] => NoFinding
  | event :: _ =>
      if negb (isinstance_TransportEvent (event_class event)) then NoFinding
      else
        let time_window := time_window event in
        match exact_start_time time_window, exact_end_time time_window with
        | Some start_time, Some end_time =>
            let time_diff_minutes := time_difference start_time end_time Minutes in
            if Qltb time_diff_minutes 0%Q then
              let abs_diff_minutes := Qabs time_diff_minutes in
              let hours := Qfloor (abs_diff_minutes / 60)%Q in
              let minutes :=
                Qfloor (abs_diff_minutes
                        - 60 * inject_Z (Qfloor (abs_diff_minutes / 60)))%Q in
              Finding {|
                rt_primary_event_id := event_id event;
                rt_event_type := class_name (event_class event);
                rt_start_time := start_time;
                rt_end_time := end_time;
                rt_time_diff_minutes := time_diff_minutes;
                rt_time_diff_formatted :=
                  (str_of_int hours ++ "h " ++ str_of_int minutes ++ "m")%string;
                rt_from_location := from_location event;
                rt_to_location := to_location event;
                rt_amount := amount event
              |}
            else NoFinding
        | _, _ => NoFinding
        end
  end.

(** ** fd_taxi_high_value.py *)

Record HighValueFinding : Type := mkHighValueFinding {
  hv_primary_event_id : string;
  hv_amount : Q;
  hv_threshold : Q;
  hv_excess_amount : Q
}.

Definition detect_high_value_taxi
    (rule : Rule) (events : list Event) (context : Context)
  : Detected HighValueFinding :=
  if singleton_guard events then NoFinding
  else match events with
  | [] => NoFinding
  | event :: _ =>
      if negb (EventClass_eqb (event_class event) TaxiEvent) || is_self_paid event
      then NoFinding
      else
        let threshold := context_get context "taxi_high_value_threshold" 50%Q in
        if Qltb threshold (amount event) then
          Finding {|
            hv_primary_event_id := event_id event;
            hv_amount := amount event;
            hv_threshold := threshold;
            hv_excess_amount := (amount event - threshold)%Q
          |}
        else NoFinding
  end.


(** ** fd_multi_transport_same_route_time_nofunc.py *)

Record Route : Type := mkRoute {
  r_event_id : string;
  r_event : Event;
  r_from_city : string;
  r_to_city : string;
  r_start_time : datetime;
  r_end_time : datetime;
  r_transport_type : string
}.

Record MultiTransportFinding : Type := mkMultiTransportFinding {
  mt_primary_event_id : string;
  mt_secondary_event_id : string;
  mt_user_id : string;
  mt_user_name : string;
  mt_department : string;
  mt_from_city : string;
  mt_to_city : string;
  mt_transport1_type : string;
  mt_transport2_type : string;
  mt_transport1_start : datetime;
  mt_transport1_end : datetime;
  mt_transport2_start : datetime;
  mt_transport2_end : datetime;
  mt_overlap_minutes : Z;
  mt_transport1_amount : Q;
  mt_transport2_amount : Q
}.

(** [isinstance(e, (TaxiEvent, FlightEvent, RailwayEvent))] *)
Definition is_route_transport (e : Event) : bool :=
  match event_class e with
  | TaxiEvent | FlightEvent | RailwayEvent => true
  | _ => false
  end.

(** The body of the loop that fills [transport_routes]: [None] stands for
    [continue]. *)
Definition route_of_event (event : Event) : option Route :=
  let '(from_location, to_location, transport_type) :=
    match event_class event with
    | TaxiEvent => (from_location event, to_location event, "Taxi")
    | FlightEvent => (departure_location event, arrival_location event, "Flight")
    | RailwayEvent => (from_location event, to_location event, "Railway")
    | _ => (None, None, "")
    end in
  match from_location, to_location with
  | Some from_location, Some to_location =>
      let from_city := city from_location in
      let to_city := city to_location in
      if String.eqb from_city "" || String.eqb to_city "" then None
      else
        let start_time :=
          py_or (exact_start_time (time_window event)) (earliest_start (time_window event)) in
        let end_time :=
          py_or (exact_end_time (time_window event)) (latest_end (time_window event)) in
        Some {|
          r_event_id := event_id event;
          r_event := event;
          r_from_city := from_city;
          r_to_city := to_city;
          r_start_time := start_time;
          r_end_time := end_time;
          r_transport_type := transport_type
        |}
  | _, _ => None
  end.

Fixpoint transport_routes (transport_events : list Event) : list Route :=
  match transport_events with
  | [] => []
  | event :: rest =>
      match route_of_event event with
      | Some r => r :: transport_routes rest
      | None => transport_routes rest
      end
  end.

Definition routes_match (route1 route2 : Route) : bool :=
  (String.eqb (r_from_city route1) (r_from_city route2)
   && String.eqb (r_to_city route1) (r_to_city route2))
  || (String.eqb (r_from_city route1) (r_to_city route2)
      && String.eqb (r_to_city route1) (r_from_city route2)).

(** Lines 111-114: the overlap test. *)
Definition times_overlap (route1 route2 : Route) : bool :=
  (r_start_time route1 <=? r_end_time route2)
  && (r_start_time route2 <=? r_end_time route1).

(** [0 <= (route2.start - route1.end).total_seconds() / 60 <= 90] *)
Definition transfer_gap (route1 route2 : Route) : bool :=
  let seconds := r_start_time route2 - r_end_time route1 in
  (0 <=? seconds) && (seconds <=? 90 * 60).

(** Lines 117-126: the taxi transfer allowance; [true] stands for [continue]. *)
Definition taxi_transfer (route1 route2 : Route) : bool :=
  let t1 := r_transport_type route1 in
  let t2 := r_transport_type route2 in
  if String.eqb "Taxi" t1 || String.eqb "Taxi" t2 then
    if String.eqb t1 "Taxi" && negb (String.eqb t2 "Taxi") then transfer_gap route1 route2
    else if String.eqb t2 "Taxi" && negb (String.eqb t1 "Taxi") then transfer_gap route1 route2
    else false
  else false.

(** The body of the pair loop, lines 90-155. *)
Definition check_route_pair (user_id : string) (route1 route2 : Route)
  : option MultiTransportFinding :=
  if negb (routes_match route1 route2) then None
  else
    let overlap := times_overlap route1 route2 in
    if taxi_transfer route1 route2 then None
    else if routes_match route1 route2 && overlap then
      let event1 := r_event route1 in
      let event2 := r_event route2 in
      let overlap_start := Z.max (r_start_time route1) (r_start_time route2) in
      let overlap_end := Z.min (r_end_time route1) (r_end_time route2) in
      let overlap_minutes := (inject_Z (overlap_end - overlap_start) / 60)%Q in
      Some {|
        mt_primary_event_id := event_id event1;
        mt_secondary_event_id := event_id event2;
        mt_user_id := user_id;
        mt_user_name := user_name event1;
        mt_department := department event1;
        mt_from_city := r_from_city route1;
        mt_to_city := r_to_city route1;
        mt_transport1_type := r_transport_type route1;
        mt_transport2_type := r_transport_type route2;
        mt_transport1_start := r_start_time route1;
        mt_transport1_end := r_end_time route1;
        mt_transport2_start := r_start_time route2;
        mt_transport2_end := r_end_time route2;
        mt_overlap_minutes := py_round overlap_minutes;
        mt_transport1_amount := amount event1;
        mt_transport2_amount := amount event2
      |}
    else None.

Definition detect_multi_transport_same_route_time
    (rule : Rule) (events : list Event) (context : Context)
  : Detected MultiTransportFinding :=
  match events with
  | [] => NoFinding
  | _ =>
      let events_by_user := group_by String.eqb user_id events in
      let fraud_instances :=
        flat_map (fun '(user_id, user_events) =>
          let transport_events := filter is_route_transport user_events in
          if (List.length transport_events <? 2)%nat then []
          else
            flat_map (fun '(route1, route2) =>
                        option_to_list (check_route_pair user_id route1 route2))
                     (pairs (transport_routes transport_events)))
          (dict_items events_by_user) in
      findings_or_false fraud_instances
  end.

(** ** fd_hotel_flight_temporal_conflict_nofunc.py, lines 45-46 and 61-62 *)

Definition check_in_time (hotel : Event) : datetime :=
  py_or (exact_start_time (time_window hotel)) (earliest_start (time_window hotel)).

Definition check_out_time (hotel : Event) : datetime :=
  py_or (exact_end_time (time_window hotel)) (latest_end (time_window hotel)).

Definition departure_time (flight : Event) : datetime :=
  py_or (exact_start_time (time_window flight)) (earliest_start (time_window flight)).

Definition arrival_time (flight : Event) : datetime :=
  py_or (exact_end_time (time_window flight)) (latest_end (time_window flight)).

(** ** The individual grouping strategy *)

(** Modelled from the spec: [create_individual_rule] and the engine that
    forms the candidate groups belong to [expensecbr.fde], which is not part
    of the sources.  Section 4.4: each event is its own singleton candidate
    group; section 4.5: the events are first filtered by [event_types]. *)
Definition filter_event_types (event_types : list EventClass) (events : list Event)
  : list Event :=
  filter (fun e => existsb (EventClass_eqb (event_class e)) event_types) events.

Definition individual_groups (events : list Event) : list (list Event) :=
  map (fun e => [e]) events.

(** Modelled from the spec: section 4.5, [evaluate] for an individually
    grouped rule: [detect] is called on every candidate group. *)
Definition evaluate_individual {F}
    (detect : Rule -> list Event -> Context -> Detected F)
    (event_types : list EventClass)
    (rule : Rule) (all_events : list Event) (context : Context)
  : list (Detected F) :=
  map (fun group => detect rule group context)
      (individual_groups (filter_event_types event_types all_events)).

(** ** Effective start and end, in the specification's words *)



(** ** fd_impossible_sequence.py *)

Record ImpossibleTravelFinding : Type := mkImpossibleTravelFinding {
  it_primary_event_id : string;
  it_user_id : string;
  it_user_name : string;
  it_first_event_id : string;
  it_first_event_time : datetime;
  it_first_event_city : string;
  it_second_event_id : string;
  it_second_event_time : datetime;
  it_second_event_city : string;
  it_time_between_events_hours : Q;
  it_min_travel_time_hours : Q;
  it_distance_km : option Q
}.

(** [loc.city] where [loc] may be [None]. *)
Definition city_of (loc : option Location) : Py string :=
  match loc with
  | Some l => ret (city l)
  | None => raise (AttributeError "city")
  end.

(** Lines 73-80: the search for a transport event that explains the move.
    The conjunction is evaluated left to right and stops at the first false
    conjunct; its second conjunct reads [event2.time_window.latest_start]. *)
Fixpoint has_transport_explanation
    (rule : Rule) (event1 event2 : Event) (transport_events : list Event) : Py bool :=
  match transport_events with
  | [] => ret false
  | transport :: rest =>
      if earliest_start (time_window event1) <=? earliest_start (time_window transport)
      then
        latest_start <- TimeWindow_time (time_window event2) "latest_start" ;;
        if (latest_end (time_window transport) <=? latest_start)
           && is_same_city rule (from_location transport) (location event1)
           && is_same_city rule (to_location transport) (location event2)
        then ret true
        else has_transport_explanation rule event1 event2 rest
      else has_transport_explanation rule event1 event2 rest
  end.

(** Line 66: the time the rule takes as available between the two events,
    in seconds. *)
Definition time_between_events (event1 event2 : Event) : Z :=
  earliest_start (time_window event2) - latest_end (time_window event1).

(** Line 69: [time_between_events < timedelta(hours=min_travel_time_hours)]. *)
Definition too_close (rule : Rule) (event1 event2 : Event) : bool :=
  Qltb (inject_Z (time_between_events event1 event2))
       (calculate_travel_time rule (location event1) (location event2) 100 * 3600)%Q.

(** The body of the loop over consecutive events, lines 48-97. *)
Definition check_consecutive
    (rule : Rule) (user_id : string) (transport_events : list Event)
    (suspicious_sequences : list ImpossibleTravelFinding) (pair : Event * Event)
  : Py (list ImpossibleTravelFinding) :=
  let '(event1, event2) := pair in
  if is_same_city rule (location event1) (location event2) then ret suspicious_sequences
  else
    let distance_km := get_distance rule (location event1) (location event2) in
    let min_travel_time_hours :=
      calculate_travel_time rule (location event1) (location event2) 100 in
    if too_close rule event1 event2 then
      explained <- has_transport_explanation rule event1 event2 transport_events ;;
      if negb explained then
        first_event_city <- city_of (location event1) ;;
        second_event_city <- city_of (location event2) ;;
        ret (suspicious_sequences ++ [{|
          it_primary_event_id := event_id event2;
          it_user_id := user_id;
          it_user_name := user_name event2;
          it_first_event_id := event_id event1;
          it_first_event_time := latest_end (time_window event1);
          it_first_event_city := first_event_city;
          it_second_event_id := event_id event2;
          it_second_event_time := earliest_start (time_window event2);
          it_second_event_city := second_event_city;
          it_time_between_events_hours :=
            (inject_Z (time_between_events event1 event2) / 3600)%Q;
          it_min_travel_time_hours := min_travel_time_hours;
          it_distance_km := distance_km
        |}])
      else ret suspicious_sequences
    else ret suspicious_sequences.

Definition by_earliest_start (e : Event) : Z := earliest_start (time_window e).

(** The body of the loop over users, lines 35-97. *)
Definition check_user_travel
    (rule : Rule) (suspicious_sequences : list ImpossibleTravelFinding)
    (item : string * list Event) : Py (list ImpossibleTravelFinding) :=
  let '(user_id, user_events) := item in
  if (List.length user_events <? 2)%nat then ret suspicious_sequences
  else
    let sorted_events := sorted_by by_earliest_start user_events in
    let transport_events :=
      filter (fun e => isinstance_TransportEvent (event_class e)) sorted_events in
    for_each (consecutive sorted_events)
             (check_consecutive rule user_id transport_events)
             suspicious_sequences.

Definition detect_impossible_travel
    (rule : Rule) (events : list Event) (context : Context)
  : Py (Detected ImpossibleTravelFinding) :=
  if (List.length events <? 2)%nat then ret NoFinding
  else
    let events_by_user := group_by String.eqb user_id events in
    suspicious_sequences <-
      for_each (dict_items events_by_user) (check_user_travel rule) [] ;;
    ret (findings_or_false suspicious_sequences).

(** ** llm_rules/fd_ubiquitous_presence.py *)

Record CityPair : Type := mkCityPair {
  cp_city1 : string;
  cp_city2 : string;
  cp_distance_km : Q;
  cp_min_travel_time_hours : Q;
  cp_available_time_hours : Q;
  cp_city1_event_id : string;
  cp_city2_event_id : string
}.

Record CityDetail : Type := mkCityDetail {
  cd_event_id : string;
  cd_event_type : string;
  cd_time : datetime
}.

(** The report of the rule.  Its [city_details] and [distant_city_pairs]
    are the list objects the rule has filled, held by reference. *)
Record UbiquitousFinding : Type := mkUbiquitousFinding {
  up_primary_event_id : string;
  up_user_id : string;
  up_user_name : string;
  up_department : string;
  up_date : Z;
  up_city_count : nat;
  up_cities : list string;
  up_city_details : list (string * nat);
  up_event_types : list string;
  up_distant_city_pairs : nat
}.

(** Lines 81-82: the bounds of all the events of one city. *)
Definition events_times (city_events : list Event) : list datetime :=
  map (fun e => earliest_start (time_window e)) city_events
  ++ map (fun e => latest_end (time_window e)) city_events.

(** Lines 90-92: the time the rule takes as available between two cities. *)
Definition max_time_diff
    (city1_earliest city1_latest city2_earliest city2_latest : datetime) : Q :=
  let time_diff_1to2 := time_difference city1_earliest city2_latest Hours in
  let time_diff_2to1 := time_difference city2_earliest city1_latest Hours in
  Qmax (Qabs time_diff_1to2) (Qabs time_diff_2to1).

(** The body of the loop over pairs of cities, lines 63-104; [None] stands
    for a pair that is not recorded. *)
Definition check_city_pair
    (rule : Rule) (min_city_distance_km max_travel_speed_kmh : Q)
    (entry1 entry2 : string * list Event) : Py (option CityPair) :=
  let '(city1, city1_events) := entry1 in
  let '(city2, city2_events) := entry2 in
  city1_event <- first_item city1_events ;;
  city2_event <- first_item city2_events ;;
  match get_distance rule (location city1_event) (location city2_event) with
  | None => ret None
  | Some distance =>
      if Qltb distance min_city_distance_km then ret None
      else
        min_travel_time <- py_div distance max_travel_speed_kmh ;;
        city1_earliest <- py_min (events_times city1_events) ;;
        city1_latest <- py_max (events_times city1_events) ;;
        city2_earliest <- py_min (events_times city2_events) ;;
        city2_latest <- py_max (events_times city2_events) ;;
        let available :=
          max_time_diff city1_earliest city1_latest city2_earliest city2_latest in
        if Qltb available min_travel_time then
          ret (Some {|
            cp_city1 := city1;
            cp_city2 := city2;
            cp_distance_km := distance;
            cp_min_travel_time_hours := min_travel_time;
            cp_available_time_hours := available;
            cp_city1_event_id := event_id city1_event;
            cp_city2_event_id := event_id city2_event
          |})
        else ret None
  end.

(** ** fd_checkin_different_cities_same_day.py *)

Record SuspiciousPair : Type := mkSuspiciousPair {
  sp_event1_id : string;
  sp_event2_id : string;
  sp_distance_km : Q;
  sp_time_diff_hours : Q;
  sp_required_travel_hours : Q;
  sp_city1 : string;
  sp_city2 : string;
  sp_time1 : datetime;
  sp_time2 : datetime
}.


(** Lines 91-107: the time difference the rule compares with the required
    travel time.  The first order is [event1] then [event2]; the reverse
    order is taken when the first one is not below the requirement. *)
Definition checkin_time_diff (required_travel_time : Q) (event1 event2 : Event) : Q :=
  let time_diff_hours :=
    Qabs (time_difference (latest_end (time_window event1))
                          (earliest_start (time_window event2)) Hours) in
  if Qleb required_travel_time time_diff_hours then
    Qabs (time_difference (latest_end (time_window event2))
                          (earliest_start (time_window event1)) Hours)
  else time_diff_hours.

(** The body of the loop over pairs of check-ins, lines 71-121; [None]
    stands for a pair that is not recorded. *)
Definition check_checkin_pair
    (rule : Rule) (max_travel_speed min_travel_hours min_suspicious_distance : Q)
    (event1 event2 : Event) : Py (option SuspiciousPair) :=
  if is_same_city rule (location event1) (location event2) then ret None
  else
    match get_distance rule (location event1) (location event2) with
    | None => ret None
    | Some distance =>
        if Qltb distance min_suspicious_distance then ret None
        else
          travel <- py_div distance max_travel_speed ;;
          let required_travel_time := (travel + min_travel_hours)%Q in
          let time_diff_hours := checkin_time_diff required_travel_time event1 event2 in
          if Qltb time_diff_hours required_travel_time then
            city1 <- city_of (location event1) ;;
            city2 <- city_of (location event2) ;;
            ret (Some {|
              sp_event1_id := event_id event1;
              sp_event2_id := event_id event2;
              sp_distance_km := distance;
              sp_time_diff_hours := time_diff_hours;
              sp_required_travel_hours := required_travel_time;
              sp_city1 := city1;
              sp_city2 := city2;
              sp_time1 := earliest_start (time_window event1);
              sp_time2 := earliest_start (time_window event2)
            |})
          else ret None
    end.







(** ** fd_taxi_sequential_rides.py *)

Record SequentialTaxiFinding : Type := mkSequentialTaxiFinding {
  st_primary_event_id : string;
  st_related_event_ids : list string;
  st_user_id : string;
  st_user_name : string;
  st_department : string;
  st_total_amount : Q;
  st_ride_count : nat;
  st_total_distance : Q;
  st_time_span : Q;
  st_avg_amount_per_ride : Q;
  st_sequence_start : datetime;
  st_sequence_end : datetime
}.

(** [e.time_interval.<bound>]: the rule reads the window of an event under
    the name [time_interval]. *)
Definition time_interval_bound (e : Event) (bound : string) : Py datetime :=
  w <- Event_window e "time_interval" ;;
  TimeWindow_time w bound.

(** Lines 54-79: one step of the loop that cuts the sorted rides into
    sequences; the state is [(sequences, current_sequence)]. *)
Definition extend_sequence
    (rule : Rule) (time_threshold min_rides : Q)
    (state : list (list Event) * list Event) (pair : Event * Event)
  : Py (list (list Event) * list Event) :=
  let '(sequences, current_sequence) := state in
  let '(previous_event, current_event) := pair in
  t1 <- time_interval_bound previous_event "latest_end" ;;
  t2 <- time_interval_bound current_event "earliest_start" ;;
  let time_between := time_difference t1 t2 Hours in
  let location_match :=
    is_within_distance rule (to_location previous_event)
                       (from_location current_event) 2 in
  if Qleb 0 time_between && Qleb time_between time_threshold && location_match
  then ret (sequences, current_sequence ++ [current_event])
  else
    if Qleb min_rides (inject_Z (Z.of_nat (List.length current_sequence)))
    then ret (sequences ++ [current_sequence], [current_event])
    else ret (sequences, [current_event]).

(** Lines 92-101: the distance covered by one sequence; a missing distance
    cannot be added to a number. *)
Fixpoint total_distance_of (rule : Rule) (sequence : list Event) (total : Q) : Py Q :=
  match sequence with
  | [] => ret total
  | event :: rest =>
      match get_distance rule (from_location event) (to_location event) with
      | Some distance => total_distance_of rule rest (total + distance)%Q
      | None => raise TypeError
      end
  end.

(** Lines 86-124: the report for one sequence. *)
Definition report_sequence
    (rule : Rule) (user_id : string) (amount_threshold : Q)
    (suspicious_patterns : list SequentialTaxiFinding) (sequence : list Event)
  : Py (list SequentialTaxiFinding) :=
  let total_amount := fold_left (fun acc e => (acc + amount e)%Q) sequence 0%Q in
  if Qleb amount_threshold total_amount then
    total_distance <- total_distance_of rule sequence 0%Q ;;
    first <- first_item sequence ;;
    last <- last_item sequence ;;
    t_first <- time_interval_bound first "earliest_start" ;;
    t_last <- time_interval_bound last "latest_end" ;;
    let time_span := time_difference t_first t_last Hours in
    avg <- py_div total_amount (inject_Z (Z.of_nat (List.length sequence))) ;;
    ret (suspicious_patterns ++ [{|
      st_primary_event_id := event_id last;
      st_related_event_ids := map event_id sequence;
      st_user_id := user_id;
      st_user_name := user_name first;
      st_department := department first;
      st_total_amount := total_amount;
      st_ride_count := List.length sequence;
      st_total_distance := total_distance;
      st_time_span := time_span;
      st_avg_amount_per_ride := avg;
      st_sequence_start := t_first;
      st_sequence_end := t_last
    |}])
  else ret suspicious_patterns.

(** The body of the loop over users, lines 40-124. *)
Definition check_user_taxis
    (rule : Rule) (time_threshold amount_threshold min_rides : Q)
    (suspicious_patterns : list SequentialTaxiFinding) (item : string * list Event)
  : Py (list SequentialTaxiFinding) :=
  let '(user_id, user_taxi_events) := item in
  if Qltb (inject_Z (Z.of_nat (List.length user_taxi_events))) min_rides
  then ret suspicious_patterns
  else
    sorted_events <-
      sorted_by_py (fun e => time_interval_bound e "earliest_start") user_taxi_events ;;
    first <- first_item sorted_events ;;
    state <-
      for_each (consecutive sorted_events)
               (extend_sequence rule time_threshold min_rides) ([], [first]) ;;
    let '(sequences, current_sequence) := state in
    let sequences :=
      if Qleb min_rides (inject_Z (Z.of_nat (List.length current_sequence)))
      then sequences ++ [current_sequence] else sequences in
    for_each sequences (report_sequence rule user_id amount_threshold)
             suspicious_patterns.

Definition is_taxi (e : Event) : bool :=
  EventClass_eqb (event_class e) TaxiEvent.

Definition detect_sequential_taxi_rides
    (rule : Rule) (events : list Event) (context : Context)
  : Py (Detected SequentialTaxiFinding) :=
  let taxi_events := filter is_taxi events in
  if (List.length taxi_events <? 3)%nat then ret NoFinding
  else
    let user_events := group_by String.eqb user_id taxi_events in
    let time_threshold := context_get context "sequential_taxi_time_threshold" (1 # 2) in
    let amount_threshold := context_get context "sequential_taxi_amount_threshold" 150 in
    let min_rides := context_get context "sequential_taxi_min_rides" 3 in
    suspicious_patterns <-
      for_each (dict_items user_events)
               (check_user_taxis rule time_threshold amount_threshold min_rides) [] ;;
    ret (findings_or_false suspicious_patterns).

(** ** Resolutions of an uncertain window, in the specification's words *)

(** A resolution of a window fixes a start and an end inside its bounds. *)
Definition resolves (w : TimeWindow) (start_time end_time : datetime) : Prop :=
  earliest_start w <= start_time /\ start_time <= end_time /\ end_time <= latest_end w.

(** Travel taking [hours] is possible between two windows when some
    resolution of both leaves at least that much time from the end of one
    to the start of the other. *)
Definition travel_possible (w1 w2 : TimeWindow) (hours : Q) : Prop :=
  exists s1 t1 s2 t2,
    resolves w1 s1 t1 /\ resolves w2 s2 t2
    /\ ((hours <= inject_Z (s2 - t1) / 3600)%Q \/ (hours <= inject_Z (s1 - t2) / 3600)%Q).

(** ** The object store *)

(** The rules receive references: [events] is a list object holding
    references to event objects, [context] a dictionary object.  A list the
    rule builds is a new object, and [append] changes the object it is
    called on.  The store holds the objects; an address is a position in
    it. *)
Definition Addr : Type := nat.

(** ** fd_multi_hotel_same_night.py: the report *)

Record HotelStay : Type := mkHotelStay {
  hs_event_id : string;
  hs_hotel_name : string;
  hs_location : option Location;
  hs_check_in : datetime;
  hs_check_out : datetime;
  hs_amount : Q;
  hs_guest_name : string
}.

Record MultiHotelFinding : Type := mkMultiHotelFinding {
  mh_primary_event_id : string;
  mh_user_id : string;
  mh_user_name : string;
  mh_department : string;
  mh_overlap_hours : Q;
  mh_hotels : list HotelStay
}.

(** The dictionaries the two rules create with a literal: each is a new
    object of the store. *)
Inductive Report : Type :=
| RMultiHotel (f : MultiHotelFinding)
| RCityPair (p : CityPair)
| RCityDetail (d : CityDetail)
| RUbiquitous (f : UbiquitousFinding).

Inductive Obj : Type :=
| OEvent (e : Event)
| OContext (c : Context)
| OList (items : list Addr)
| ORecord (r : Report).

Definition Heap : Type := list Obj.

(** A computation on the store: the store it leaves, and a result or an
    exception. *)
Definition St (A : Type) : Type := Heap -> Heap * Py A.

Definition st_ret {A} (a : A) : St A := fun h => (h, ret a).
Definition st_raise {A} (e : PyExn) : St A := fun h => (h, raise e).
Definition st_bind {A B} (m : St A) (k : A -> St B) : St B :=
  fun h =>
    match m h with
    | (h', inl e) => (h', inl e)
    | (h', inr a) => k a h'
    end.

Notation "x <~ c ;; k" := (st_bind c (fun x => k))
  (at level 61, c at next level, right associativity).

(** A computation that does not touch the store. *)
Definition lift {A} (c : Py A) : St A := fun h => (h, c).

(** A new object gets the next address. *)
Definition alloc (o : Obj) : St Addr := fun h => (h ++ [o], ret (List.length h)).

Definition load (a : Addr) : St Obj :=
  fun h =>
    match nth_error h a with
    | Some o => (h, ret o)
    | None => (h, raise SystemError)
    end.

Fixpoint update (h : Heap) (a : Addr) (o : Obj) : Heap :=
  match h, a with
  | [], _ => []
  | _ :: rest, O => o :: rest
  | x :: rest, S a' => x :: update rest a' o
  end.

Definition store (a : Addr) (o : Obj) : St unit := fun h => (update h a o, ret tt).

Definition read_list (a : Addr) : St (list Addr) :=
  o <~ load a ;;
  match o with
  | OList items => st_ret items
  | _ => st_raise TypeError
  end.

Definition read_event (a : Addr) : St Event :=
  o <~ load a ;;
  match o with
  | OEvent e => st_ret e
  | _ => st_raise TypeError
  end.

Definition read_context (a : Addr) : St Context :=
  o <~ load a ;;
  match o with
  | OContext c => st_ret c
  | _ => st_raise TypeError
  end.

(** [xs.append(x)]: the list object at [l] is changed in place. *)
Definition list_append (l : Addr) (x : Addr) : St unit :=
  items <~ read_list l ;;
  store l (OList (items ++ [x])).

Fixpoint st_for_each {A S} (xs : list A) (body : S -> A -> St S) (s : S) : St S :=
  match xs with
  | [] => st_ret s
  | x :: rest => s' <~ body s x ;; st_for_each rest body s'
  end.

(** The events a list of references leads to. *)
Fixpoint read_events (refs : list Addr) : St (list Event) :=
  match refs with
  | [] => st_ret []
  | a :: rest =>
      e <~ read_event a ;;
      es <~ read_events rest ;;
      st_ret (e :: es)
  end.

(** [[e for e in events if keep(e)]]: the references that pass the test. *)
Fixpoint filter_refs (keep : Event -> bool) (refs : list Addr) : St (list Addr) :=
  match refs with
  | [] => st_ret []
  | a :: rest =>
      e <~ read_event a ;;
      kept <~ filter_refs keep rest ;;
      st_ret (if keep e then a :: kept else kept)
  end.

(** [if k not in d: d[k] = []] then [d[k].append(x)], for a dictionary whose
    values are list objects. *)
Definition setdefault_append (d : list (string * Addr)) (k : string) (x : Addr)
  : St (list (string * Addr)) :=
  match dict_get String.eqb d k with
  | Some l => _ <~ list_append l x ;; st_ret d
  | None =>
      l <~ alloc (OList []) ;;
      _ <~ list_append l x ;;
      st_ret (d ++ [(k, l)])
  end.

(** ** fd_multi_hotel_same_night.py *)

Definition is_hotel (e : Event) : bool :=
  EventClass_eqb (event_class e) HotelEvent.

Definition hotel_stay (hotel : Event) : HotelStay :=
  {| hs_event_id := event_id hotel;
     hs_hotel_name := hotel_name hotel;
     hs_location := location hotel;
     hs_check_in := earliest_start (time_window hotel);
     hs_check_out := latest_end (time_window hotel);
     hs_amount := amount hotel;
     hs_guest_name := guest_name hotel |}.

(** The body of the loop over pairs of stays, lines 40-84, on the two
    events read; [None] stands for a pair that is not reported. *)
Definition check_hotel_pair (rule : Rule) (user_id : string) (hotel1 hotel2 : Event)
  : option MultiHotelFinding :=
  if do_time_intervals_overlap rule (time_window hotel1) (time_window hotel2) then
    let overlap_hours :=
      get_overlap_duration rule (time_window hotel1) (time_window hotel2) Hours in
    if Qleb 8 overlap_hours then
      if negb (String.eqb (hotel_name hotel1) (hotel_name hotel2))
         || negb (is_same_city rule (location hotel1) (location hotel2))
      then
        Some {|
          mh_primary_event_id := event_id hotel1;
          mh_user_id := user_id;
          mh_user_name := user_name hotel1;
          mh_department := department hotel1;
          mh_overlap_hours := overlap_hours;
          mh_hotels := [hotel_stay hotel1; hotel_stay hotel2]
        |}
      else None
    else None
  else None.

(** One pair: read the two events, and append the report, a new object, to
    [suspicious_patterns]. *)
Definition report_hotel_pair (rule : Rule) (user_id : string)
    (suspicious_patterns : Addr) (_ : unit) (pair : Addr * Addr) : St unit :=
  hotel1 <~ read_event (fst pair) ;;
  hotel2 <~ read_event (snd pair) ;;
  match check_hotel_pair rule user_id hotel1 hotel2 with
  | Some f =>
      finding <~ alloc (ORecord (RMultiHotel f)) ;;
      list_append suspicious_patterns finding
  | None => st_ret tt
  end.

(** The body of the loop over users, lines 32-84. *)
Definition check_user_hotels (rule : Rule) (suspicious_patterns : Addr)
    (_ : unit) (item : string * Addr) : St unit :=
  let '(user_id, user_hotels_ref) := item in
  user_hotels <~ read_list user_hotels_ref ;;
  if (List.length user_hotels <? 2)%nat then st_ret tt
  else
    st_for_each (pairs user_hotels)
                (report_hotel_pair rule user_id suspicious_patterns) tt.

(** Lines 22-27: one step of the grouping by user. *)
Definition group_by_user (d : list (string * Addr)) (a : Addr)
  : St (list (string * Addr)) :=
  event <~ read_event a ;;
  setdefault_append d (user_id event) a.

(** [return xs if xs else False]: the list object itself is returned. *)
Definition list_or_false (l : Addr) : St (option Addr) :=
  items <~ read_list l ;;
  match items with
  | [] => st_ret None
  | _ => st_ret (Some l)
  end.

Definition detect_multi_hotel_same_night (rule : Rule) (events context : Addr)
  : St (option Addr) :=
  refs <~ read_list events ;;
  hotel_refs <~ filter_refs is_hotel refs ;;
  hotel_events <~ alloc (OList hotel_refs) ;;
  if (List.length hotel_refs <? 2)%nat then st_ret None
  else
    hotels_by_user <~ st_for_each hotel_refs group_by_user [] ;;
    suspicious_patterns <~ alloc (OList []) ;;
    _ <~ st_for_each (dict_items hotels_by_user)
                     (check_user_hotels rule suspicious_patterns) tt ;;
    list_or_false suspicious_patterns.

(** ** llm_rules/fd_ubiquitous_presence.py, on the store *)

(** [event.__class__.__name__.replace("Event", "")] for the six classes. *)
Definition short_class_name (c : EventClass) : string :=
  match c with
  | FlightEvent => "Flight"
  | RailwayEvent => "Railway"
  | TaxiEvent => "Taxi"
  | FuelEvent => "Fuel"
  | HotelEvent => "Hotel"
  | DailyCheckInEvent => "DailyCheckIn"
  end.

(** Lines 43-52: one step of the grouping of a user's events by city; an
    event whose city is empty is left out. *)
Definition group_by_city (cities : list (string * Addr)) (a : Addr)
  : St (list (string * Addr)) :=
  event <~ read_event a ;;
  city <~ lift (city_of (location event)) ;;
  if String.eqb city "" then st_ret cities
  else setdefault_append cities city a.

(** Lines 62-104: one pair of cities; the record of an impossible pair is a
    new object appended to [distant_city_pairs]. *)
Definition report_city_pair
    (rule : Rule) (min_city_distance_km max_travel_speed_kmh : Q)
    (distant_city_pairs : Addr) (_ : unit)
    (pair : (string * Addr) * (string * Addr)) : St unit :=
  let '((city1, refs1), (city2, refs2)) := pair in
  items1 <~ read_list refs1 ;;
  items2 <~ read_list refs2 ;;
  city1_events <~ read_events items1 ;;
  city2_events <~ read_events items2 ;;
  found <~ lift (check_city_pair rule min_city_distance_km max_travel_speed_kmh
                                 (city1, city1_events) (city2, city2_events)) ;;
  match found with
  | Some p =>
      record <~ alloc (ORecord (RCityPair p)) ;;
      list_append distant_city_pairs record
  | None => st_ret tt
  end.

(** Lines 120-130: one step of the grouping of the details by city; each
    detail is a new object. *)
Definition group_details (all_cities : list (string * Addr)) (a : Addr)
  : St (list (string * Addr)) :=
  event <~ read_event a ;;
  city <~ lift (city_of (location event)) ;;
  if String.eqb city "" then st_ret all_cities
  else
    detail <~ alloc (ORecord (RCityDetail {|
      cd_event_id := event_id event;
      cd_event_type := class_name (event_class event);
      cd_time := earliest_start (time_window event)
    |})) ;;
    setdefault_append all_cities city detail.

(** The body of the loop over users, lines 35-144.  The report lists the
    event types as a set; here they are in order of first occurrence. *)
Definition check_user_presence
    (rule : Rule) (min_city_count min_city_distance_km max_travel_speed_kmh : Q)
    (suspicious_patterns : Addr) (_ : unit) (item : string * Addr) : St unit :=
  let '(user_id, user_event_list_ref) := item in
  user_refs <~ read_list user_event_list_ref ;;
  if Qltb (inject_Z (Z.of_nat (List.length user_refs))) min_city_count then st_ret tt
  else
    cities <~ st_for_each user_refs group_by_city [] ;;
    if Qltb (inject_Z (Z.of_nat (List.length cities))) min_city_count then st_ret tt
    else
      distant_city_pairs <~ alloc (OList []) ;;
      _ <~ st_for_each (pairs (dict_items cities))
                       (report_city_pair rule min_city_distance_km max_travel_speed_kmh
                                         distant_city_pairs) tt ;;
      found_pairs <~ read_list distant_city_pairs ;;
      if Qleb (min_city_count - 1) (inject_Z (Z.of_nat (List.length found_pairs)))
      then
        user_event_list <~ read_events user_refs ;;
        let event_types :=
          distinct (map (fun e => short_class_name (event_class e)) user_event_list) in
        match user_event_list with
        | [] => st_raise ValueError
        | first :: rest =>
            let primary_event := min_by by_earliest_start first rest in
            all_cities <~ st_for_each user_refs group_details [] ;;
            finding <~ alloc (ORecord (RUbiquitous {|
              up_primary_event_id := event_id primary_event;
              up_user_id := user_id;
              up_user_name := user_name primary_event;
              up_department := department primary_event;
              up_date := date_of (earliest_start (time_window primary_event));
              up_city_count := List.length cities;
              up_cities := dict_keys cities;
              up_city_details := all_cities;
              up_event_types := event_types;
              up_distant_city_pairs := distant_city_pairs
            |})) ;;
            list_append suspicious_patterns finding
        end
      else st_ret tt.

Definition detect_ubiquitous_presence (rule : Rule) (events context : Addr)
  : St (option Addr) :=
  refs <~ read_list events ;;
  match refs with
  | [] => st_ret None
  | _ =>
      user_events <~ st_for_each refs group_by_user [] ;;
      settings <~ read_context context ;;
      let min_city_count := context_get settings "ubiquitous_min_city_count" 3 in
      let min_city_distance_km := context_get settings "ubiquitous_min_distance_km" 500 in
      let max_travel_speed_kmh :=
        context_get settings "ubiquitous_max_travel_speed_kmh" 500 in
      suspicious_patterns <~ alloc (OList []) ;;
      _ <~ st_for_each (dict_items user_events)
                       (check_user_presence rule min_city_count min_city_distance_km
                                            max_travel_speed_kmh suspicious_patterns) tt ;;
      list_or_false suspicious_patterns
  end.

(** A store that has all the objects of another, unchanged, and possibly
    more after them. *)
Definition unchanged (h0 h : Heap) : Prop :=
  (List.length h0 <= List.length h)%nat
  /\ forall a, (a < List.length h0)%nat -> nth_error h a = nth_error h0 a.

(** An address that no object of the store [h0] has. *)
Definition fresh (h0 : Heap) (a : Addr) : Prop := (List.length h0 <= a)%nat.

(** ** Worked inputs *)

(** A clock time on a given day, in seconds. *)
Definition at_clock (day hour minute : Z) : datetime :=
  day * 86400 + hour * 3600 + minute * 60.

(** A window with bounds only, and one with exact times as well. *)
Definition window (earliest latest : datetime) : TimeWindow :=
  mkTimeWindow earliest latest None None.

Definition exact_window (earliest latest start_time end_time : datetime) : TimeWindow :=
  mkTimeWindow earliest latest (Some start_time) (Some end_time).

Definition in_city (c : string) : option Location :=
  Some (mkLocation c None None).

(** An event at one place, and a trip from one place to another. *)
Definition an_event (id user : string) (c : EventClass) (w : TimeWindow)
    (loc : option Location) : Event :=
  {| event_id := id; user_id := user; user_name := user; department := "Sales";
     event_class := c; time_window := w; location := loc;
     from_location := None; to_location := None;
     departure_location := None; arrival_location := None;
     amount := 100; hotel_name := ""; guest_name := user; is_self_paid := false |}.

Definition a_trip (id user : string) (c : EventClass) (w : TimeWindow)
    (origin destination : option Location) : Event :=
  {| event_id := id; user_id := user; user_name := user; department := "Sales";
     event_class := c; time_window := w; location := None;
     from_location := origin; to_location := destination;
     departure_location := origin; arrival_location := destination;
     amount := 100; hotel_name := ""; guest_name := user; is_self_paid := false |}.

(** A [rule] object whose helpers read a table of distances: two locations
    are in the same city when their city names are equal, a distance is
    known when the table holds the pair in either order. *)
Definition same_city (a b : option Location) : bool :=
  match a, b with
  | Some x, Some y => String.eqb (city x) (city y)
  | _, _ => false
  end.

Definition table_distance (table : list ((string * string) * Q))
    (a b : option Location) : option Q :=
  match a, b with
  | Some x, Some y =>
      match dict_get PartialFunctions.pair_eqb table (city x, city y) with
      | Some d => Some d
      | None => dict_get PartialFunctions.pair_eqb table (city y, city x)
      end
  | _, _ => None
  end.

Definition table_rule (table : list ((string * string) * Q)) : Rule :=
  {| is_same_city := same_city;
     get_distance := table_distance table;
     calculate_travel_time := fun a b speed =>
       match table_distance table a b with
       | Some d => (d / speed)%Q
       | None => 0%Q
       end;
     is_within_distance := fun a b km =>
       match table_distance table a b with
       | Some d => Qleb d km
       | None => false
       end;
     do_time_intervals_overlap := fun w1 w2 =>
       (earliest_start w1 <=? latest_end w2) && (earliest_start w2 <=? latest_end w1);
     get_overlap_duration := fun w1 w2 u =>
       time_difference (Z.max (earliest_start w1) (earliest_start w2))
                       (Z.min (latest_end w1) (latest_end w2)) u |}.

Definition east_china : list ((string * string) * Q) :=
  [ (("Hangzhou", "Nanjing"), 280%Q);
    (("Hangzhou", "Shaoxing"), 60%Q);
    (("Beijing", "Guangzhou"), 1952%Q) ].

(** The four transport classes as the transport base class. *)
Definition transport_classes (c : EventClass) : bool :=
  match c with
  | FlightEvent | RailwayEvent | TaxiEvent | FuelEvent => true
  | _ => false
  end.

(** A hotel stay in Hangzhou some time between 08:00 and 12:00 and a
    check-in in Nanjing some time between 10:00 and 20:00. *)
Definition hangzhou_stay : Event :=
  an_event "E1" "u1" HotelEvent (window (at_clock 0 8 0) (at_clock 0 12 0))
           (in_city "Hangzhou").

Definition nanjing_checkin : Event :=
  an_event "E2" "u1" DailyCheckInEvent (window (at_clock 0 10 0) (at_clock 0 20 0))
           (in_city "Nanjing").


(** A flight whose exact arrival, 13:30, is before its exact departure,
    14:00, and a train on the same route between 13:00 and 15:00. *)
Definition reversed_flight : Event :=
  a_trip "F1" "u1" FlightEvent
         (exact_window (at_clock 0 13 0) (at_clock 0 15 0) (at_clock 0 14 0) (at_clock 0 13 30))
         (in_city "Hangzhou") (in_city "Nanjing").

Definition same_route_train : Event :=
  a_trip "R1" "u1" RailwayEvent (window (at_clock 0 13 0) (at_clock 0 15 0))
         (in_city "Hangzhou") (in_city "Nanjing").

(** Two later trains on the same route that touch at 16:00. *)
Definition morning_train : Event :=
  a_trip "R2" "u1" RailwayEvent (window (at_clock 0 15 0) (at_clock 0 16 0))
         (in_city "Hangzhou") (in_city "Nanjing").

Definition evening_train : Event :=
  a_trip "R3" "u1" RailwayEvent (window (at_clock 0 16 0) (at_clock 0 17 0))
         (in_city "Nanjing") (in_city "Hangzhou").

(** Check-ins in Nanjing and in Hangzhou on one day, in no distance table of
    the partial-functions rule. *)
Definition nanjing_morning : Event :=
  an_event "C1" "u1" DailyCheckInEvent (window (at_clock 0 9 0) (at_clock 0 10 0))
           (in_city "南京市").

Definition hangzhou_evening : Event :=
  an_event "C2" "u1" DailyCheckInEvent (window (at_clock 0 18 0) (at_clock 0 19 0))
           (in_city "杭州市").



Definition nanjing_noon_checkin : Event :=
  an_event "C5" "u1" DailyCheckInEvent (window (at_clock 0 12 0) (at_clock 0 12 30))
           (in_city "Nanjing").

(** Check-ins in Beijing and Guangzhou within ninety minutes. *)
Definition beijing_checkin : Event :=
  an_event "C6" "u1" DailyCheckInEvent (window (at_clock 0 9 0) (at_clock 0 9 30))
           (in_city "Beijing").

Definition guangzhou_checkin : Event :=
  an_event "C7" "u1" DailyCheckInEvent (window (at_clock 0 10 0) (at_clock 0 10 30))
           (in_city "Guangzhou").

(** Three taxi rides of one user. *)
Definition taxi_ride (id : string) (hour : Z) : Event :=
  a_trip id "u1" TaxiEvent (window (at_clock 0 hour 0) (at_clock 0 hour 20))
         (in_city "Hangzhou") (in_city "Hangzhou").

Definition three_rides : list Event :=
  [taxi_ride "T1" 9; taxi_ride "T2" 10; taxi_ride "T3" 11].

(** The routes the multi-transport rule builds for the trips above. *)
Definition route (e : Event) (origin destination : string)
    (start_time end_time : datetime) (kind : string) : Route :=
  mkRoute (event_id e) e origin destination start_time end_time kind.

Definition reversed_flight_route : Route :=
  route reversed_flight "Hangzhou" "Nanjing" (at_clock 0 14 0) (at_clock 0 13 30) "Flight".

Definition same_route_train_route : Route :=
  route same_route_train "Hangzhou" "Nanjing" (at_clock 0 13 0) (at_clock 0 15 0) "Railway".

Definition morning_route : Route :=
  route morning_train "Hangzhou" "Nanjing" (at_clock 0 15 0) (at_clock 0 16 0) "Railway".

Definition evening_route : Route :=
  route evening_train "Nanjing" "Hangzhou" (at_clock 0 16 0) (at_clock 0 17 0) "Railway".

(** ** Assertions on the store *)

(** [wp m Q E h]: run from [h], the computation [m] leaves a store that
    satisfies [Q] with its result, or [E] when it raises. *)
Definition wp {A} (m : St A) (Q : A -> Heap -> Prop) (E : Heap -> Prop) (h : Heap) : Prop :=
  match m h with
  | (h', inr a) => Q a h'
  | (h', inl _) => E h'
  end.






(** ** Worked stores *)

Definition a_hotel_stay (id user name : string) (w : TimeWindow)
    (loc : option Location) : Event :=
  {| event_id := id; user_id := user; user_name := user; department := "Sales";
     event_class := HotelEvent; time_window := w; location := loc;
     from_location := None; to_location := None;
     departure_location := None; arrival_location := None;
     amount := 500; hotel_name := name; guest_name := user; is_self_paid := false |}.

(** Two stays of one user for the same night, in two hotels; the list of
    events is the object at address 2, the context the one at address 3. *)
Definition two_hotels : Heap :=
  [ OEvent (a_hotel_stay "H1" "u1" "Lakeside"
              (window (at_clock 0 14 0) (at_clock 1 12 0)) (in_city "Hangzhou"));
    OEvent (a_hotel_stay "H2" "u1" "Riverside"
              (window (at_clock 0 15 0) (at_clock 1 11 0)) (in_city "Nanjing"));
    OList [0%nat; 1%nat];
    OContext [] ].



(** * Further definitions *)



(** The two time differences the check-in rule may compare with the
    required travel time, in hours: from the end of the first check-in to
    the start of the second, and from the end of the second to the start of
    the first. *)
Definition forward_gap (event1 event2 : Event) : Q :=
  Qabs (time_difference (latest_end (time_window event1))
                        (earliest_start (time_window event2)) Hours).

Definition backward_gap (event1 event2 : Event) : Q :=
  Qabs (time_difference (latest_end (time_window event2))
                        (earliest_start (time_window event1)) Hours).

(** The conditions under which the check-in rule records a pair. *)
Definition checkin_pair_recorded
    (rule : Rule) (speed buffer min_distance : Q) (event1 event2 : Event) : Prop :=
  is_same_city rule (location event1) (location event2) = false
  /\ (exists distance,
        get_distance rule (location event1) (location event2) = Some distance
        /\ (min_distance <= distance)%Q
        /\ ~ (speed == 0)%Q
        /\ ((forward_gap event1 event2 < distance / speed + buffer)%Q
            \/ (backward_gap event1 event2 < distance / speed + buffer)%Q))
  /\ location event1 <> None /\ location event2 <> None.

(** Exactly one of two routes is a taxi ride. *)
Definition mixed_taxi (route1 route2 : Route) : bool :=
  xorb (String.eqb (r_transport_type route1) "Taxi")
       (String.eqb (r_transport_type route2) "Taxi").

(** What a finding of the multi-transport rule says about the group: it
    names two transport events of one user whose routes match and whose
    resolved times pass the overlap test. *)
Definition multi_transport_finding_of (events : list Event)
    (f : MultiTransportFinding) : Prop :=
  exists event1 event2 route1 route2,
    In event1 events /\ In event2 events
    /\ user_id event1 = mt_user_id f /\ user_id event2 = mt_user_id f
    /\ mt_primary_event_id f = event_id event1
    /\ mt_secondary_event_id f = event_id event2
    /\ route_of_event event1 = Some route1
    /\ route_of_event event2 = Some route2
    /\ routes_match route1 route2 = true
    /\ times_overlap route1 route2 = true.

(** ** fd_hotel_flight_temporal_conflict_nofunc.py, the whole rule *)

(** The fields of a finding that depend on the kind of conflict.  The
    source formats the times as text; here they are the datetimes. *)
Inductive ConflictDetail : Type :=
| DuringStay (hotel_check_in hotel_check_out flight_time : datetime)
             (flight_direction : string)
| AfterFlight (hotel_check_in flight_arrival : datetime)
              (time_difference_hours : Q) (min_travel_hours : Q)
| BeforeFlight (hotel_check_out flight_departure : datetime)
               (time_difference_hours : Q) (min_travel_hours : Q).

Record HotelFlightFinding : Type := mkHotelFlightFinding {
  hf_primary_event_id : string;
  hf_user_id : string;
  hf_user_name : string;
  hf_department : string;
  hf_conflict_type : string;
  hf_hotel_event_id : string;
  hf_flight_event_id : string;
  hf_hotel_city : string;
  hf_flight_city : string;
  hf_detail : ConflictDetail
}.

(** [round(x, 2)] *)
Definition py_round2 (q : Q) : Q := (inject_Z (py_round (q * 100)) / 100)%Q.

(** [loc.city if loc else None]; the rule goes on only with a city that is
    neither [None] nor empty, so the empty string stands for both. *)
Definition city_or_none (loc : option Location) : string :=
  match loc with
  | Some l => city l
  | None => ""
  end.

Definition is_flight (e : Event) : bool :=
  EventClass_eqb (event_class e) FlightEvent.

Definition two_hours : Z := 2 * 3600.

(** The common fields of the four findings. *)
Definition conflict (user_id : string) (hotel flight : Event)
    (kind hotel_city flight_city : string) (detail : ConflictDetail)
  : HotelFlightFinding :=
  {| hf_primary_event_id := event_id hotel;
     hf_user_id := user_id;
     hf_user_name := user_name hotel;
     hf_department := department hotel;
     hf_conflict_type := kind;
     hf_hotel_event_id := event_id hotel;
     hf_flight_event_id := event_id flight;
     hf_hotel_city := hotel_city;
     hf_flight_city := flight_city;
     hf_detail := detail |}.

(** Lines 64-86: the flight departs from another city during the stay. *)
Definition departure_during_stay (user_id : string) (hotel flight : Event)
    (hotel_city departure_city : string) : list HotelFlightFinding :=
  if negb (String.eqb departure_city hotel_city)
     && (check_in_time hotel <? departure_time flight)
     && (departure_time flight <? check_out_time hotel)
  then
    let transit_buffer_time := departure_time flight - two_hours in
    if check_in_time hotel <? transit_buffer_time then
      [conflict user_id hotel flight "departure_during_stay" hotel_city departure_city
                (DuringStay (check_in_time hotel) (check_out_time hotel)
                            (departure_time flight) "departure")]
    else []
  else [].

(** Lines 88-110: the flight arrives in another city during the stay. *)
Definition arrival_during_stay (user_id : string) (hotel flight : Event)
    (hotel_city arrival_city : string) : list HotelFlightFinding :=
  if negb (String.eqb arrival_city hotel_city)
     && (check_in_time hotel <? arrival_time flight)
     && (arrival_time flight <? check_out_time hotel)
  then
    let transit_buffer_time := arrival_time flight + two_hours in
    if transit_buffer_time <? check_out_time hotel then
      [conflict user_id hotel flight "arrival_during_stay" hotel_city arrival_city
                (DuringStay (check_in_time hotel) (check_out_time hotel)
                            (arrival_time flight) "arrival")]
    else []
  else [].

(** Lines 112-136: check-in less than three hours after a flight arrived in
    another city. *)
Definition impossible_checkin_after_flight (user_id : string) (hotel flight : Event)
    (hotel_city arrival_city : string) : list HotelFlightFinding :=
  if negb (String.eqb arrival_city hotel_city) then
    let min_travel_hours := 3%Q in
    let time_difference :=
      (inject_Z (check_in_time hotel - arrival_time flight) / 3600)%Q in
    if Qltb 0 time_difference && Qltb time_difference min_travel_hours then
      [conflict user_id hotel flight "impossible_checkin_after_flight"
                hotel_city arrival_city
                (AfterFlight (check_in_time hotel) (arrival_time flight)
                             (py_round2 time_difference) min_travel_hours)]
    else []
  else [].

(** Lines 138-162: a flight leaves another city less than three hours after
    check-out. *)
Definition impossible_checkout_before_flight (user_id : string) (hotel flight : Event)
    (hotel_city departure_city : string) : list HotelFlightFinding :=
  if negb (String.eqb departure_city hotel_city) then
    let min_travel_hours := 3%Q in
    let time_difference :=
      (inject_Z (departure_time flight - check_out_time hotel) / 3600)%Q in
    if Qltb 0 time_difference && Qltb time_difference min_travel_hours then
      [conflict user_id hotel flight "impossible_checkout_before_flight"
                hotel_city departure_city
                (BeforeFlight (check_out_time hotel) (departure_time flight)
                              (py_round2 time_difference) min_travel_hours)]
    else []
  else [].

(** The body of the loop over flights, lines 48-162: what one flight adds to
    [fraud_instances] for one hotel. *)
Definition flight_conflicts (user_id : string) (hotel : Event) (hotel_city : string)
    (flight : Event) : list HotelFlightFinding :=
  let departure_city := city_or_none (departure_location flight) in
  let arrival_city := city_or_none (arrival_location flight) in
  if String.eqb departure_city "" || String.eqb arrival_city "" then []
  else
    departure_during_stay user_id hotel flight hotel_city departure_city
    ++ arrival_during_stay user_id hotel flight hotel_city arrival_city
    ++ impossible_checkin_after_flight user_id hotel flight hotel_city arrival_city
    ++ impossible_checkout_before_flight user_id hotel flight hotel_city departure_city.

(** The body of the loop over hotels, lines 38-162. *)
Definition hotel_conflicts (user_id : string) (flight_events : list Event)
    (hotel : Event) : list HotelFlightFinding :=
  let hotel_city := city_or_none (location hotel) in
  if String.eqb hotel_city "" then []
  else flat_map (flight_conflicts user_id hotel hotel_city) flight_events.

Definition detect_hotel_flight_temporal_conflict
    (rule : Rule) (events : list Event) (context : Context)
  : Detected HotelFlightFinding :=
  match events with
  | [] => NoFinding
  | _ =>
      let events_by_user := group_by String.eqb user_id events in
      let fraud_instances :=
        flat_map (fun '(user_id, user_events) =>
          let hotel_events := filter is_hotel user_events in
          let flight_events := filter is_flight user_events in
          match hotel_events, flight_events with
          | [], _ | _, [] => []
          | _, _ => flat_map (hotel_conflicts user_id flight_events) hotel_events
          end)
          (dict_items events_by_user) in
      findings_or_false fraud_instances
  end.

(** What a finding of the rule says about the group: it names a hotel stay
    and a flight of one user, the hotel's city, and a city of the flight
    that is another one. *)
Definition hotel_flight_finding_of (events : list Event) (f : HotelFlightFinding) : Prop :=
  exists hotel flight,
    In hotel events /\ In flight events
    /\ is_hotel hotel = true /\ is_flight flight = true
    /\ user_id hotel = hf_user_id f /\ user_id flight = hf_user_id f
    /\ hf_primary_event_id f = event_id hotel
    /\ hf_hotel_event_id f = event_id hotel
    /\ hf_flight_event_id f = event_id flight
    /\ hf_hotel_city f = city_or_none (location hotel)
    /\ (hf_flight_city f = city_or_none (departure_location flight)
        \/ hf_flight_city f = city_or_none (arrival_location flight))
    /\ hf_flight_city f <> hf_hotel_city f.

(** [wider] is the event [e] with the bounds of its window moved apart:
    same identifier, same location, an earlier or equal [earliest_start], a
    later or equal [latest_end]. *)
Definition widened (e wider : Event) : Prop :=
  event_id wider = event_id e
  /\ location wider = location e
  /\ earliest_start (time_window wider) <= earliest_start (time_window e)
  /\ latest_end (time_window e) <= latest_end (time_window wider).

(** The bounds of the window are in order. *)
Definition bounds_in_order (e : Event) : Prop :=
  earliest_start (time_window e) <= latest_end (time_window e).

(** ** fd_multi_hotel_same_night.py: what a report says *)

(** The list of events the rule receives: the object at [events] is a list
    whose items are addresses of event objects. *)
Definition holds_events (h : Heap) (events : Addr) (refs : list Addr) : Prop :=
  nth_error h events = Some (OList refs)
  /\ Forall (fun a => exists e, nth_error h a = Some (OEvent e)) refs.

(** [hotel] is one of the hotel events of [user] among the events given. *)
Definition hotel_of (h0 : Heap) (refs : list Addr) (user : string) (hotel : Event)
  : Prop :=
  exists a, In a refs /\ nth_error h0 a = Some (OEvent hotel)
            /\ is_hotel hotel = true /\ user_id hotel = user.

(** The object at [r] is a report on two stays of one user among the events
    given, whose windows overlap for eight hours or more, in hotels of
    different names or cities. *)
Definition sound_hotel_report (rule : Rule) (h0 : Heap) (refs : list Addr)
    (h : Heap) (r : Addr) : Prop :=
  exists f hotel1 hotel2,
    nth_error h r = Some (ORecord (RMultiHotel f))
    /\ hotel_of h0 refs (mh_user_id f) hotel1
    /\ hotel_of h0 refs (mh_user_id f) hotel2
    /\ mh_primary_event_id f = event_id hotel1
    /\ mh_hotels f = [hotel_stay hotel1; hotel_stay hotel2]
    /\ do_time_intervals_overlap rule (time_window hotel1) (time_window hotel2) = true
    /\ mh_overlap_hours f
       = get_overlap_duration rule (time_window hotel1) (time_window hotel2) Hours
    /\ (8 <= mh_overlap_hours f)%Q
    /\ (hotel_name hotel1 <> hotel_name hotel2
        \/ is_same_city rule (location hotel1) (location hotel2) = false).

(** No exception is allowed. *)
Definition no_exception (h : Heap) : Prop := False.

(** What the rule returns on a list of events: [False], or a non-empty
    list of sound reports. *)
Definition sound_hotel_result (rule : Rule) (h0 : Heap) (refs : list Addr)
    (result : option Addr) (h : Heap) : Prop :=
  match result with
  | None => True
  | Some l =>
      exists reports,
        nth_error h l = Some (OList reports) /\ reports <> []
        /\ Forall (sound_hotel_report rule h0 refs h) reports
  end.

(** The invariants of the two loops of the rule.  [hotel_ref] is an address
    of a hotel event of [user] among the events given; [grouped] says that
    the dictionary holds, under each user, a list object of the rule's own
    with hotel events of that user; [reported] adds the list of reports at
    [sp]. *)
Definition hotel_ref (h0 : Heap) (refs : list Addr) (user : string) (a : Addr) : Prop :=
  In a refs
  /\ exists e, nth_error h0 a = Some (OEvent e) /\ is_hotel e = true /\ user_id e = user.

Definition user_lists (h0 : Heap) (refs : list Addr) (d : list (string * Addr))
    (h : Heap) : Prop :=
  forall k l, In (k, l) d ->
    fresh h0 l
    /\ exists items, nth_error h l = Some (OList items)
                     /\ Forall (hotel_ref h0 refs k) items.

Definition grouped (h0 : Heap) (refs : list Addr) (d : list (string * Addr))
    (h : Heap) : Prop :=
  unchanged h0 h /\ NoDup (map snd d) /\ user_lists h0 refs d h.

Definition reported (rule : Rule) (h0 : Heap) (refs : list Addr)
    (d : list (string * Addr)) (sp : Addr) (h : Heap) : Prop :=
  unchanged h0 h /\ user_lists h0 refs d h
  /\ (forall k l, In (k, l) d -> l <> sp)
  /\ fresh h0 sp
  /\ exists reports, nth_error h sp = Some (OList reports)
                     /\ Forall (sound_hotel_report rule h0 refs h) reports.

(** ** fd_checkin_different_cities_same_day.py: what a finding says *)



(** ** Further worked inputs *)

(** A stay in Hangzhou from 14:00 to noon of the next day, and a flight of
    the same user from Nanjing to Beijing, 20:00 to 22:00 of the first
    day. *)
Definition lakeside_stay : Event :=
  a_hotel_stay "H1" "u1" "Lakeside" (window (at_clock 0 14 0) (at_clock 1 12 0))
               (in_city "Hangzhou").

Definition nanjing_beijing_flight : Event :=
  a_trip "F2" "u1" FlightEvent (window (at_clock 0 20 0) (at_clock 0 22 0))
         (in_city "Nanjing") (in_city "Beijing").

(** The check-ins in Beijing and Guangzhou with wider windows: 08:00 to
    10:00 and 09:30 to 11:00. *)
Definition beijing_wide_checkin : Event :=
  an_event "C6" "u1" DailyCheckInEvent (window (at_clock 0 8 0) (at_clock 0 10 0))
           (in_city "Beijing").

Definition guangzhou_wide_checkin : Event :=
  an_event "C7" "u1" DailyCheckInEvent (window (at_clock 0 9 30) (at_clock 0 11 0))
           (in_city "Guangzhou").

(** * Properties *)

Lemma Qltb_lt (a b : Q) : Qltb a b = true <-> (a < b)%Q.
Proof.
  unfold Qltb. rewrite negb_true_iff.
  split; intro H.
  - apply Qnot_le_lt. intro Hle. apply Qle_bool_iff in Hle. congruence.
  - destruct (Qle_bool b a) eqn:E; [|reflexivity].
    apply Qle_bool_iff in E. exfalso. apply (Qlt_not_le _ _ H E).
Qed.

Lemma Qltb_ge (a b : Q) : Qltb a b = false <-> (b <= a)%Q.
Proof.
  unfold Qltb. rewrite negb_false_iff. apply Qle_bool_iff.
Qed.


(** ** Effective start and end (section 3 of the specification) *)



(** ** The overlap test of the multi-transport rule *)

Lemma times_overlap_iff (route1 route2 : Route) :
  times_overlap route1 route2 = true
  <-> r_start_time route1 <= r_end_time route2
      /\ r_start_time route2 <= r_end_time route1.
Proof.
  unfold times_overlap. rewrite andb_true_iff, !Z.leb_le. reflexivity.
Qed.

(** C3, as amended.  For two routes whose resolved start is not after their
    resolved end, the overlap test is true exactly when
    [max(start1, start2) <= min(end1, end2)]; the intervals are closed, so
    two such routes that touch at an endpoint overlap. *)
Theorem times_overlap_closed_intervals (route1 route2 : Route) :
  r_start_time route1 <= r_end_time route1 ->
  r_start_time route2 <= r_end_time route2 ->
  (times_overlap route1 route2 = true
   <-> Z.max (r_start_time route1) (r_start_time route2)
       <= Z.min (r_end_time route1) (r_end_time route2))
  /\ (r_end_time route1 = r_start_time route2 -> times_overlap route1 route2 = true).
Proof.
  intros H1 H2. rewrite times_overlap_iff. split.
  - split; intro H; lia.
  - intro Ht. lia.
Qed.

(** ** Reversed transport times *)

Lemma time_difference_negative (t1 t2 : datetime) (u : TimeUnit) :
  t2 < t1 -> Qltb (time_difference t1 t2 u) 0 = true.
Proof.
  intro H. apply Qltb_lt. unfold time_difference.
  apply Qlt_shift_div_r.
  - destruct u; reflexivity.
  - rewrite Qmult_0_l. unfold Qlt, inject_Z; simpl. lia.
Qed.

(** C4. For a singleton group holding a transport event whose window has
    both exact times, the end before the start,
    [detect_transport_reverse_time] returns a finding whose
    [primary_event_id] is the event's id; when either exact time is missing
    it returns [False].  The window type holds the reversed times as they
    are. *)
Theorem reverse_time_is_reported (rule : Rule) (context : Context) (event : Event) :
  isinstance_TransportEvent (event_class event) = true ->
  (forall start_time end_time,
      exact_start_time (time_window event) = Some start_time ->
      exact_end_time (time_window event) = Some end_time ->
      end_time < start_time ->
      exists f, detect_transport_reverse_time rule [event] context = Finding f
                /\ rt_primary_event_id f = event_id event)
  /\ (exact_start_time (time_window event) = None
      \/ exact_end_time (time_window event) = None ->
      detect_transport_reverse_time rule [event] context = NoFinding).
Proof.
  intro Ht. unfold detect_transport_reverse_time. simpl. rewrite Ht. simpl.
  split.
  - intros s t Hs He Hlt. rewrite Hs, He.
    rewrite (time_difference_negative _ _ Minutes Hlt).
    eexists. split; reflexivity.
  - intros [H|H]; rewrite H; [reflexivity|].
    destruct (exact_start_time (time_window event)); reflexivity.
Qed.

(** ** Individual grouping *)

Lemma singleton_guard_singleton (e : Event) : singleton_guard [e] = false.
Proof. reflexivity. Qed.

(** C7. Under the individual grouping strategy every candidate group has
    exactly one event, so the singleton guard of the individually grouped
    rules lets it through; every event of the filtered input is the member
    of one of the groups, and [detect] is called once for each event, on the
    list that holds just that event. *)
Theorem individual_groups_are_singletons
    (event_types : list EventClass) (all_events : list Event) :
  (forall group,
      In group (individual_groups (filter_event_types event_types all_events)) ->
      List.length group = 1%nat /\ singleton_guard group = false)
  /\ (forall e,
      In e (filter_event_types event_types all_events) ->
      In [e] (individual_groups (filter_event_types event_types all_events)))
  /\ (forall F (detect : Rule -> list Event -> Context -> Detected F) rule context,
      evaluate_individual detect event_types rule all_events context
      = map (fun e => detect rule [e] context)
            (filter_event_types event_types all_events)).
Proof.
  unfold individual_groups. split; [|split].
  - intros group H. apply in_map_iff in H. destruct H as [e [<- _]].
    split; reflexivity.
  - intros e H. apply in_map_iff. exists e. split; [reflexivity|exact H].
  - intros F detect rule context. unfold evaluate_individual, individual_groups.
    rewrite map_map. reflexivity.
Qed.

(** ** Loops and grouping *)

Lemma for_each_raises {A S} (P : PyExn -> Prop) (body : S -> A -> Py S) (xs : list A) :
  (forall s x, In x xs -> match body s x with inl e => P e | inr _ => True end) ->
  (exists x, In x xs /\ forall s, exists e, body s x = inl e) ->
  forall s, exists e, for_each xs body s = inl e /\ P e.
Proof.
  induction xs as [|x rest IH]; intros Hall [x0 [Hin Hraise]] s.
  - destruct Hin.
  - simpl. destruct (body s x) as [e|s'] eqn:E.
    + exists e. split; [reflexivity|].
      specialize (Hall s x (or_introl eq_refl)). rewrite E in Hall. exact Hall.
    + simpl. apply IH.
      * intros s0 y Hy. apply Hall. right. exact Hy.
      * destruct Hin as [->|Hin].
        -- destruct (Hraise s) as [e He]. congruence.
        -- exists x0. split; assumption.
Qed.

Lemma dict_append_total_length {K A} (eqb : K -> K -> bool)
    (d : list (K * list A)) (k : K) (x : A) :
  total_length (dict_append eqb d k x) = S (total_length d).
Proof.
  induction d as [|[k' xs] rest IH]; simpl.
  - reflexivity.
  - destruct (eqb k k'); simpl.
    + rewrite length_app. simpl. lia.
    + rewrite IH. lia.
Qed.

Lemma group_fold_total_length {K A} (eqb : K -> K -> bool) (key : A -> K)
    (xs : list A) (d : list (K * list A)) :
  total_length (fold_left (fun d x => dict_append eqb d (key x) x) xs d)
  = (List.length xs + total_length d)%nat.
Proof.
  revert d. induction xs as [|x rest IH]; intro d; simpl.
  - reflexivity.
  - rewrite IH, dict_append_total_length. lia.
Qed.

Lemma In_total_length {K A} (d : list (K * list A)) (k : K) (l : list A) :
  In (k, l) d -> (List.length l <= total_length d)%nat.
Proof.
  induction d as [|kv rest IH]; simpl; intros H.
  - destruct H.
  - destruct H as [->|H]; simpl; [lia|]. specialize (IH H). lia.
Qed.

Lemma group_by_length_le {K A} (eqb : K -> K -> bool) (key : A -> K)
    (xs : list A) (k : K) (l : list A) :
  In (k, l) (group_by eqb key xs) -> (List.length l <= List.length xs)%nat.
Proof.
  intro H. apply In_total_length in H. unfold group_by in H.
  rewrite group_fold_total_length in H. simpl in H. lia.
Qed.

Lemma insert_by_In {A} (key : A -> Z) (x y : A) (xs : list A) :
  In y (insert_by key x xs) <-> y = x \/ In y xs.
Proof.
  induction xs as [|z rest IH]; simpl.
  - split; intros [H|H]; auto.
  - destruct (key z <=? key x); simpl; rewrite ?IH; split; intro H;
      repeat destruct H as [H|H]; auto.
Qed.

Lemma sorted_by_In {A} (key : A -> Z) (y : A) (xs : list A) :
  In y (sorted_by key xs) <-> In y xs.
Proof.
  induction xs as [|x rest IH]; simpl.
  - reflexivity.
  - rewrite insert_by_In, IH. split; intros [H|H]; auto.
Qed.

Lemma insert_by_length {A} (key : A -> Z) (x : A) (xs : list A) :
  List.length (insert_by key x xs) = S (List.length xs).
Proof.
  induction xs as [|z rest IH]; simpl; [reflexivity|].
  destruct (key z <=? key x); simpl; [rewrite IH|]; reflexivity.
Qed.

Lemma sorted_by_length {A} (key : A -> Z) (xs : list A) :
  List.length (sorted_by key xs) = List.length xs.
Proof.
  induction xs as [|x rest IH]; simpl; [reflexivity|].
  rewrite insert_by_length, IH. reflexivity.
Qed.


(** A group is the sublist of the elements that have its key. *)
Section Grouping.

Context {K A : Type} (eqb : K -> K -> bool) (key : A -> K).
Hypothesis eqb_eq : forall a b, eqb a b = true <-> a = b.

Lemma eqb_refl_true (a : K) : eqb a a = true.
Proof. apply eqb_eq. reflexivity. Qed.

Lemma dict_get_In_pair {V} (d : list (K * V)) (k : K) (v : V) :
  dict_get eqb d k = Some v -> In (k, v) d.
Proof.
  induction d as [|[k' v'] rest IH]; simpl; [discriminate|].
  destruct (eqb k k') eqn:E; intro H.
  - apply eqb_eq in E. inversion H. subst. left. reflexivity.
  - right. exact (IH H).
Qed.

Lemma dict_get_dict_append (d : list (K * list A)) (k k' : K) (x : A) :
  dict_get eqb (dict_append eqb d k x) k'
  = if eqb k' k
    then Some (match dict_get eqb d k with Some l => l ++ [x] | None => [x] end)
    else dict_get eqb d k'.
Proof.
  induction d as [|[k0 l0] rest IH]; simpl.
  - reflexivity.
  - destruct (eqb k k0) eqn:E0; simpl.
    + apply eqb_eq in E0. subst k0.
      destruct (eqb k' k); reflexivity.
    + rewrite IH. destruct (eqb k' k0) eqn:E1; [|reflexivity].
      destruct (eqb k' k) eqn:E2; [|reflexivity].
      apply eqb_eq in E1. apply eqb_eq in E2. subst.
      rewrite eqb_refl_true in E0. discriminate.
Qed.

Lemma dict_get_group_fold (xs : list A) (d : list (K * list A)) (k : K) :
  dict_get eqb (fold_left (fun d x => dict_append eqb d (key x) x) xs d) k
  = match dict_get eqb d k, filter (fun x => eqb (key x) k) xs with
    | Some l, f => Some (l ++ f)
    | None, [] => None
    | None, f => Some f
    end.
Proof.
  revert d. induction xs as [|x rest IH]; intro d; simpl.
  - destruct (dict_get eqb d k); [rewrite app_nil_r|]; reflexivity.
  - rewrite IH, dict_get_dict_append.
    destruct (eqb k (key x)) eqn:E.
    + apply eqb_eq in E. subst k. rewrite eqb_refl_true.
      destruct (dict_get eqb d (key x)); [rewrite <- app_assoc|]; reflexivity.
    + assert (E' : eqb (key x) k = false).
      { destruct (eqb (key x) k) eqn:E'; [|reflexivity].
        apply eqb_eq in E'. subst k. rewrite eqb_refl_true in E. discriminate. }
      rewrite E'. reflexivity.
Qed.

Lemma group_by_In (xs : list A) (x : A) :
  In x xs ->
  In (key x, filter (fun y => eqb (key y) (key x)) xs) (group_by eqb key xs).
Proof.
  intro Hin. apply dict_get_In_pair. unfold group_by.
  rewrite dict_get_group_fold. simpl.
  assert (Hx : In x (filter (fun y => eqb (key y) (key x)) xs)).
  { apply filter_In. split; [exact Hin|apply eqb_refl_true]. }
  destruct (filter (fun y => eqb (key y) (key x)) xs); [destruct Hx|reflexivity].
Qed.

End Grouping.

Lemma group_by_user_In (events : list Event) (user : string) :
  filter (fun e => String.eqb (user_id e) user) events <> [] ->
  In (user, filter (fun e => String.eqb (user_id e) user) events)
     (group_by String.eqb user_id events).
Proof.
  intro Hne.
  destruct (filter (fun e => String.eqb (user_id e) user) events) as [|x rest] eqn:E;
    [congruence|].
  assert (Hx : In x (filter (fun e => String.eqb (user_id e) user) events))
    by (rewrite E; left; reflexivity).
  apply filter_In in Hx. destruct Hx as [Hin Hu]. apply String.eqb_eq in Hu.
  rewrite <- E. subst user.
  apply (group_by_In String.eqb user_id String.eqb_eq events x Hin).
Qed.

(** ** The transport check of the impossible-travel rule *)








Lemma dict_append_nonempty {K A} (eqb : K -> K -> bool)
    (d : list (K * list A)) (k : K) (x : A) :
  (forall k' l, In (k', l) d -> l <> []) ->
  forall k' l, In (k', l) (dict_append eqb d k x) -> l <> [].
Proof.
  induction d as [|[k0 xs] rest IH]; simpl; intros Hd k' l H.
  - destruct H as [H|[]]. inversion H. discriminate.
  - destruct (eqb k k0); simpl in H.
    + destruct H as [H|H].
      * inversion H. destruct xs; discriminate.
      * apply (Hd k' l). right. exact H.
    + destruct H as [H|H].
      * apply (Hd k' l). left. exact H.
      * apply (IH (fun k1 l1 H1 => Hd k1 l1 (or_intror H1)) k' l H).
Qed.

Lemma group_by_nonempty {K A} (eqb : K -> K -> bool) (key : A -> K)
    (xs : list A) (k : K) (l : list A) :
  In (k, l) (group_by eqb key xs) -> l <> [].
Proof.
  unfold group_by.
  assert (H : forall (d : list (K * list A)),
             (forall k' l', In (k', l') d -> l' <> []) ->
             forall k' l',
               In (k', l') (fold_left (fun d x => dict_append eqb d (key x) x) xs d) ->
               l' <> []).
  { induction xs as [|x rest IH]; intros d Hd k' l' Hin; simpl in Hin.
    - exact (Hd k' l' Hin).
    - apply (IH (dict_append eqb d (key x) x)) with (k' := k'); [|exact Hin].
      apply dict_append_nonempty. exact Hd. }
  apply H. intros k' l' [].
Qed.

(** ** The sort key of the sequential-taxi rule *)

Lemma time_interval_bound_raises (e : Event) (bound : string) :
  time_interval_bound e bound = raise (AttributeError "time_interval").
Proof. reflexivity. Qed.

Lemma check_user_taxis_outcome
    (rule : Rule) (time_threshold amount_threshold min_rides : Q)
    (acc : list SequentialTaxiFinding) (user : string) (user_taxi_events : list Event) :
  user_taxi_events <> [] ->
  check_user_taxis rule time_threshold amount_threshold min_rides acc
                   (user, user_taxi_events)
  = if Qltb (inject_Z (Z.of_nat (List.length user_taxi_events))) min_rides
    then ret acc
    else raise (AttributeError "time_interval").
Proof.
  intro Hne. unfold check_user_taxis.
  destruct (Qltb _ min_rides); [reflexivity|].
  destruct user_taxi_events as [|e rest]; [congruence|]. reflexivity.
Qed.

Lemma sequential_taxi_raises_in_group
    (rule : Rule) (events : list Event) (context : Context)
    (user : string) (user_taxi_events : list Event) :
  In (user, user_taxi_events) (group_by String.eqb user_id (filter is_taxi events)) ->
  (3 <= List.length user_taxi_events)%nat ->
  (context_get context "sequential_taxi_min_rides" 3
   <= inject_Z (Z.of_nat (List.length user_taxi_events)))%Q ->
  detect_sequential_taxi_rides rule events context
  = raise (AttributeError "time_interval").
Proof.
  intros Hgroup Hthree Hmin.
  pose proof (group_by_length_le _ _ _ _ _ Hgroup) as Hle.
  unfold detect_sequential_taxi_rides.
  destruct (List.length (filter is_taxi events) <? 3)%nat eqn:E;
    [apply Nat.ltb_lt in E; lia|].
  destruct (for_each_raises (fun e => e = AttributeError "time_interval")
              (check_user_taxis rule
                 (context_get context "sequential_taxi_time_threshold" (1 # 2))
                 (context_get context "sequential_taxi_amount_threshold" 150)
                 (context_get context "sequential_taxi_min_rides" 3))
              (dict_items (group_by String.eqb user_id (filter is_taxi events))))
    with (s := @nil SequentialTaxiFinding) as [e [He Pe]].
  - intros s [u l] Hin. rewrite check_user_taxis_outcome.
    + destruct (Qltb _ _); [exact I|reflexivity].
    + exact (group_by_nonempty _ _ _ _ _ Hin).
  - exists (user, user_taxi_events). split; [exact Hgroup|].
    intro s. rewrite check_user_taxis_outcome.
    + apply Qltb_ge in Hmin. rewrite Hmin. eexists. reflexivity.
    + destruct user_taxi_events; [simpl in Hthree; lia|discriminate].
  - rewrite He, Pe. reflexivity.
Qed.

(** C9, as amended.  When some user has at least three taxi events in the
    group, and at least [sequential_taxi_min_rides] of them (3 unless the
    context says otherwise), [detect_sequential_taxi_rides] does not return:
    the sort key reads [time_interval], which no event has, and the call
    raises [AttributeError]. *)
Theorem sequential_taxi_raises
    (rule : Rule) (events : list Event) (context : Context) (user : string) :
  let rides :=
    filter (fun e => String.eqb (user_id e) user) (filter is_taxi events) in
  (3 <= List.length rides)%nat ->
  (context_get context "sequential_taxi_min_rides" 3
   <= inject_Z (Z.of_nat (List.length rides)))%Q ->
  detect_sequential_taxi_rides rule events context
  = raise (AttributeError "time_interval").
Proof.
  intros rides Hthree Hmin.
  apply (sequential_taxi_raises_in_group rule events context user rides);
    try assumption.
  apply group_by_user_In. intro Hnil. fold rides in Hnil.
  rewrite Hnil in Hthree. simpl in Hthree. lia.
Qed.

(** ** Most favourable pairing in the ubiquitous-presence rule *)

Lemma fold_left_min_init (l : list Z) (a : Z) : fold_left Z.min l a <= a.
Proof.
  revert a. induction l as [|y rest IH]; intro a; simpl; [lia|].
  specialize (IH (Z.min a y)). lia.
Qed.

Lemma fold_left_min_le (l : list Z) (a x : Z) :
  x = a \/ In x l -> fold_left Z.min l a <= x.
Proof.
  intros [->|H]; [apply fold_left_min_init|].
  revert a. induction l as [|y rest IH]; intro a; simpl; [destruct H|].
  destruct H as [->|H].
  - pose proof (fold_left_min_init rest (Z.min a x)). lia.
  - apply IH. exact H.
Qed.

Lemma fold_left_max_init (l : list Z) (a : Z) : a <= fold_left Z.max l a.
Proof.
  revert a. induction l as [|y rest IH]; intro a; simpl; [lia|].
  specialize (IH (Z.max a y)). lia.
Qed.

Lemma fold_left_max_ge (l : list Z) (a x : Z) :
  x = a \/ In x l -> x <= fold_left Z.max l a.
Proof.
  intros [->|H]; [apply fold_left_max_init|].
  revert a. induction l as [|y rest IH]; intro a; simpl; [destruct H|].
  destruct H as [->|H].
  - pose proof (fold_left_max_init rest (Z.max a x)). lia.
  - apply IH. exact H.
Qed.

Lemma py_min_le (l : list Z) (m x : Z) :
  py_min l = ret m -> In x l -> m <= x.
Proof.
  destruct l as [|a rest]; simpl; [discriminate|].
  intros H Hin. inversion H. apply fold_left_min_le.
  destruct Hin as [->|Hin]; auto.
Qed.

Lemma py_max_ge (l : list Z) (m x : Z) :
  py_max l = ret m -> In x l -> x <= m.
Proof.
  destruct l as [|a rest]; simpl; [discriminate|].
  intros H Hin. inversion H. apply fold_left_max_ge.
  destruct Hin as [->|Hin]; auto.
Qed.

Lemma events_times_bounds (evs : list Event) (e : Event) :
  In e evs ->
  In (earliest_start (time_window e)) (events_times evs)
  /\ In (latest_end (time_window e)) (events_times evs).
Proof.
  intro H. unfold events_times. split; apply in_or_app.
  - left. apply (in_map (fun e => earliest_start (time_window e))). exact H.
  - right. apply (in_map (fun e => latest_end (time_window e))). exact H.
Qed.

Lemma hours_le (a b : Z) :
  a <= b -> (inject_Z a / 3600 <= inject_Z b / 3600)%Q.
Proof.
  intro H. unfold Qdiv. apply Qmult_le_compat_r.
  - rewrite <- Zle_Qle. exact H.
  - discriminate.
Qed.

(** Every gap a resolution leaves is within the time the rule takes as
    available. *)
Lemma max_time_diff_bounds_gaps
    (c1_earliest c1_latest c2_earliest c2_latest s1 t1 s2 t2 : datetime) :
  c1_earliest <= s1 -> s1 <= t1 -> t1 <= c1_latest ->
  c2_earliest <= s2 -> s2 <= t2 -> t2 <= c2_latest ->
  (inject_Z (s2 - t1) / 3600
   <= max_time_diff c1_earliest c1_latest c2_earliest c2_latest)%Q
  /\ (inject_Z (s1 - t2) / 3600
      <= max_time_diff c1_earliest c1_latest c2_earliest c2_latest)%Q.
Proof.
  intros. unfold max_time_diff, time_difference. simpl seconds_per.
  split.
  - eapply Qle_trans; [apply (hours_le _ (c2_latest - c1_earliest)); lia|].
    eapply Qle_trans; [apply Qle_Qabs|]. apply Q.le_max_l.
  - eapply Qle_trans; [apply (hours_le _ (c1_latest - c2_earliest)); lia|].
    eapply Qle_trans; [apply Qle_Qabs|]. apply Q.le_max_r.
Qed.

(** C1, as amended.  [detect_ubiquitous_presence] records a pair of cities
    as impossible only when the time it takes as available, the larger of
    the two spans from the earliest bound in one city to the latest bound
    in the other, is below the minimum travel time; that time bounds the gap
    left by every resolution of the windows of any event of the one city and
    any event of the other, so the pair is recorded only if travel is
    impossible under every resolution. *)
Theorem ubiquitous_pair_is_impossible_under_every_resolution
    (rule : Rule) (min_city_distance_km max_travel_speed_kmh : Q)
    (city1 city2 : string) (city1_events city2_events : list Event) (found : CityPair) :
  check_city_pair rule min_city_distance_km max_travel_speed_kmh
                  (city1, city1_events) (city2, city2_events) = ret (Some found) ->
  (cp_available_time_hours found < cp_min_travel_time_hours found)%Q
  /\ forall e1 e2,
      In e1 city1_events -> In e2 city2_events ->
      ~ travel_possible (time_window e1) (time_window e2)
                        (cp_min_travel_time_hours found).
Proof.
  unfold check_city_pair.
  destruct (first_item city1_events) as [|city1_event]; simpl; [discriminate|].
  destruct (first_item city2_events) as [|city2_event]; simpl; [discriminate|].
  destruct (get_distance rule _ _) as [distance|]; [|discriminate].
  destruct (Qltb distance min_city_distance_km); [discriminate|].
  destruct (py_div distance max_travel_speed_kmh) as [|min_travel_time]; simpl;
    [discriminate|].
  destruct (py_min (events_times city1_events)) as [|c1e] eqn:E1; simpl; [discriminate|].
  destruct (py_max (events_times city1_events)) as [|c1l] eqn:E2; simpl; [discriminate|].
  destruct (py_min (events_times city2_events)) as [|c2e] eqn:E3; simpl; [discriminate|].
  destruct (py_max (events_times city2_events)) as [|c2l] eqn:E4; simpl; [discriminate|].
  destruct (Qltb (max_time_diff c1e c1l c2e c2l) min_travel_time) eqn:Hflag;
    [|discriminate].
  intro H. inversion H. subst found. clear H. simpl.
  apply Qltb_lt in Hflag. split; [exact Hflag|].
  intros e1 e2 Hin1 Hin2 (s1 & t1 & s2 & t2 & (Ha & Hb & Hc) & (Hd & He & Hf) & Hgap).
  destruct (events_times_bounds _ _ Hin1) as [Hes1 Hle1].
  destruct (events_times_bounds _ _ Hin2) as [Hes2 Hle2].
  pose proof (py_min_le _ _ _ E1 Hes1). pose proof (py_max_ge _ _ _ E2 Hle1).
  pose proof (py_min_le _ _ _ E3 Hes2). pose proof (py_max_ge _ _ _ E4 Hle2).
  destruct (max_time_diff_bounds_gaps c1e c1l c2e c2l s1 t1 s2 t2) as [G1 G2]; try lia.
  destruct Hgap as [Hgap|Hgap].
  - apply (Qlt_irrefl min_travel_time).
    eapply Qle_lt_trans; [exact Hgap|]. eapply Qle_lt_trans; [exact G1|exact Hflag].
  - apply (Qlt_irrefl min_travel_time).
    eapply Qle_lt_trans; [exact Hgap|]. eapply Qle_lt_trans; [exact G2|exact Hflag].
Qed.

(** ** Unknown distances *)

(** C2, as amended.  A rule that asks [rule.get_distance] skips a pair whose
    distance is unknown: the check-in rule and the ubiquitous-presence rule
    of [llm_rules] record nothing for it.  The rule of
    [llm-rules-partial-functions] looks the pair up in its own table and
    takes infinity for a pair the table does not hold. *)
Theorem unknown_distance_is_skipped
    (rule : Rule) (speed buffer min_distance : Q) (event1 event2 : Event)
    (city1 city2 : string) (rest1 rest2 : list Event) :
  get_distance rule (location event1) (location event2) = None ->
  check_checkin_pair rule speed buffer min_distance event1 event2 = ret None
  /\ check_city_pair rule min_distance speed
                     (city1, event1 :: rest1) (city2, event2 :: rest2) = ret None
  /\ (dict_get PartialFunctions.pair_eqb PartialFunctions.CITY_DISTANCES (city1, city2)
      = None ->
      dict_get PartialFunctions.pair_eqb PartialFunctions.CITY_DISTANCES (city2, city1)
      = None ->
      PartialFunctions.get_city_distance city1 city2 = Infinity).
Proof.
  intro H. repeat split.
  - unfold check_checkin_pair. rewrite H.
    destruct (is_same_city rule _ _); reflexivity.
  - unfold check_city_pair. simpl. rewrite H. reflexivity.
  - intros H1 H2. unfold PartialFunctions.get_city_distance. rewrite H1, H2.
    reflexivity.
Qed.

(** ** The threshold of the check-in rule *)



(** ** The store: reading, allocating, writing *)

Lemma update_length (h : Heap) (a : Addr) (o : Obj) :
  List.length (update h a o) = List.length h.
Proof.
  revert a. induction h as [|x rest IH]; intros [|a]; simpl; auto.
Qed.

Lemma nth_error_update_other (h : Heap) (a b : Addr) (o : Obj) :
  a <> b -> nth_error (update h a o) b = nth_error h b.
Proof.
  revert a b. induction h as [|x rest IH]; intros [|a] [|b] H; simpl; auto;
    try congruence.
Qed.

Lemma nth_error_update_same (h : Heap) (a : Addr) (o o' : Obj) :
  nth_error h a = Some o' -> nth_error (update h a o) a = Some o.
Proof.
  revert a. induction h as [|x rest IH]; intros [|a] H; simpl in *;
    try discriminate; auto.
Qed.

Lemma nth_error_alloc_old (h : Heap) (a : Addr) (o o' : Obj) :
  nth_error h a = Some o' -> nth_error (h ++ [o]) a = Some o'.
Proof.
  intro H. rewrite nth_error_app1; [exact H|].
  apply nth_error_Some. congruence.
Qed.

Lemma unchanged_refl (h0 : Heap) : unchanged h0 h0.
Proof. split; auto. Qed.

Lemma unchanged_alloc (h0 h : Heap) (o : Obj) :
  unchanged h0 h -> unchanged h0 (h ++ [o]).
Proof.
  intros [Hlen Hsame]. split.
  - rewrite length_app. simpl. lia.
  - intros a Ha. rewrite nth_error_app1 by lia. apply Hsame. exact Ha.
Qed.

Lemma unchanged_store (h0 h : Heap) (l : Addr) (o : Obj) :
  unchanged h0 h -> fresh h0 l -> unchanged h0 (update h l o).
Proof.
  intros [Hlen Hsame] Hl. unfold fresh in Hl. split.
  - rewrite update_length. exact Hlen.
  - intros a Ha. rewrite nth_error_update_other by lia. apply Hsame. exact Ha.
Qed.

Lemma wp_ret {A} (a : A) (Q : A -> Heap -> Prop) (E : Heap -> Prop) (h : Heap) :
  Q a h -> wp (st_ret a) Q E h.
Proof. intro H. exact H. Qed.


Lemma wp_bind {A B} (m : St A) (k : A -> St B)
    (Q : B -> Heap -> Prop) (E : Heap -> Prop) (h : Heap) :
  wp m (fun a => wp (k a) Q E) E h -> wp (st_bind m k) Q E h.
Proof.
  unfold wp, st_bind. destruct (m h) as [h' [e|a]]; auto.
Qed.

Lemma wp_mono {A} (m : St A) (Q Q' : A -> Heap -> Prop) (E : Heap -> Prop) (h : Heap) :
  (forall a h', Q a h' -> Q' a h') -> wp m Q E h -> wp m Q' E h.
Proof.
  unfold wp. intro H. destruct (m h) as [h' [e|a]]; auto.
Qed.


Lemma wp_alloc (o : Obj) (Q : Addr -> Heap -> Prop) (E : Heap -> Prop) (h : Heap) :
  Q (List.length h) (h ++ [o]) -> wp (alloc o) Q E h.
Proof. intro H. exact H. Qed.
















(** ** Writes that stay among the objects a rule has created *)

Section Stable.

(** [Keep] is an assertion that allocation and writing at the addresses in
    [W] preserve; the next address is always in [W]. *)
Variable Keep : Heap -> Prop.
Variable W : Addr -> Prop.
Hypothesis keep_alloc : forall h o, Keep h -> Keep (h ++ [o]).
Hypothesis keep_store : forall h l o, Keep h -> W l -> Keep (update h l o).
Hypothesis keep_next : forall h, Keep h -> W (List.length h).








End Stable.

(** ** The two rules write to their own objects only *)














(** * Further properties of the rules *)

(** ** Grouping by a key *)

Section Partition.

Context {K A : Type} (eqb : K -> K -> bool) (key : A -> K).
Hypothesis eqb_eq : forall a b, eqb a b = true <-> a = b.

Lemma dict_append_keys (d : list (K * list A)) (k : K) (x : A) :
  map fst (dict_append eqb d k x)
  = if existsb (eqb k) (map fst d) then map fst d else map fst d ++ [k].
Proof.
  induction d as [|[k0 l0] rest IH]; simpl.
  - reflexivity.
  - destruct (eqb k k0); simpl; [reflexivity|].
    rewrite IH. destruct (existsb (eqb k) (map fst rest)); reflexivity.
Qed.

Lemma dict_append_NoDup (d : list (K * list A)) (k : K) (x : A) :
  NoDup (map fst d) -> NoDup (map fst (dict_append eqb d k x)).
Proof.
  intro H. rewrite dict_append_keys.
  destruct (existsb (eqb k) (map fst d)) eqn:E; [exact H|].
  apply NoDup_app; [exact H|constructor; [intros []|constructor]|].
  intros a Ha [Hk|[]]. subst a.
  assert (existsb (eqb k) (map fst d) = true).
  { apply existsb_exists. exists k. split; [exact Ha|]. apply eqb_eq. reflexivity. }
  congruence.
Qed.

Lemma group_by_NoDup (xs : list A) : NoDup (map fst (group_by eqb key xs)).
Proof.
  unfold group_by.
  assert (H : forall d : list (K * list A),
             NoDup (map fst d) ->
             NoDup (map fst (fold_left (fun d x => dict_append eqb d (key x) x) xs d))).
  { induction xs as [|x rest IH]; intros d Hd; simpl; [exact Hd|].
    apply IH. apply dict_append_NoDup. exact Hd. }
  apply H. constructor.
Qed.

Lemma In_dict_get {V} (d : list (K * V)) (k : K) (v : V) :
  NoDup (map fst d) -> In (k, v) d -> dict_get eqb d k = Some v.
Proof.
  induction d as [|[k0 v0] rest IH]; simpl; intros Hnd Hin; [destruct Hin|].
  inversion Hnd as [|? ? Hnot Hrest]. subst.
  destruct Hin as [Heq|Hin].
  - inversion Heq. subst. rewrite (proj2 (eqb_eq k k) eq_refl). reflexivity.
  - destruct (eqb k k0) eqn:E.
    + apply eqb_eq in E. subst k0. exfalso. apply Hnot.
      apply (in_map fst) in Hin. exact Hin.
    + apply IH; assumption.
Qed.

Lemma group_by_members (xs : list A) (k : K) (l : list A) :
  In (k, l) (group_by eqb key xs) ->
  l = filter (fun x => eqb (key x) k) xs /\ l <> [].
Proof.
  intro Hin.
  pose proof (In_dict_get _ _ _ (group_by_NoDup xs) Hin) as Hget.
  unfold group_by in Hget. rewrite (dict_get_group_fold eqb key eqb_eq) in Hget.
  simpl in Hget.
  destruct (filter (fun x => eqb (key x) k) xs) as [|y rest]; [discriminate|].
  inversion Hget. split; [reflexivity|discriminate].
Qed.

End Partition.

(** X1. The grouping loop the rules open with puts every event in the group
    of its [user_id] and nowhere else: the groups have distinct keys, each
    group is the list of the events of its user in their order in the
    input, no group is empty, and every event of the input is in the group
    of its user. *)
Theorem grouping_by_user_is_a_partition (events : list Event) :
  NoDup (map fst (group_by String.eqb user_id events))
  /\ (forall user user_events,
        In (user, user_events) (group_by String.eqb user_id events) ->
        user_events = filter (fun e => String.eqb (user_id e) user) events
        /\ user_events <> [])
  /\ (forall e,
        In e events ->
        In (user_id e, filter (fun x => String.eqb (user_id x) (user_id e)) events)
           (group_by String.eqb user_id events)).
Proof.
  split; [apply (group_by_NoDup String.eqb user_id String.eqb_eq)|]. split.
  - intros user user_events. apply (group_by_members String.eqb user_id String.eqb_eq).
  - intros e. apply (group_by_In String.eqb user_id String.eqb_eq).
Qed.

(** ** Loops that return *)

Lemma for_each_returns {A S} (body : S -> A -> Py S) (xs : list A) :
  (forall s x, In x xs -> exists s', body s x = ret s') ->
  forall s, exists s', for_each xs body s = ret s'.
Proof.
  induction xs as [|x rest IH]; intros Hbody s; simpl.
  - exists s. reflexivity.
  - destruct (Hbody s x (or_introl eq_refl)) as [s' Hs']. rewrite Hs'. simpl.
    apply IH. intros s0 y Hy. apply Hbody. right. exact Hy.
Qed.


(** ** The sequential-taxi rule never reports *)

Lemma taxi_users_outcome
    (rule : Rule) (time_threshold amount_threshold min_rides : Q)
    (items : list (string * list Event)) (acc : list SequentialTaxiFinding) :
  (forall u l, In (u, l) items -> l <> []) ->
  for_each items (check_user_taxis rule time_threshold amount_threshold min_rides) acc
  = ret acc
  \/ for_each items (check_user_taxis rule time_threshold amount_threshold min_rides) acc
     = raise (AttributeError "time_interval").
Proof.
  induction items as [|[u l] rest IH]; intro Hne; cbn [for_each].
  - left. reflexivity.
  - rewrite check_user_taxis_outcome by (apply (Hne u l); left; reflexivity).
    destruct (Qltb _ min_rides); cbn [bind ret raise].
    + apply IH. intros u' l' H. apply (Hne u' l'). right. exact H.
    + right. reflexivity.
Qed.

(** X2. [detect_sequential_taxi_rides] never returns a finding: whatever
    the events and the context, it returns [False] or raises the
    [AttributeError] of the missing [time_interval]. *)
Theorem sequential_taxi_never_reports
    (rule : Rule) (events : list Event) (context : Context) :
  detect_sequential_taxi_rides rule events context = ret NoFinding
  \/ detect_sequential_taxi_rides rule events context
     = raise (AttributeError "time_interval").
Proof.
  unfold detect_sequential_taxi_rides.
  destruct (List.length (filter is_taxi events) <? 3)%nat; [left; reflexivity|].
  destruct (taxi_users_outcome rule
              (context_get context "sequential_taxi_time_threshold" (1 # 2))
              (context_get context "sequential_taxi_amount_threshold" 150)
              (context_get context "sequential_taxi_min_rides" 3)
              (dict_items (group_by String.eqb user_id (filter is_taxi events))) [])
    as [H|H].
  - intros u l Hin. exact (group_by_nonempty _ _ _ _ _ Hin).
  - left. rewrite H. reflexivity.
  - right. rewrite H. reflexivity.
Qed.

(** ** The impossible-travel rule without transport events *)

Lemma filter_none {A} (f : A -> bool) (xs : list A) :
  (forall x, In x xs -> f x = false) -> filter f xs = [].
Proof.
  induction xs as [|x rest IH]; intro H; simpl; [reflexivity|].
  rewrite (H x (or_introl eq_refl)). apply IH. intros y Hy. apply H. right. exact Hy.
Qed.

Lemma consecutive_In {A} (xs : list A) (a b : A) :
  In (a, b) (consecutive xs) -> In a xs /\ In b xs.
Proof.
  induction xs as [|x [|y rest] IH]; simpl; intro H; try destruct H.
  - inversion H. subst. split; [left|right; left]; reflexivity.
  - destruct (IH H) as [Ha Hb]. split; right; assumption.
Qed.

(** X3. On a group with no transport event in which every event has a
    location, [detect_impossible_travel] returns: it raises nothing. *)
Theorem impossible_travel_returns_without_transport
    (rule : Rule) (events : list Event) (context : Context) :
  (forall e, In e events -> isinstance_TransportEvent (event_class e) = false) ->
  (forall e, In e events -> location e <> None) ->
  exists result, detect_impossible_travel rule events context = ret result.
Proof.
  intros Hnone Hloc. unfold detect_impossible_travel.
  destruct (List.length events <? 2)%nat; [eexists; reflexivity|].
  destruct (for_each_returns (check_user_travel rule)
              (dict_items (group_by String.eqb user_id events))) with (s := @nil ImpossibleTravelFinding)
    as [fs Hfs].
  - intros acc [user user_events] Hin.
    destruct (group_by_members String.eqb user_id String.eqb_eq _ _ _ Hin) as [Hmine _].
    assert (Hsub : forall e, In e user_events -> In e events).
    { intros e He. rewrite Hmine in He. apply filter_In in He. tauto. }
    unfold check_user_travel.
    destruct (List.length user_events <? 2)%nat; [eexists; reflexivity|].
    rewrite filter_none.
    2:{ intros e He. apply Hnone. apply Hsub. apply sorted_by_In in He. exact He. }
    apply for_each_returns. intros s [event1 event2] Hpair.
    apply consecutive_In in Hpair. destruct Hpair as [H1 H2].
    apply sorted_by_In in H1. apply sorted_by_In in H2.
    unfold check_consecutive.
    destruct (is_same_city rule _ _); [eexists; reflexivity|].
    destruct (too_close rule event1 event2); [|eexists; reflexivity].
    simpl.
    destruct (location event1) eqn:L1; [|exfalso; exact (Hloc _ (Hsub _ H1) L1)].
    destruct (location event2) eqn:L2; [|exfalso; exact (Hloc _ (Hsub _ H2) L2)].
    simpl. eexists. reflexivity.
  - rewrite Hfs. simpl. eexists. reflexivity.
Qed.

(** ** What the findings of the impossible-travel rule say *)






(** ** The distance table of the partial-functions rule *)

Lemma pair_eqb_eq (a b : string * string) :
  PartialFunctions.pair_eqb a b = true <-> a = b.
Proof.
  destruct a as [a1 a2], b as [b1 b2]. unfold PartialFunctions.pair_eqb. simpl.
  rewrite andb_true_iff, !String.eqb_eq. split.
  - intros [-> ->]. reflexivity.
  - intro H. inversion H. split; reflexivity.
Qed.

Lemma city_distances_one_way (city1 city2 : string) (d : Q) :
  dict_get PartialFunctions.pair_eqb PartialFunctions.CITY_DISTANCES (city1, city2)
  = Some d ->
  dict_get PartialFunctions.pair_eqb PartialFunctions.CITY_DISTANCES (city2, city1)
  = None.
Proof.
  intro H. apply (dict_get_In_pair PartialFunctions.pair_eqb pair_eqb_eq) in H.
  unfold PartialFunctions.CITY_DISTANCES in H. simpl in H.
  repeat (destruct H as [H|H]; [inversion H; subst; reflexivity|]).
  destruct H.
Qed.

(** X5. [get_city_distance] is symmetric: for all city names, the distance
    from the first to the second is the distance from the second to the
    first, known or not. *)
Theorem get_city_distance_is_symmetric (city1 city2 : string) :
  PartialFunctions.get_city_distance city1 city2
  = PartialFunctions.get_city_distance city2 city1.
Proof.
  unfold PartialFunctions.get_city_distance.
  destruct (dict_get _ _ (city1, city2)) as [d1|] eqn:E1.
  - rewrite (city_distances_one_way _ _ _ E1). reflexivity.
  - destruct (dict_get _ _ (city2, city1)); reflexivity.
Qed.

Lemma first_item_nonempty {A} (xs : list A) :
  xs <> [] -> exists x, first_item xs = ret x.
Proof. destruct xs as [|x rest]; [congruence|]. intros _. exists x. reflexivity. Qed.

Lemma last_item_nonempty {A} (xs : list A) :
  xs <> [] -> exists x, last_item xs = ret x.
Proof.
  intro H. unfold last_item. destruct (rev xs) as [|y rest] eqn:E.
  - exfalso. apply H. rewrite <- (rev_involutive xs), E. reflexivity.
  - exists y. reflexivity.
Qed.

Lemma sorted_by_nonempty {A} (key : A -> Z) (xs : list A) :
  xs <> [] -> sorted_by key xs <> [].
Proof.
  intros H Hs. apply H. apply length_zero_iff_nil.
  rewrite <- (sorted_by_length key), Hs. reflexivity.
Qed.

(** X6. In the partial-functions rule a pair of cities whose distance the
    table does not hold is always recorded as impossible, whatever the times
    of the events in the two cities. *)
Theorem unknown_pairs_are_always_recorded
    (city1 city2 : string) (events1 events2 : list Event) :
  PartialFunctions.get_city_distance city1 city2 = Infinity ->
  events1 <> [] -> events2 <> [] ->
  exists p,
    PartialFunctions.check_city_pair (city1, events1) (city2, events2) = ret (Some p)
    /\ PartialFunctions.ic_distance p = Infinity
    /\ PartialFunctions.ic_min_travel_hours p = Infinity.
Proof.
  intros Hd H1 H2. unfold PartialFunctions.check_city_pair. rewrite Hd. simpl.
  destruct (first_item_nonempty _ (sorted_by_nonempty PartialFunctions.by_start _ H1))
    as [f1 Hf1].
  destruct (last_item_nonempty _ (sorted_by_nonempty PartialFunctions.by_start _ H1))
    as [l1 Hl1].
  destruct (first_item_nonempty _ (sorted_by_nonempty PartialFunctions.by_start _ H2))
    as [f2 Hf2].
  destruct (last_item_nonempty _ (sorted_by_nonempty PartialFunctions.by_start _ H2))
    as [l2 Hl2].
  rewrite Hf1, Hl1, Hf2, Hl2. simpl.
  eexists. split; [reflexivity|]. split; reflexivity.
Qed.

(** ** The check-in rule takes the shorter of the two gaps *)

Lemma checkin_time_diff_short (required : Q) (event1 event2 : Event) :
  (checkin_time_diff required event1 event2 < required)%Q
  <-> (forward_gap event1 event2 < required)%Q
      \/ (backward_gap event1 event2 < required)%Q.
Proof.
  unfold checkin_time_diff, forward_gap, backward_gap.
  set (a := Qabs (time_difference (latest_end (time_window event1))
                                  (earliest_start (time_window event2)) Hours)).
  set (b := Qabs (time_difference (latest_end (time_window event2))
                                  (earliest_start (time_window event1)) Hours)).
  unfold Qleb. destruct (Qle_bool required a) eqn:E.
  - apply Qle_bool_iff in E. split; [intro H; right; exact H|].
    intros [H|H]; [|exact H]. exfalso. exact (Qlt_not_le _ _ H E).
  - split; [intro H; left; exact H|]. intros [H|H]; [exact H|].
    apply Qnot_le_lt. intro Hle. apply Qle_bool_iff in Hle. congruence.
Qed.

Lemma check_checkin_pair_recorded
    (rule : Rule) (speed buffer min_distance : Q) (event1 event2 : Event) :
  (exists found,
      check_checkin_pair rule speed buffer min_distance event1 event2
      = ret (Some found))
  <-> checkin_pair_recorded rule speed buffer min_distance event1 event2.
Proof.
  unfold check_checkin_pair, checkin_pair_recorded.
  destruct (is_same_city rule (location event1) (location event2)).
  { split; [intros [f H]; discriminate|intros [H _]; discriminate]. }
  destruct (get_distance rule (location event1) (location event2)) as [distance|].
  2:{ split; [intros [f H]; discriminate|intros [_ [[d [H _]] _]]; discriminate]. }
  destruct (Qltb distance min_distance) eqn:Emin.
  { apply Qltb_lt in Emin.
    split; [intros [f H]; discriminate|].
    intros [_ [[d [Hd [Hle _]]] _]]. inversion Hd. subst d.
    exfalso. exact (Qlt_not_le _ _ Emin Hle). }
  apply Qltb_ge in Emin. unfold py_div.
  destruct (Qeq_bool speed 0) eqn:Espeed; simpl.
  { apply Qeq_bool_iff in Espeed.
    split; [intros [f H]; discriminate|].
    intros [_ [[d [_ [_ [Hs _]]]] _]]. contradiction. }
  assert (Hspeed : ~ (speed == 0)%Q).
  { intro H. apply Qeq_bool_iff in H. congruence. }
  destruct (Qltb (checkin_time_diff (distance / speed + buffer) event1 event2)
                 (distance / speed + buffer)) eqn:Ediff.
  - apply Qltb_lt, checkin_time_diff_short in Ediff.
    destruct (location event1) as [l1|]; simpl.
    2:{ split; [intros [f H]; discriminate|intros [_ [_ [H _]]]; congruence]. }
    destruct (location event2) as [l2|]; simpl.
    2:{ split; [intros [f H]; discriminate|intros [_ [_ [_ H]]]; congruence]. }
    split; [intros _|intros _; eexists; reflexivity].
    split; [reflexivity|]. split; [|split; discriminate].
    exists distance. repeat split; assumption.
  - apply Qltb_ge in Ediff.
    split; [intros [f H]; discriminate|].
    intros [_ [[d [Hd [_ [_ Hgap]]]] _]]. inversion Hd. subst d.
    apply checkin_time_diff_short in Hgap.
    exfalso. exact (Qlt_not_le _ _ Hgap Ediff).
Qed.


Lemma gaps_swap (event1 event2 : Event) :
  forward_gap event2 event1 = backward_gap event1 event2
  /\ backward_gap event2 event1 = forward_gap event1 event2.
Proof. split; reflexivity. Qed.

(** X8. Whether the check-in rule records a pair does not depend on the
    order of the two check-ins, when the rule's helpers give the same answer
    for the two locations in either order. *)
Theorem checkin_pair_order_is_irrelevant
    (rule : Rule) (speed buffer min_distance : Q) (event1 event2 : Event) :
  is_same_city rule (location event2) (location event1)
  = is_same_city rule (location event1) (location event2) ->
  get_distance rule (location event2) (location event1)
  = get_distance rule (location event1) (location event2) ->
  ((exists found,
       check_checkin_pair rule speed buffer min_distance event1 event2
       = ret (Some found))
   <-> (exists found,
          check_checkin_pair rule speed buffer min_distance event2 event1
          = ret (Some found))).
Proof.
  intros Hcity Hdist. rewrite !check_checkin_pair_recorded.
  unfold checkin_pair_recorded. rewrite Hcity, Hdist.
  destruct (gaps_swap event1 event2) as [-> ->].
  split; intros (H1 & (d & Hd & Hmin & Hs & Hgap) & Ha & Hb);
    (split; [exact H1|]); (split; [|split; assumption]);
    exists d; repeat split; try assumption; tauto.
Qed.

(** ** The taxi transfer allowance of the multi-transport rule *)

Lemma taxi_transfer_mixed (route1 route2 : Route) :
  taxi_transfer route1 route2 = mixed_taxi route1 route2 && transfer_gap route1 route2.
Proof.
  unfold taxi_transfer, mixed_taxi.
  rewrite (String.eqb_sym "Taxi" (r_transport_type route1)).
  rewrite (String.eqb_sym "Taxi" (r_transport_type route2)).
  destruct (String.eqb (r_transport_type route1) "Taxi");
    destruct (String.eqb (r_transport_type route2) "Taxi"); reflexivity.
Qed.

Lemma check_route_pair_some (user : string) (route1 route2 : Route) :
  (exists f, check_route_pair user route1 route2 = Some f)
  <-> routes_match route1 route2 = true
      /\ taxi_transfer route1 route2 = false
      /\ times_overlap route1 route2 = true.
Proof.
  unfold check_route_pair.
  destruct (routes_match route1 route2); simpl.
  - destruct (taxi_transfer route1 route2).
    + split; [intros [f H]; discriminate|intros [_ [H _]]; discriminate].
    + destruct (times_overlap route1 route2).
      * split; [intros _; auto|intros _; eexists; reflexivity].
      * split; [intros [f H]; discriminate|intros [_ [_ H]]; discriminate].
  - split; [intros [f H]; discriminate|intros [H _]; discriminate].
Qed.

(** X9. The multi-transport rule reports two routes exactly when they match,
    pass the overlap test, and are not a taxi ride and another transport
    where the second route starts at the very moment the first ends: of the
    transfers the ninety-minute allowance is written for, only those without
    any time between the two rides can pass the overlap test, so only those
    are ever left out by it. *)
Theorem taxi_allowance_only_spares_touching_routes (user : string) (route1 route2 : Route) :
  (exists f, check_route_pair user route1 route2 = Some f)
  <-> routes_match route1 route2 = true
      /\ times_overlap route1 route2 = true
      /\ ~ (mixed_taxi route1 route2 = true
            /\ r_start_time route2 = r_end_time route1).
Proof.
  rewrite check_route_pair_some, taxi_transfer_mixed.
  unfold times_overlap, transfer_gap.
  rewrite !andb_true_iff, andb_false_iff, !Z.leb_le.
  destruct (mixed_taxi route1 route2); simpl.
  - rewrite andb_false_iff, Z.leb_gt, Z.leb_gt.
    split.
    + intros (Hm & Hgap & H1 & H2). repeat split; try assumption.
      intros [_ Heq]. destruct Hgap as [Hgap|[Hgap|Hgap]]; try discriminate; lia.
    + intros (Hm & (H1 & H2) & Hno). repeat split; try assumption.
      right. assert (r_start_time route2 <> r_end_time route1) by tauto.
      left. lia.
  - split.
    + intros (Hm & _ & H1 & H2). repeat split; try assumption. intros [H _]. discriminate.
    + intros (Hm & (H1 & H2) & _). repeat split; try assumption. left. reflexivity.
Qed.

(** ** What the findings of the multi-transport rule say *)

Lemma pairs_In {A} (xs : list A) (a b : A) :
  In (a, b) (pairs xs) -> In a xs /\ In b xs.
Proof.
  induction xs as [|x rest IH]; simpl; intro H; [destruct H|].
  apply in_app_or in H. destruct H as [H|H].
  - apply in_map_iff in H. destruct H as [y [Heq Hy]]. inversion Heq. subst.
    split; [left; reflexivity|right; exact Hy].
  - destruct (IH H) as [Ha Hb]. split; right; assumption.
Qed.

Lemma transport_routes_In (transport_events : list Event) (r : Route) :
  In r (transport_routes transport_events) ->
  exists e, In e transport_events /\ route_of_event e = Some r.
Proof.
  induction transport_events as [|e rest IH]; simpl; intro H; [destruct H|].
  destruct (route_of_event e) as [r0|] eqn:E.
  - destruct H as [->|H].
    + exists e. split; [left; reflexivity|exact E].
    + destruct (IH H) as [e' [He' Hr]]. exists e'. split; [right; exact He'|exact Hr].
  - destruct (IH H) as [e' [He' Hr]]. exists e'. split; [right; exact He'|exact Hr].
Qed.

Lemma route_of_event_event (event : Event) (r : Route) :
  route_of_event event = Some r -> r_event r = event.
Proof.
  unfold route_of_event.
  destruct (event_class event);
    repeat match goal with
           | |- context [match ?o with Some _ => _ | None => _ end] =>
               destruct o; try discriminate
           | |- context [if ?b then _ else _] => destruct b; try discriminate
           end;
    intro H; inversion H; reflexivity.
Qed.

(** X10. Every finding [detect_multi_transport_same_route_time] returns is
    about two transport events of the group that belong to the user the
    finding names, whose routes match and whose resolved times pass the
    overlap test; the first is the primary event. *)
Theorem multi_transport_findings_are_sound
    (rule : Rule) (events : list Event) (context : Context)
    (findings : list MultiTransportFinding) :
  detect_multi_transport_same_route_time rule events context = Findings findings ->
  Forall (multi_transport_finding_of events) findings.
Proof.
  unfold detect_multi_transport_same_route_time.
  destruct events as [|e0 rest0] eqn:Hev; [discriminate|]. rewrite <- Hev.
  set (fs := flat_map _ _). intro H.
  assert (fs = findings) by (destruct fs; inversion H; reflexivity).
  subst findings. clear H. subst fs.
  apply Forall_forall. intros f Hf.
  apply in_flat_map in Hf. destruct Hf as [[user user_events] [Hgroup Hf]].
  destruct (group_by_members String.eqb user_id String.eqb_eq _ _ _ Hgroup) as [Hmine _].
  destruct (List.length (filter is_route_transport user_events) <? 2)%nat;
    [destruct Hf|].
  apply in_flat_map in Hf. destruct Hf as [[route1 route2] [Hpair Hf]].
  apply pairs_In in Hpair. destruct Hpair as [Hr1 Hr2].
  apply transport_routes_In in Hr1. destruct Hr1 as [event1 [Hin1 Hroute1]].
  apply transport_routes_In in Hr2. destruct Hr2 as [event2 [Hin2 Hroute2]].
  apply filter_In in Hin1. destruct Hin1 as [Hin1 _].
  apply filter_In in Hin2. destruct Hin2 as [Hin2 _].
  rewrite Hmine in Hin1, Hin2.
  apply filter_In in Hin1. destruct Hin1 as [Hin1 Hu1]. apply String.eqb_eq in Hu1.
  apply filter_In in Hin2. destruct Hin2 as [Hin2 Hu2]. apply String.eqb_eq in Hu2.
  destruct (check_route_pair user route1 route2) as [f'|] eqn:Hcheck; [|destruct Hf].
  destruct Hf as [<-|[]].
  assert (Hsome : exists f, check_route_pair user route1 route2 = Some f)
    by (eexists; exact Hcheck).
  apply check_route_pair_some in Hsome. destruct Hsome as (Hmatch & _ & Hover).
  unfold check_route_pair in Hcheck. rewrite Hmatch in Hcheck. simpl in Hcheck.
  destruct (taxi_transfer route1 route2); [discriminate|].
  rewrite Hover in Hcheck. inversion Hcheck. subst f'. clear Hcheck.
  rewrite (route_of_event_event _ _ Hroute1), (route_of_event_event _ _ Hroute2).
  exists event1, event2, route1, route2. simpl.
  repeat split; assumption.
Qed.

(** ** The hotel/flight conflict rule *)

Lemma hours_positive (d : Z) : Qltb 0 (inject_Z d / 3600) = true <-> 0 < d.
Proof.
  rewrite Qltb_lt. unfold Qlt, Qdiv, Qmult, Qinv, inject_Z. simpl. lia.
Qed.

Lemma departure_during_stay_some (user : string) (hotel flight : Event)
    (hotel_city departure_city : string) :
  departure_during_stay user hotel flight hotel_city departure_city <> [] ->
  check_in_time hotel + two_hours < departure_time flight
  /\ departure_time flight < check_out_time hotel.
Proof.
  unfold departure_during_stay.
  destruct (negb _); simpl; [|congruence].
  destruct (check_in_time hotel <? departure_time flight); simpl; [|congruence].
  destruct (departure_time flight <? check_out_time hotel) eqn:E2; simpl; [|congruence].
  destruct (check_in_time hotel <? departure_time flight - two_hours) eqn:E3;
    [|congruence].
  apply Z.ltb_lt in E2. apply Z.ltb_lt in E3. intros _. lia.
Qed.

Lemma arrival_during_stay_some (user : string) (hotel flight : Event)
    (hotel_city arrival_city : string) :
  arrival_during_stay user hotel flight hotel_city arrival_city <> [] ->
  check_in_time hotel < arrival_time flight
  /\ arrival_time flight + two_hours < check_out_time hotel.
Proof.
  unfold arrival_during_stay.
  destruct (negb _); simpl; [|congruence].
  destruct (check_in_time hotel <? arrival_time flight) eqn:E1; simpl; [|congruence].
  destruct (arrival_time flight <? check_out_time hotel); simpl; [|congruence].
  destruct (arrival_time flight + two_hours <? check_out_time hotel) eqn:E3;
    [|congruence].
  apply Z.ltb_lt in E1. apply Z.ltb_lt in E3. intros _. lia.
Qed.

Lemma impossible_checkin_some (user : string) (hotel flight : Event)
    (hotel_city arrival_city : string) :
  impossible_checkin_after_flight user hotel flight hotel_city arrival_city <> [] ->
  arrival_time flight < check_in_time hotel.
Proof.
  unfold impossible_checkin_after_flight.
  destruct (negb _); [|congruence].
  destruct (Qltb 0 _) eqn:E; simpl; [|congruence].
  apply hours_positive in E. intros _. lia.
Qed.

Lemma impossible_checkout_some (user : string) (hotel flight : Event)
    (hotel_city departure_city : string) :
  impossible_checkout_before_flight user hotel flight hotel_city departure_city <> [] ->
  check_out_time hotel < departure_time flight.
Proof.
  unfold impossible_checkout_before_flight.
  destruct (negb _); [|congruence].
  destruct (Qltb 0 _) eqn:E; simpl; [|congruence].
  apply hours_positive in E. intros _. lia.
Qed.

(** X11. For a hotel stay that does not end before it starts and a flight
    that does not arrive before it departs, the rule reports at most two
    conflicts between the two, and when it reports two they are a departure
    during the stay followed by an arrival during the stay: the other
    combinations of its four checks exclude each other. *)
Theorem hotel_flight_pair_has_at_most_two_conflicts
    (user : string) (hotel flight : Event) (hotel_city : string) :
  check_in_time hotel <= check_out_time hotel ->
  departure_time flight <= arrival_time flight ->
  (List.length (flight_conflicts user hotel hotel_city flight) <= 2)%nat
  /\ (List.length (flight_conflicts user hotel hotel_city flight) = 2%nat ->
      map hf_conflict_type (flight_conflicts user hotel hotel_city flight)
      = ["departure_during_stay"; "arrival_during_stay"]).
Proof.
  intros Hstay Hflight. unfold flight_conflicts.
  destruct (String.eqb _ "" || String.eqb _ ""); [simpl; split; [lia|discriminate]|].
  set (dc := city_or_none (departure_location flight)).
  set (ac := city_or_none (arrival_location flight)).
  pose proof (departure_during_stay_some user hotel flight hotel_city dc) as H1.
  pose proof (arrival_during_stay_some user hotel flight hotel_city ac) as H2.
  pose proof (impossible_checkin_some user hotel flight hotel_city ac) as H3.
  pose proof (impossible_checkout_some user hotel flight hotel_city dc) as H4.
  assert (S1 : departure_during_stay user hotel flight hotel_city dc = []
               \/ exists x, departure_during_stay user hotel flight hotel_city dc = [x]
                            /\ hf_conflict_type x = "departure_during_stay").
  { unfold departure_during_stay.
    destruct (_ && _ && _); [destruct (_ <? _)|];
      (left; reflexivity) || (right; eexists; split; reflexivity). }
  assert (S2 : arrival_during_stay user hotel flight hotel_city ac = []
               \/ exists x, arrival_during_stay user hotel flight hotel_city ac = [x]
                            /\ hf_conflict_type x = "arrival_during_stay").
  { unfold arrival_during_stay.
    destruct (_ && _ && _); [destruct (_ <? _)|];
      (left; reflexivity) || (right; eexists; split; reflexivity). }
  assert (S3 : impossible_checkin_after_flight user hotel flight hotel_city ac = []
               \/ exists x,
                    impossible_checkin_after_flight user hotel flight hotel_city ac = [x]).
  { unfold impossible_checkin_after_flight.
    destruct (negb _); [destruct (_ && _)|];
      (left; reflexivity) || (right; eexists; reflexivity). }
  assert (S4 : impossible_checkout_before_flight user hotel flight hotel_city dc = []
               \/ exists x,
                    impossible_checkout_before_flight user hotel flight hotel_city dc = [x]).
  { unfold impossible_checkout_before_flight.
    destruct (negb _); [destruct (_ && _)|];
      (left; reflexivity) || (right; eexists; reflexivity). }
  destruct S1 as [E1|[x1 [E1 T1]]]; destruct S2 as [E2|[x2 [E2 T2]]];
    destruct S3 as [E3|[x3 E3]]; destruct S4 as [E4|[x4 E4]];
    rewrite E1, E2, E3, E4 in *; simpl;
    try (assert (A1 := H1 ltac:(discriminate)));
    try (assert (A2 := H2 ltac:(discriminate)));
    try (assert (A3 := H3 ltac:(discriminate)));
    try (assert (A4 := H4 ltac:(discriminate)));
    unfold two_hours in *;
    try lia;
    (split; [lia|]); intro Hlen; try discriminate Hlen.
  rewrite T1, T2. reflexivity.
Qed.

Lemma conflict_of_one_flight (user : string) (hotel flight : Event)
    (hotel_city : string) (f : HotelFlightFinding) :
  In f (flight_conflicts user hotel hotel_city flight) ->
  hf_primary_event_id f = event_id hotel
  /\ hf_hotel_event_id f = event_id hotel
  /\ hf_flight_event_id f = event_id flight
  /\ hf_user_id f = user
  /\ hf_hotel_city f = hotel_city
  /\ (hf_flight_city f = city_or_none (departure_location flight)
      \/ hf_flight_city f = city_or_none (arrival_location flight))
  /\ hf_flight_city f <> hf_hotel_city f.
Proof.
  unfold flight_conflicts.
  destruct (String.eqb _ "" || String.eqb _ ""); [intros []|].
  intro H. repeat (apply in_app_or in H; destruct H as [H|H]).
  - unfold departure_during_stay in H.
    destruct (String.eqb _ hotel_city) eqn:E; simpl in H; [destruct H|].
    apply String.eqb_neq in E.
    destruct (_ && _); simpl in H; [|destruct H].
    destruct (_ <? _); [|destruct H].
    destruct H as [<-|[]]. simpl. repeat split; auto.
  - unfold arrival_during_stay in H.
    destruct (String.eqb _ hotel_city) eqn:E; simpl in H; [destruct H|].
    apply String.eqb_neq in E.
    destruct (_ && _); simpl in H; [|destruct H].
    destruct (_ <? _); [|destruct H].
    destruct H as [<-|[]]. simpl. repeat split; auto.
  - unfold impossible_checkin_after_flight in H.
    destruct (String.eqb _ hotel_city) eqn:E; simpl in H; [destruct H|].
    apply String.eqb_neq in E.
    destruct (_ && _); [|destruct H].
    destruct H as [<-|[]]. simpl. repeat split; auto.
  - unfold impossible_checkout_before_flight in H.
    destruct (String.eqb _ hotel_city) eqn:E; simpl in H; [destruct H|].
    apply String.eqb_neq in E.
    destruct (_ && _); [|destruct H].
    destruct H as [<-|[]]. simpl. repeat split; auto.
Qed.

(** X12. Every finding [detect_hotel_flight_temporal_conflict] returns is
    about a hotel stay and a flight of the group that belong to the user the
    finding names; the hotel stay is the primary event, and the flight city
    in the finding -- the departure or the arrival city of the flight -- is
    not the hotel's city. *)
Theorem hotel_flight_findings_are_sound
    (rule : Rule) (events : list Event) (context : Context)
    (findings : list HotelFlightFinding) :
  detect_hotel_flight_temporal_conflict rule events context = Findings findings ->
  Forall (hotel_flight_finding_of events) findings.
Proof.
  unfold detect_hotel_flight_temporal_conflict.
  destruct events as [|e0 rest0] eqn:Hev; [discriminate|]. rewrite <- Hev.
  set (fs := flat_map _ _). intro H.
  assert (fs = findings) by (destruct fs; inversion H; reflexivity).
  subst findings. clear H. subst fs.
  apply Forall_forall. intros f Hf.
  apply in_flat_map in Hf. destruct Hf as [[user user_events] [Hgroup Hf]].
  destruct (group_by_members String.eqb user_id String.eqb_eq _ _ _ Hgroup) as [Hmine _].
  assert (Hin : In f (flat_map (hotel_conflicts user (filter is_flight user_events))
                               (filter is_hotel user_events))).
  { destruct (filter is_hotel user_events); [destruct Hf|].
    destruct (filter is_flight user_events); [destruct Hf|exact Hf]. }
  clear Hf. apply in_flat_map in Hin. destruct Hin as [hotel [Hhotel Hf]].
  unfold hotel_conflicts in Hf.
  destruct (String.eqb (city_or_none (location hotel)) ""); [destruct Hf|].
  apply in_flat_map in Hf. destruct Hf as [flight [Hflight Hf]].
  apply conflict_of_one_flight in Hf.
  destruct Hf as (P1 & P2 & P3 & P4 & P5 & P6 & P7).
  apply filter_In in Hhotel. destruct Hhotel as [Hhotel Hh].
  apply filter_In in Hflight. destruct Hflight as [Hflight Hfl].
  rewrite Hmine in Hhotel, Hflight.
  apply filter_In in Hhotel. destruct Hhotel as [Hhotel Hu1]. apply String.eqb_eq in Hu1.
  apply filter_In in Hflight. destruct Hflight as [Hflight Hu2]. apply String.eqb_eq in Hu2.
  exists hotel, flight. rewrite P4. repeat split; assumption.
Qed.

(** ** What a finding of the single-event rules means *)

Lemma singleton_guard_false (events : list Event) :
  singleton_guard events = false -> exists event, events = [event].
Proof.
  destruct events as [|e [|e' rest]]; simpl; intro H; try discriminate.
  exists e. reflexivity.
Qed.

Lemma time_difference_negative_inv (t1 t2 : datetime) :
  Qltb (time_difference t1 t2 Minutes) 0 = true -> t2 < t1.
Proof.
  rewrite Qltb_lt. unfold time_difference, Qlt, Qdiv, Qmult, Qinv, inject_Z.
  simpl. lia.
Qed.

Lemma reversed_hours_minutes (start_time end_time : datetime) :
  end_time < start_time ->
  Qfloor (Qabs (time_difference start_time end_time Minutes) / 60)%Q
  = (start_time - end_time) / 3600
  /\ Qfloor (Qabs (time_difference start_time end_time Minutes)
             - 60 * inject_Z (Qfloor (Qabs (time_difference start_time end_time Minutes)
                                      / 60)))%Q
     = ((start_time - end_time) mod 3600) / 60.
Proof.
  intro H.
  unfold time_difference, Qdiv, Qmult, Qinv, Qabs, Qfloor, Qminus, Qplus, Qopp, inject_Z.
  cbn -[Z.mul Z.div Z.add Z.abs Z.opp Z.sub Z.modulo].
  replace (Z.abs ((end_time - start_time) * 1) * 1) with (start_time - end_time) by lia.
  split; [reflexivity|].
  f_equal. rewrite Z.mod_eq by lia. lia.
Qed.

(** X13. [detect_transport_reverse_time] returns a finding only for a group
    of one transport event whose exact end is before its exact start; the
    finding names that event, and the discrepancy it prints is the whole
    hours and the remaining whole minutes, below sixty, of the time from the
    end to the start. *)
Theorem reverse_time_finding_means_reversed
    (rule : Rule) (events : list Event) (context : Context) (f : ReverseTimeFinding) :
  detect_transport_reverse_time rule events context = Finding f ->
  exists event start_time end_time,
    events = [event]
    /\ isinstance_TransportEvent (event_class event) = true
    /\ exact_start_time (time_window event) = Some start_time
    /\ exact_end_time (time_window event) = Some end_time
    /\ end_time < start_time
    /\ rt_primary_event_id f = event_id event
    /\ 0 <= ((start_time - end_time) mod 3600) / 60 < 60
    /\ rt_time_diff_formatted f
       = (str_of_int ((start_time - end_time) / 3600) ++ "h "
          ++ str_of_int (((start_time - end_time) mod 3600) / 60) ++ "m")%string.
Proof.
  unfold detect_transport_reverse_time.
  destruct (singleton_guard events) eqn:G; [discriminate|].
  destruct (singleton_guard_false _ G) as [event ->].
  destruct (isinstance_TransportEvent (event_class event)) eqn:T; cbn [negb];
    [|discriminate].
  destruct (exact_start_time (time_window event)) as [s|] eqn:Es; [|discriminate].
  destruct (exact_end_time (time_window event)) as [t|] eqn:Et; [|discriminate].
  cbv zeta.
  destruct (Qltb (time_difference s t Minutes) 0) eqn:Hneg; [|discriminate].
  apply time_difference_negative_inv in Hneg.
  destruct (reversed_hours_minutes s t Hneg) as [Hh Hm].
  rewrite Hm, Hh. intro H. injection H as <-.
  exists event, s, t.
  repeat split; try reflexivity; try assumption.
  - apply Z.div_pos; [|lia]. apply Z.mod_pos_bound. lia.
  - apply Z.div_lt_upper_bound; [lia|].
    pose proof (Z.mod_pos_bound (s - t) 3600). lia.
Qed.

Lemma EventClass_eqb_eq (a b : EventClass) : EventClass_eqb a b = true <-> a = b.
Proof.
  split; [|intros ->; destruct b; reflexivity].
  destruct a, b; simpl; intro H; try reflexivity; discriminate.
Qed.

(** X14. [detect_high_value_taxi] returns a finding only for a group of one
    taxi ride that is not self-paid and costs more than the threshold (50
    unless the context sets [taxi_high_value_threshold]); the finding names
    the ride, and the excess it reports is positive. *)
Theorem high_value_finding_means_expensive
    (rule : Rule) (events : list Event) (context : Context) (f : HighValueFinding) :
  detect_high_value_taxi rule events context = Finding f ->
  exists event,
    events = [event]
    /\ event_class event = TaxiEvent
    /\ is_self_paid event = false
    /\ (context_get context "taxi_high_value_threshold" 50 < amount event)%Q
    /\ hv_primary_event_id f = event_id event
    /\ (0 < hv_excess_amount f)%Q.
Proof.
  unfold detect_high_value_taxi.
  destruct (singleton_guard events) eqn:G; [discriminate|].
  destruct (singleton_guard_false _ G) as [event ->].
  destruct (EventClass_eqb (event_class event) TaxiEvent) eqn:T; simpl; [|discriminate].
  apply EventClass_eqb_eq in T.
  destruct (is_self_paid event) eqn:P; [discriminate|].
  destruct (Qltb _ (amount event)) eqn:A; [|discriminate].
  apply Qltb_lt in A.
  intro H. inversion H. subst f. clear H. simpl.
  exists event. repeat split; try assumption; try reflexivity.
  unfold Qminus. rewrite <- Qlt_minus_iff. exact A.
Qed.

(** ** Widening the windows in the ubiquitous-presence rule *)

Lemma fold_left_min_attained (l : list Z) (a : Z) :
  fold_left Z.min l a = a \/ In (fold_left Z.min l a) l.
Proof.
  revert a. induction l as [|y rest IH]; intro a; simpl; [left; reflexivity|].
  destruct (IH (Z.min a y)) as [H|H]; [|right; right; exact H].
  rewrite H. destruct (Z.min_spec a y) as [[_ ->]|[_ ->]]; [left|right; left]; reflexivity.
Qed.

Lemma fold_left_max_attained (l : list Z) (a : Z) :
  fold_left Z.max l a = a \/ In (fold_left Z.max l a) l.
Proof.
  revert a. induction l as [|y rest IH]; intro a; simpl; [left; reflexivity|].
  destruct (IH (Z.max a y)) as [H|H]; [|right; right; exact H].
  rewrite H. destruct (Z.max_spec a y) as [[_ ->]|[_ ->]]; [right; left|left]; reflexivity.
Qed.

Lemma py_min_attained (l : list Z) (m : Z) : py_min l = ret m -> In m l.
Proof.
  destruct l as [|a rest]; simpl; [discriminate|]. intro H. inversion H.
  destruct (fold_left_min_attained rest a) as [->|Hin]; [left; reflexivity|right; exact Hin].
Qed.

Lemma py_max_attained (l : list Z) (m : Z) : py_max l = ret m -> In m l.
Proof.
  destruct l as [|a rest]; simpl; [discriminate|]. intro H. inversion H.
  destruct (fold_left_max_attained rest a) as [->|Hin]; [left; reflexivity|right; exact Hin].
Qed.

Lemma events_times_In (evs : list Event) (x : Z) :
  In x (events_times evs) ->
  exists e, In e evs
            /\ (x = earliest_start (time_window e) \/ x = latest_end (time_window e)).
Proof.
  unfold events_times. intro H. apply in_app_or in H.
  destruct H as [H|H]; apply in_map_iff in H; destruct H as [e [<- He]];
    exists e; auto.
Qed.

Lemma widened_In (evs wider : list Event) (e : Event) :
  Forall2 widened evs wider -> In e evs -> exists w, In w wider /\ widened e w.
Proof.
  induction 1 as [|x y xs ys Hxy _ IH]; intro Hin; [destruct Hin|].
  destruct Hin as [->|Hin].
  - exists y. split; [left; reflexivity|exact Hxy].
  - destruct (IH Hin) as [w [Hw Hew]]. exists w. split; [right; exact Hw|exact Hew].
Qed.

(** The bounds of the wider events contain the bounds of the events. *)
Lemma widened_times (evs wider : list Event) (lo hi : Z) :
  Forall2 widened evs wider ->
  Forall bounds_in_order evs ->
  py_min (events_times wider) = ret lo ->
  py_max (events_times wider) = ret hi ->
  exists lo0 hi0,
    py_min (events_times evs) = ret lo0 /\ py_max (events_times evs) = ret hi0
    /\ lo <= lo0 /\ lo0 <= hi0 /\ hi0 <= hi.
Proof.
  intros Hw Hord Hlo Hhi.
  destruct Hw as [|e w evs' wider' Hew Hrest]; [discriminate|].
  set (all := e :: evs') in *. set (allw := w :: wider') in *.
  assert (Hall : Forall2 widened all allw) by (constructor; assumption).
  destruct (py_min (events_times all)) as [|lo0] eqn:E1; [discriminate|].
  destruct (py_max (events_times all)) as [|hi0] eqn:E2; [discriminate|].
  exists lo0, hi0. split; [reflexivity|]. split; [reflexivity|].
  assert (Hbound : forall x, In x (events_times all) -> lo <= x <= hi).
  { intros x Hx. apply events_times_In in Hx. destruct Hx as [e0 [He0 Hx]].
    destruct (widened_In _ _ _ Hall He0) as [w0 [Hw0 (_ & _ & Hes & Hle)]].
    rewrite Forall_forall in Hord. specialize (Hord _ He0). unfold bounds_in_order in Hord.
    destruct (events_times_bounds _ _ Hw0) as [Hb1 Hb2].
    pose proof (py_min_le _ _ _ Hlo Hb1). pose proof (py_max_ge _ _ _ Hhi Hb2).
    destruct Hx as [-> | ->]; lia. }
  pose proof (py_min_attained _ _ E1) as A1.
  pose proof (py_max_attained _ _ E2) as A2.
  pose proof (py_min_le _ _ _ E1 A2).
  pose proof (Hbound _ A1). pose proof (Hbound _ A2). lia.
Qed.

Lemma max_time_diff_widened
    (c1e c1l c2e c2l d1e d1l d2e d2l : datetime) :
  d1e <= c1e -> c1e <= c1l -> c1l <= d1l ->
  d2e <= c2e -> c2e <= c2l -> c2l <= d2l ->
  (max_time_diff c1e c1l c2e c2l <= max_time_diff d1e d1l d2e d2l)%Q.
Proof.
  intros. unfold max_time_diff, time_difference. simpl seconds_per.
  set (a := (inject_Z (c2l - c1e) / inject_Z 3600)%Q).
  set (b := (inject_Z (c1l - c2e) / inject_Z 3600)%Q).
  set (a' := (inject_Z (d2l - d1e) / inject_Z 3600)%Q).
  set (b' := (inject_Z (d1l - d2e) / inject_Z 3600)%Q).
  assert (Ha : (a <= a')%Q) by (apply hours_le; lia).
  assert (Hb : (b <= b')%Q) by (apply hours_le; lia).
  assert (Hab : (- b <= a)%Q).
  { unfold a, b, Qle, Qdiv, Qmult, Qinv, Qopp, inject_Z. simpl. lia. }
  pose proof (Qle_Qabs a'). pose proof (Qle_Qabs b').
  pose proof (Q.le_max_l (Qabs a') (Qabs b')).
  pose proof (Q.le_max_r (Qabs a') (Qabs b')).
  apply Q.max_lub; apply Qabs_Qle_condition; split; lra.
Qed.

(** X15. Moving the bounds of the windows apart never makes the
    ubiquitous-presence rule record a pair of cities it did not record: if
    the pair is recorded for the wider windows, it is recorded for the
    original ones, whose bounds are in order, and the available time it
    reports for them is no larger. *)
Theorem widening_never_adds_a_city_pair
    (rule : Rule) (min_city_distance_km max_travel_speed_kmh : Q)
    (city1 city2 : string) (events1 events2 wider1 wider2 : list Event)
    (found : CityPair) :
  Forall2 widened events1 wider1 ->
  Forall2 widened events2 wider2 ->
  Forall bounds_in_order events1 ->
  Forall bounds_in_order events2 ->
  check_city_pair rule min_city_distance_km max_travel_speed_kmh
                  (city1, wider1) (city2, wider2) = ret (Some found) ->
  exists original,
    check_city_pair rule min_city_distance_km max_travel_speed_kmh
                    (city1, events1) (city2, events2) = ret (Some original)
    /\ (cp_available_time_hours original <= cp_available_time_hours found)%Q.
Proof.
  intros Hw1 Hw2 Ho1 Ho2. unfold check_city_pair.
  destruct Hw1 as [|e1 w1 r1 s1 Hew1 Hr1]; [discriminate|].
  destruct Hw2 as [|e2 w2 r2 s2 Hew2 Hr2]; [discriminate|].
  cbn [first_item bind ret].
  destruct Hew1 as (Hid1 & Hloc1 & Hes1 & Hle1).
  destruct Hew2 as (Hid2 & Hloc2 & Hes2 & Hle2).
  rewrite Hloc1, Hloc2.
  destruct (get_distance rule (location e1) (location e2)) as [distance|];
    [|discriminate].
  destruct (Qltb distance min_city_distance_km); [discriminate|].
  destruct (py_div distance max_travel_speed_kmh) as [|min_travel_time];
    cbn [bind]; [discriminate|].
  destruct (py_min (events_times (w1 :: s1))) as [|d1e] eqn:W1; cbn [bind]; [discriminate|].
  destruct (py_max (events_times (w1 :: s1))) as [|d1l] eqn:W2; cbn [bind]; [discriminate|].
  destruct (py_min (events_times (w2 :: s2))) as [|d2e] eqn:W3; cbn [bind]; [discriminate|].
  destruct (py_max (events_times (w2 :: s2))) as [|d2l] eqn:W4; cbn [bind]; [discriminate|].
  destruct (widened_times (e1 :: r1) (w1 :: s1) d1e d1l) as (c1e & c1l & E1 & E2 & B1);
    try assumption; [constructor; [repeat split|]; assumption|].
  destruct (widened_times (e2 :: r2) (w2 :: s2) d2e d2l) as (c2e & c2l & E3 & E4 & B2);
    try assumption; [constructor; [repeat split|]; assumption|].
  rewrite E1, E2, E3, E4. cbv beta iota zeta delta [bind ret].
  pose proof (max_time_diff_widened c1e c1l c2e c2l d1e d1l d2e d2l) as Hmono.
  destruct (Qltb (max_time_diff d1e d1l d2e d2l) min_travel_time) eqn:Hflag;
    [|discriminate].
  apply Qltb_lt in Hflag.
  assert (Hle : (max_time_diff c1e c1l c2e c2l <= max_time_diff d1e d1l d2e d2l)%Q)
    by (apply Hmono; lia).
  assert (Hlt : Qltb (max_time_diff c1e c1l c2e c2l) min_travel_time = true).
  { apply Qltb_lt. eapply Qle_lt_trans; [exact Hle|exact Hflag]. }
  rewrite Hlt. intro H. inversion H. subst found. clear H.
  eexists. split; [reflexivity|]. simpl. exact Hle.
Qed.

(** ** The hotel rule on the store: it returns, and its reports are sound *)

Lemma wp_read_event_at (a : Addr) (e : Event) (Q : Event -> Heap -> Prop)
    (E : Heap -> Prop) (h : Heap) :
  nth_error h a = Some (OEvent e) -> Q e h -> wp (read_event a) Q E h.
Proof.
  intros Ha HQ. unfold wp, read_event, st_bind, load. rewrite Ha. exact HQ.
Qed.

Lemma wp_read_list_at (a : Addr) (items : list Addr) (Q : list Addr -> Heap -> Prop)
    (E : Heap -> Prop) (h : Heap) :
  nth_error h a = Some (OList items) -> Q items h -> wp (read_list a) Q E h.
Proof.
  intros Ha HQ. unfold wp, read_list, st_bind, load. rewrite Ha. exact HQ.
Qed.

Lemma wp_list_append_at (l x : Addr) (items : list Addr) (Q : unit -> Heap -> Prop)
    (E : Heap -> Prop) (h : Heap) :
  nth_error h l = Some (OList items) ->
  Q tt (update h l (OList (items ++ [x]))) -> wp (list_append l x) Q E h.
Proof.
  intros Hl HQ. unfold wp, list_append, read_list, st_bind, load. rewrite Hl. exact HQ.
Qed.

Lemma wp_for_each_In {A S} (I : S -> Heap -> Prop) (E : Heap -> Prop)
    (xs : list A) (body : S -> A -> St S) :
  (forall s x h, In x xs -> I s h -> wp (body s x) I E h) ->
  forall s h, I s h -> wp (st_for_each xs body s) I E h.
Proof.
  induction xs as [|x rest IH]; intros Hbody s h HI; simpl.
  - apply wp_ret. exact HI.
  - apply wp_bind. apply (wp_mono _ I); [|apply Hbody; [left; reflexivity|exact HI]].
    intros s' h' HI'. apply IH; [|exact HI'].
    intros s0 x0 h0 Hx0. apply Hbody. right. exact Hx0.
Qed.

Lemma wp_filter_refs (keep : Event -> bool) (refs : list Addr)
    (Q : list Addr -> Heap -> Prop) (E : Heap -> Prop) (h : Heap) :
  Forall (fun a => exists e, nth_error h a = Some (OEvent e)) refs ->
  (forall kept,
     Forall (fun a => In a refs
                      /\ exists e, nth_error h a = Some (OEvent e) /\ keep e = true) kept ->
     Q kept h) ->
  wp (filter_refs keep refs) Q E h.
Proof.
  revert Q. induction refs as [|a rest IH]; intros Q Hrefs HQ; simpl.
  - apply wp_ret. apply HQ. constructor.
  - inversion Hrefs as [|a' rest' [e He] Hrest]; subst.
    apply wp_bind. apply (wp_read_event_at a e); [exact He|].
    apply wp_bind. apply IH; [exact Hrest|]. intros kept Hkept.
    apply wp_ret. apply HQ.
    assert (Hkept' : Forall (fun a0 => In a0 (a :: rest)
                         /\ exists e0, nth_error h a0 = Some (OEvent e0) /\ keep e0 = true)
                       kept).
    { eapply Forall_impl; [|exact Hkept]. intros a0 [Hin Hev]. split; [right; exact Hin|exact Hev]. }
    destruct (keep e) eqn:Hk; [|exact Hkept'].
    constructor; [|exact Hkept'].
    split; [left; reflexivity|]. exists e. split; [exact He|exact Hk].
Qed.

Lemma nth_error_alloc_new (h : Heap) (o : Obj) :
  nth_error (h ++ [o]) (List.length h) = Some o.
Proof.
  rewrite nth_error_app2 by lia. rewrite Nat.sub_diag. reflexivity.
Qed.

Lemma nth_error_lt (h : Heap) (a : Addr) (o : Obj) :
  nth_error h a = Some o -> (a < List.length h)%nat.
Proof. intro H. apply nth_error_Some. congruence. Qed.

Lemma NoDup_snd_key {V} (d : list (string * V)) (k k' : string) (v : V) :
  NoDup (map snd d) -> In (k, v) d -> In (k', v) d -> k = k'.
Proof.
  induction d as [|[k0 v0] rest IH]; simpl; intros Hnd H1 H2; [destruct H1|].
  inversion Hnd as [|x xs Hnotin Hnd']; subst.
  destruct H1 as [H1|H1]; destruct H2 as [H2|H2].
  - congruence.
  - inversion H1; subst. exfalso. apply Hnotin.
    apply in_map_iff. exists (k', v). split; [reflexivity|exact H2].
  - inversion H2; subst. exfalso. apply Hnotin.
    apply in_map_iff. exists (k, v). split; [reflexivity|exact H1].
  - exact (IH Hnd' H1 H2).
Qed.

Lemma check_hotel_pair_some (rule : Rule) (user : string) (hotel1 hotel2 : Event)
    (f : MultiHotelFinding) :
  check_hotel_pair rule user hotel1 hotel2 = Some f ->
  mh_user_id f = user
  /\ mh_primary_event_id f = event_id hotel1
  /\ mh_hotels f = [hotel_stay hotel1; hotel_stay hotel2]
  /\ do_time_intervals_overlap rule (time_window hotel1) (time_window hotel2) = true
  /\ mh_overlap_hours f
     = get_overlap_duration rule (time_window hotel1) (time_window hotel2) Hours
  /\ (8 <= mh_overlap_hours f)%Q
  /\ (hotel_name hotel1 <> hotel_name hotel2
      \/ is_same_city rule (location hotel1) (location hotel2) = false).
Proof.
  unfold check_hotel_pair.
  destruct (do_time_intervals_overlap rule (time_window hotel1) (time_window hotel2));
    [|discriminate].
  destruct (Qleb 8 (get_overlap_duration rule (time_window hotel1) (time_window hotel2) Hours))
    eqn:Hlong; [|discriminate].
  destruct (negb (String.eqb (hotel_name hotel1) (hotel_name hotel2))
            || negb (is_same_city rule (location hotel1) (location hotel2))) eqn:Hdiff;
    [|discriminate].
  intro H. inversion H. subst f. clear H. simpl.
  repeat split; try reflexivity.
  - apply Qle_bool_iff. exact Hlong.
  - apply orb_true_iff in Hdiff. destruct Hdiff as [Hn|Hc].
    + left. apply negb_true_iff in Hn. apply String.eqb_neq. exact Hn.
    + right. apply negb_true_iff in Hc. exact Hc.
Qed.

Section HotelStore.

Variable rule : Rule.
Variable h0 : Heap.
Variable refs : list Addr.

Lemma hotel_ref_at (user : string) (a : Addr) (h : Heap) :
  unchanged h0 h -> hotel_ref h0 refs user a ->
  exists e, nth_error h a = Some (OEvent e) /\ hotel_of h0 refs user e.
Proof.
  intros [_ Hsame] [Hin [e [He [Hh Hu]]]]. exists e. split.
  - rewrite Hsame; [exact He|]. exact (nth_error_lt _ _ _ He).
  - exists a. auto.
Qed.

Lemma user_lists_alloc (d : list (string * Addr)) (h : Heap) (o : Obj) :
  user_lists h0 refs d h -> user_lists h0 refs d (h ++ [o]).
Proof.
  intros H k l Hin. destruct (H k l Hin) as [Hf [items [Hl Hitems]]].
  split; [exact Hf|]. exists items. split; [|exact Hitems].
  exact (nth_error_alloc_old _ _ _ _ Hl).
Qed.

Lemma user_lists_store (d : list (string * Addr)) (h : Heap) (a : Addr) (o : Obj) :
  (forall k l, In (k, l) d -> l <> a) ->
  user_lists h0 refs d h -> user_lists h0 refs d (update h a o).
Proof.
  intros Hne H k l Hin. destruct (H k l Hin) as [Hf [items [Hl Hitems]]].
  split; [exact Hf|]. exists items. split; [|exact Hitems].
  rewrite nth_error_update_other; [exact Hl|]. intro Heq. exact (Hne k l Hin (eq_sym Heq)).
Qed.

Lemma group_by_user_grouped (d : list (string * Addr)) (a : Addr) (h : Heap) :
  (In a refs /\ exists e, nth_error h0 a = Some (OEvent e) /\ is_hotel e = true) ->
  grouped h0 refs d h ->
  wp (group_by_user d a) (grouped h0 refs) no_exception h.
Proof.
  intros [Hin [e [He Hh]]] (Hun & Hnd & Hlists).
  assert (Href : hotel_ref h0 refs (user_id e) a).
  { split; [exact Hin|]. exists e. auto. }
  unfold group_by_user. apply wp_bind. apply (wp_read_event_at a e).
  { destruct Hun as [_ Hsame]. rewrite Hsame; [exact He|]. exact (nth_error_lt _ _ _ He). }
  unfold setdefault_append.
  destruct (dict_get String.eqb d (user_id e)) as [l|] eqn:Hget.
  - apply (dict_get_In_pair String.eqb String.eqb_eq) in Hget.
    destruct (Hlists _ _ Hget) as [Hf [items [Hl Hitems]]].
    apply wp_bind. apply (wp_list_append_at l a items); [exact Hl|]. apply wp_ret.
    split; [apply unchanged_store; assumption|]. split; [exact Hnd|].
    intros k' l' Hin'. destruct (Nat.eq_dec l' l) as [->|Hne].
    + assert (k' = user_id e) by exact (NoDup_snd_key d _ _ l Hnd Hin' Hget). subst k'.
      split; [exact Hf|]. exists (items ++ [a]). split.
      * exact (nth_error_update_same _ _ _ _ Hl).
      * apply Forall_app. split; [exact Hitems|]. constructor; [exact Href|constructor].
    + destruct (Hlists _ _ Hin') as [Hf' [items' [Hl' Hitems']]].
      split; [exact Hf'|]. exists items'. split; [|exact Hitems'].
      rewrite nth_error_update_other; [exact Hl'|]. intro Heq. apply Hne. symmetry. exact Heq.
  - apply wp_bind. apply wp_alloc.
    apply wp_bind. apply (wp_list_append_at _ a []); [apply nth_error_alloc_new|].
    apply wp_ret. simpl app.
    assert (Hnew : fresh h0 (List.length h)) by (destruct Hun as [Hlen _]; exact Hlen).
    assert (Hold : forall k l, In (k, l) d -> l <> List.length h).
    { intros k l Hkl. destruct (Hlists _ _ Hkl) as [_ [items [Hl _]]].
      apply nth_error_lt in Hl. lia. }
    split; [apply unchanged_store; [apply unchanged_alloc; exact Hun|exact Hnew]|].
    split.
    + rewrite map_app. apply NoDup_app; [exact Hnd|repeat constructor; intros []|].
      intros l Hl [Heq|[]]. subst l. apply in_map_iff in Hl.
      destruct Hl as [[k l] [Heq Hkl]]. simpl in Heq. subst l.
      exact (Hold _ _ Hkl eq_refl).
    + intros k' l' Hin'. apply in_app_or in Hin'. destruct Hin' as [Hin'|[Heq|[]]].
      * apply (user_lists_store d); [exact Hold| |exact Hin'].
        apply user_lists_alloc. exact Hlists.
      * inversion Heq. subst k' l'. split; [exact Hnew|]. exists [a]. split.
        -- exact (nth_error_update_same _ _ _ _ (nth_error_alloc_new h (OList []))).
        -- constructor; [exact Href|constructor].
Qed.

Lemma sound_hotel_report_alloc (h : Heap) (o : Obj) (r : Addr) :
  sound_hotel_report rule h0 refs h r -> sound_hotel_report rule h0 refs (h ++ [o]) r.
Proof.
  intros (f & e1 & e2 & Hr & Hrest). exists f, e1, e2.
  split; [exact (nth_error_alloc_old _ _ _ _ Hr)|exact Hrest].
Qed.

Lemma sound_hotel_report_store (h : Heap) (sp : Addr) (items : list Addr) (o : Obj)
    (r : Addr) :
  nth_error h sp = Some (OList items) ->
  sound_hotel_report rule h0 refs h r ->
  sound_hotel_report rule h0 refs (update h sp o) r.
Proof.
  intros Hsp (f & e1 & e2 & Hr & Hrest). exists f, e1, e2.
  split; [|exact Hrest].
  rewrite nth_error_update_other; [exact Hr|]. intro Heq. subst r. congruence.
Qed.

Lemma report_hotel_pair_reported (d : list (string * Addr)) (sp : Addr)
    (user : string) (a1 a2 : Addr) (h : Heap) :
  hotel_ref h0 refs user a1 -> hotel_ref h0 refs user a2 ->
  reported rule h0 refs d sp h ->
  wp (report_hotel_pair rule user sp tt (a1, a2))
     (fun _ => reported rule h0 refs d sp) no_exception h.
Proof.
  intros H1 H2 Hrep.
  pose proof Hrep as (Hun & Hlists & Hne & Hsp & reports & Hreports & Hsound).
  destruct (hotel_ref_at user a1 h Hun H1) as [e1 [He1 Hof1]].
  destruct (hotel_ref_at user a2 h Hun H2) as [e2 [He2 Hof2]].
  unfold report_hotel_pair. cbn [fst snd].
  apply wp_bind. apply (wp_read_event_at a1 e1); [exact He1|].
  apply wp_bind. apply (wp_read_event_at a2 e2); [exact He2|].
  destruct (check_hotel_pair rule user e1 e2) as [f|] eqn:Hcheck.
  - apply wp_bind. apply wp_alloc.
    apply (wp_list_append_at sp _ reports);
      [exact (nth_error_alloc_old _ _ _ _ Hreports)|].
    pose proof (nth_error_lt _ _ _ Hreports) as Hlt.
    split; [apply unchanged_store; [apply unchanged_alloc; exact Hun|exact Hsp]|].
    split; [apply user_lists_store; [exact Hne|apply user_lists_alloc; exact Hlists]|].
    split; [exact Hne|]. split; [exact Hsp|].
    exists (reports ++ [List.length h]). split.
    + exact (nth_error_update_same _ _ _ _ (nth_error_alloc_old _ _ _ _ Hreports)).
    + apply Forall_app. split.
      * eapply Forall_impl; [|exact Hsound]. intros r Hr.
        apply (sound_hotel_report_store _ sp reports);
          [exact (nth_error_alloc_old _ _ _ _ Hreports)|].
        apply sound_hotel_report_alloc. exact Hr.
      * constructor; [|constructor].
        destruct (check_hotel_pair_some _ _ _ _ _ Hcheck)
          as (Hu & Hp & Hh & Ho & Hd & Hl & Hdiff).
        exists f, e1, e2. rewrite Hu.
        split; [|repeat split; assumption].
        rewrite nth_error_update_other by lia. apply nth_error_alloc_new.
  - apply wp_ret. exact Hrep.
Qed.

Lemma check_user_hotels_reported (d : list (string * Addr)) (sp : Addr)
    (item : string * Addr) (h : Heap) :
  In item d ->
  reported rule h0 refs d sp h ->
  wp (check_user_hotels rule sp tt item)
     (fun _ => reported rule h0 refs d sp) no_exception h.
Proof.
  destruct item as [user l]. intros Hin Hrep.
  pose proof Hrep as (Hun & Hlists & Hne & Hsp & Hreports).
  destruct (Hlists _ _ Hin) as [_ [items [Hl Hitems]]].
  unfold check_user_hotels. apply wp_bind. apply (wp_read_list_at l items); [exact Hl|].
  destruct (List.length items <? 2)%nat; [apply wp_ret; exact Hrep|].
  apply (wp_for_each_In (fun _ : unit => reported rule h0 refs d sp)); [|exact Hrep].
  intros [] [a1 a2] h' Hpair Hrep'.
  apply pairs_In in Hpair. destruct Hpair as [Ha1 Ha2].
  rewrite Forall_forall in Hitems.
  apply report_hotel_pair_reported; auto.
Qed.

End HotelStore.

(** X16. On a store where [events] is a list of event objects, the hotel
    rule raises no exception, and what it returns is [False] or a
    non-empty list of reports, each on two hotel events of one user among
    the events given, whose windows overlap, for eight hours or more, in
    hotels that differ in name or are not in the same city. *)
Theorem multi_hotel_returns_sound_reports
    (rule : Rule) (events context : Addr) (h0 : Heap) (refs : list Addr) :
  holds_events h0 events refs ->
  wp (detect_multi_hotel_same_night rule events context)
     (sound_hotel_result rule h0 refs) no_exception h0.
Proof.
  intros [Hevents Hrefs]. unfold detect_multi_hotel_same_night.
  apply wp_bind. apply (wp_read_list_at events refs); [exact Hevents|].
  apply wp_bind. apply wp_filter_refs; [exact Hrefs|]. intros hotel_refs Hhotels.
  apply wp_bind. apply wp_alloc.
  destruct (List.length hotel_refs <? 2)%nat; [apply wp_ret; exact I|].
  apply wp_bind.
  apply (wp_mono _ (grouped h0 refs)).
  2:{ apply (wp_for_each_In (grouped h0 refs)).
      - intros d a h Ha Hg. apply group_by_user_grouped; [|exact Hg].
        rewrite Forall_forall in Hhotels. exact (Hhotels a Ha).
      - split; [apply unchanged_alloc; apply unchanged_refl|].
        split; [constructor|]. intros k l []. }
  intros hotels_by_user h (Hun & Hnd & Hlists).
  apply wp_bind. apply wp_alloc.
  assert (Hrep : reported rule h0 refs hotels_by_user (List.length h) (h ++ [OList []])).
  { split; [apply unchanged_alloc; exact Hun|].
    split; [apply user_lists_alloc; exact Hlists|].
    split.
    { intros k l Hkl. destruct (Hlists _ _ Hkl) as [_ [items [Hl _]]].
      apply nth_error_lt in Hl. lia. }
    split; [destruct Hun as [Hlen _]; exact Hlen|].
    exists []. split; [apply nth_error_alloc_new|constructor]. }
  apply wp_bind.
  apply (wp_mono _ (fun _ : unit => reported rule h0 refs hotels_by_user (List.length h))).
  2:{ apply (wp_for_each_In
               (fun _ : unit => reported rule h0 refs hotels_by_user (List.length h)));
        [|exact Hrep].
      intros [] item h' Hitem Hrep'. apply check_user_hotels_reported; assumption. }
  intros [] h' (_ & _ & _ & _ & reports & Hreports & Hsound).
  unfold list_or_false. apply wp_bind.
  apply (wp_read_list_at _ reports); [exact Hreports|].
  destruct reports as [|r rest]; apply wp_ret; [exact I|].
  exists (r :: rest). split; [exact Hreports|]. split; [discriminate|exact Hsound].
Qed.

(** ** The check-in rule: its findings are sound *)



(** ** The order of the two cities in the ubiquitous-presence rule *)

Lemma max_time_diff_swap (c1e c1l c2e c2l : datetime) :
  (max_time_diff c2e c2l c1e c1l == max_time_diff c1e c1l c2e c2l)%Q.
Proof. unfold max_time_diff. cbv zeta. apply Q.max_comm. Qed.

Lemma city_pair_swap
    (rule : Rule) (min_city_distance_km max_travel_speed_kmh : Q)
    (city1 city2 : string) (events1 events2 : list Event) :
  (forall e1 e2, In e1 events1 -> In e2 events2 ->
     get_distance rule (location e2) (location e1)
     = get_distance rule (location e1) (location e2)) ->
  (exists found,
      check_city_pair rule min_city_distance_km max_travel_speed_kmh
                      (city1, events1) (city2, events2) = ret (Some found)) ->
  exists found,
    check_city_pair rule min_city_distance_km max_travel_speed_kmh
                    (city2, events2) (city1, events1) = ret (Some found).
Proof.
  intros Hsym [found Hfound]. revert Hfound. unfold check_city_pair.
  destruct events1 as [|e1 r1]; [discriminate|].
  destruct events2 as [|e2 r2]; [discriminate|].
  cbn [first_item bind ret].
  rewrite (Hsym e1 e2 (or_introl eq_refl) (or_introl eq_refl)).
  destruct (get_distance rule (location e1) (location e2)) as [distance|];
    [|discriminate].
  destruct (Qltb distance min_city_distance_km); [discriminate|].
  destruct (py_div distance max_travel_speed_kmh) as [|min_travel_time];
    cbn [bind]; [discriminate|].
  destruct (py_min (events_times (e1 :: r1))) as [|c1e]; cbn [bind]; [discriminate|].
  destruct (py_max (events_times (e1 :: r1))) as [|c1l]; cbn [bind]; [discriminate|].
  destruct (py_min (events_times (e2 :: r2))) as [|c2e]; cbn [bind]; [discriminate|].
  destruct (py_max (events_times (e2 :: r2))) as [|c2l]; cbn [bind]; [discriminate|].
  cbv zeta.
  destruct (Qltb (max_time_diff c1e c1l c2e c2l) min_travel_time) eqn:Hflag;
    [|discriminate].
  intros _. apply Qltb_lt in Hflag.
  assert (Hswap : Qltb (max_time_diff c2e c2l c1e c1l) min_travel_time = true).
  { apply Qltb_lt. rewrite max_time_diff_swap. exact Hflag. }
  rewrite Hswap. eexists. reflexivity.
Qed.

(** X18. The ubiquitous-presence rule records a pair of cities whichever of
    the two comes first, when the distance helper gives the same answer in
    both directions for their events. *)
Theorem city_pair_order_is_irrelevant
    (rule : Rule) (min_city_distance_km max_travel_speed_kmh : Q)
    (city1 city2 : string) (events1 events2 : list Event) :
  (forall e1 e2, In e1 events1 -> In e2 events2 ->
     get_distance rule (location e2) (location e1)
     = get_distance rule (location e1) (location e2)) ->
  ((exists found,
       check_city_pair rule min_city_distance_km max_travel_speed_kmh
                       (city1, events1) (city2, events2) = ret (Some found))
   <-> (exists found,
          check_city_pair rule min_city_distance_km max_travel_speed_kmh
                          (city2, events2) (city1, events1) = ret (Some found))).
Proof.
  intro Hsym. split; apply city_pair_swap.
  - exact Hsym.
  - intros e2 e1 H2 H1. symmetry. apply Hsym; assumption.
Qed.

(** ** The partial-functions ubiquitous-presence rule reads no empty list *)

Lemma add_visit_nonempty (daily_events : list Event) (d : list (string * list Event)) :
  (forall c l, In (c, l) d -> l <> []) ->
  forall c l, In (c, l) (fold_left PartialFunctions.add_visit daily_events d) -> l <> [].
Proof.
  revert d. induction daily_events as [|e rest IH]; intros d Hd c l Hin; simpl in Hin.
  - exact (Hd c l Hin).
  - apply (IH (PartialFunctions.add_visit d e)) with (c := c); [|exact Hin].
    unfold PartialFunctions.add_visit.
    destruct (location e) as [loc|]; [|exact Hd].
    destruct (String.eqb (city loc) ""); [exact Hd|].
    apply dict_append_nonempty. exact Hd.
Qed.

Lemma partial_check_city_pair_returns
    (city1 city2 : string) (events1 events2 : list Event) :
  events1 <> [] -> events2 <> [] ->
  exists found,
    PartialFunctions.check_city_pair (city1, events1) (city2, events2) = ret found.
Proof.
  intros H1 H2. unfold PartialFunctions.check_city_pair.
  destruct (Distance_gtb _ _); [|eexists; reflexivity].
  destruct (first_item_nonempty _ (sorted_by_nonempty PartialFunctions.by_start _ H1))
    as [f1 Hf1].
  destruct (last_item_nonempty _ (sorted_by_nonempty PartialFunctions.by_start _ H1))
    as [l1 Hl1].
  destruct (first_item_nonempty _ (sorted_by_nonempty PartialFunctions.by_start _ H2))
    as [f2 Hf2].
  destruct (last_item_nonempty _ (sorted_by_nonempty PartialFunctions.by_start _ H2))
    as [l2 Hl2].
  cbv zeta. rewrite Hf1, Hl1, Hf2, Hl2. cbn [bind ret].
  destruct (_ && _); eexists; reflexivity.
Qed.

(** X19. The partial-functions ubiquitous-presence rule raises no exception,
    whatever the events: the lists it indexes at [0] and [-1] are never
    empty. *)
Theorem partial_ubiquitous_presence_never_raises
    (rule : Rule) (events : list Event) (context : Context) :
  exists result,
    PartialFunctions.detect_ubiquitous_presence rule events context = ret result.
Proof.
  unfold PartialFunctions.detect_ubiquitous_presence.
  destruct events as [|e0 rest]; [eexists; reflexivity|].
  destruct (for_each_returns PartialFunctions.check_user
              (dict_items (group_by String.eqb user_id (e0 :: rest))))
    with (s := @nil PartialFunctions.PresenceFinding)
    as [fraud_instances Hrun].
  2:{ rewrite Hrun. eexists. reflexivity. }
  intros acc [user user_events] _. unfold PartialFunctions.check_user.
  destruct (List.length user_events <? 2)%nat; [eexists; reflexivity|].
  apply for_each_returns.
  intros s [event_date daily_events] _. unfold PartialFunctions.check_date.
  destruct (List.length daily_events <? 2)%nat eqn:Hlen; [eexists; reflexivity|].
  cbv zeta.
  destruct (List.length (fold_left PartialFunctions.add_visit daily_events []) <? 2)%nat;
    [eexists; reflexivity|].
  destruct (for_each_returns PartialFunctions.add_impossible_pair
              (pairs (dict_items (fold_left PartialFunctions.add_visit daily_events []))))
    with (s := @nil PartialFunctions.ImpossibleCityPair)
    as [impossible_city_pairs Hpairs].
  { intros ps [[city1 events1] [city2 events2]] Hpair.
    apply pairs_In in Hpair. destruct Hpair as [H1 H2].
    unfold PartialFunctions.add_impossible_pair. cbn [fst snd].
    destruct (partial_check_city_pair_returns city1 city2 events1 events2)
      as [found Hfound].
    - apply (add_visit_nonempty daily_events [] (fun c l H => match H with end) city1).
      exact H1.
    - apply (add_visit_nonempty daily_events [] (fun c l H => match H with end) city2).
      exact H2.
    - rewrite Hfound. eexists. reflexivity. }
  rewrite Hpairs. cbn [bind].
  destruct impossible_city_pairs as [|p ps]; [eexists; reflexivity|].
  destruct daily_events as [|sample_event others]; [discriminate Hlen|].
  eexists. reflexivity.
Qed.

End Rules.

(** * The theorems at the worked inputs *)

(** C1: the claim fails for [detect_impossible_travel].  The stay in
    Hangzhou may have ended at 08:00 and the check-in in Nanjing may have
    started at 20:00, which leaves twelve hours for a trip of under three;
    the rule compares 10:00 minus 12:00 with the travel time and reports the
    pair. *)
Lemma impossible_travel_ignores_favourable_resolution :
  exists f,
    detect_impossible_travel transport_classes (table_rule east_china)
                             [hangzhou_stay; nanjing_checkin] []
    = ret (Findings [f])
    /\ travel_possible (time_window hangzhou_stay) (time_window nanjing_checkin)
                       (it_min_travel_time_hours f).
Proof.
  eexists. split; [reflexivity|].
  exists (at_clock 0 8 0), (at_clock 0 8 0), (at_clock 0 20 0), (at_clock 0 20 0).
  unfold resolves. simpl.
  repeat split; try (vm_compute; discriminate).
  left. apply Qle_bool_iff. reflexivity.
Qed.

(** C1 at a pair of check-ins in Beijing and Guangzhou ninety minutes
    apart: the pair is recorded, and no resolution makes the trip possible. *)
Lemma beijing_guangzhou_pair_is_impossible :
  exists found,
    check_city_pair (table_rule east_china) 500 500
                    ("Beijing", [beijing_checkin]) ("Guangzhou", [guangzhou_checkin])
    = ret (Some found)
    /\ ~ travel_possible (time_window beijing_checkin) (time_window guangzhou_checkin)
                         (cp_min_travel_time_hours found).
Proof.
  eexists. split; [reflexivity|].
  refine (proj2 (ubiquitous_pair_is_impossible_under_every_resolution
                   (table_rule east_china) 500 500 "Beijing" "Guangzhou"
                   [beijing_checkin] [guangzhou_checkin] _ eq_refl)
                beijing_checkin guangzhou_checkin _ _);
    left; reflexivity.
Defined.

(** C2: the claim fails for the rule of [llm-rules-partial-functions].
    Nanjing and Hangzhou are in no entry of its table; the lookup returns
    infinity, and a morning in one and an evening in the other are reported
    as an impossible pair. *)
Lemma unknown_pair_is_reported_as_impossible :
  dict_get PartialFunctions.pair_eqb PartialFunctions.CITY_DISTANCES ("南京市", "杭州市")
  = None
  /\ dict_get PartialFunctions.pair_eqb PartialFunctions.CITY_DISTANCES ("杭州市", "南京市")
     = None
  /\ exists f p,
      PartialFunctions.detect_ubiquitous_presence
        (table_rule []) [nanjing_morning; hangzhou_evening] []
      = ret (Findings [f])
      /\ PartialFunctions.pf_impossible_city_pairs f = [p]
      /\ PartialFunctions.ic_distance p = Infinity.
Proof.
  split; [reflexivity|]. split; [reflexivity|].
  eexists. eexists. split; [reflexivity|]. split; reflexivity.
Qed.

(** C2 at two check-ins whose cities the rule's helper does not know. *)
Lemma unknown_pair_is_skipped_by_checkin_rule :
  check_checkin_pair (table_rule []) 200 1 150 nanjing_morning hangzhou_evening
  = ret None
  /\ PartialFunctions.get_city_distance "南京市" "杭州市" = Infinity.
Proof.
  destruct (unknown_distance_is_skipped (table_rule []) 200 1 150
              nanjing_morning hangzhou_evening "南京市" "杭州市" [] [] eq_refl)
    as [H1 [_ H3]].
  split; [exact H1|exact (H3 eq_refl eq_refl)].
Defined.

(** C3: the claim fails on a reversed window.  The flight departs at 14:00
    and arrives at 13:30, the train runs from 13:00 to 15:00: the test says
    they overlap, and [max] of the starts, 14:00, is after [min] of the
    ends, 13:30. *)
Lemma reversed_window_overlaps :
  route_of_event reversed_flight = Some reversed_flight_route
  /\ route_of_event same_route_train = Some same_route_train_route
  /\ times_overlap reversed_flight_route same_route_train_route = true
  /\ ~ (Z.max (r_start_time reversed_flight_route) (r_start_time same_route_train_route)
        <= Z.min (r_end_time reversed_flight_route) (r_end_time same_route_train_route)).
Proof.
  repeat split. intro H. vm_compute in H. apply H. reflexivity.
Qed.

(** C3 at two trains that touch at 16:00. *)
Lemma touching_trains_overlap :
  route_of_event morning_train = Some morning_route
  /\ route_of_event evening_train = Some evening_route
  /\ r_end_time morning_route = r_start_time evening_route
  /\ times_overlap morning_route evening_route = true.
Proof.
  split; [reflexivity|]. split; [reflexivity|]. split; [reflexivity|].
  refine (proj2 (times_overlap_closed_intervals morning_route evening_route _ _) eq_refl);
    vm_compute; discriminate.
Defined.

(** C4 at the reversed flight. *)
Lemma reversed_flight_is_reported :
  exists f,
    detect_transport_reverse_time transport_classes (table_rule east_china)
                                  [reversed_flight] []
    = Finding f
    /\ rt_primary_event_id f = "F1".
Proof.
  exact (proj1 (reverse_time_is_reported transport_classes (table_rule east_china) []
                  reversed_flight eq_refl)
               (at_clock 0 14 0) (at_clock 0 13 30) eq_refl eq_refl eq_refl).
Defined.



(** C9: the claim fails when the context asks for more rides.  One user has
    three taxi rides and [sequential_taxi_min_rides] is 4: the user is
    skipped and the rule returns [False]. *)
Lemma three_rides_below_min_rides :
  filter (fun e => String.eqb (user_id e) "u1") (filter is_taxi three_rides)
  = three_rides
  /\ List.length three_rides = 3%nat
  /\ detect_sequential_taxi_rides (table_rule east_china) three_rides
                                  [("sequential_taxi_min_rides", 4%Q)]
     = ret NoFinding.
Proof.
  split; [reflexivity|]. split; reflexivity.
Qed.

(** C9 at the three rides and the default context. *)
Lemma three_rides_raise :
  detect_sequential_taxi_rides (table_rule east_china) three_rides []
  = raise (AttributeError "time_interval").
Proof.
  refine (sequential_taxi_raises (table_rule east_china) three_rides [] "u1" _ _).
  - apply le_n.
  - apply Qle_bool_iff. reflexivity.
Defined.




(** * The further theorems at the worked inputs *)

(** X3 at the stay in Hangzhou and the check-in in Nanjing: no transport
    event, every location present. *)
Lemma stay_and_checkin_are_checked :
  exists result,
    detect_impossible_travel transport_classes (table_rule east_china)
                             [hangzhou_stay; nanjing_checkin] []
    = ret result.
Proof.
  apply (impossible_travel_returns_without_transport transport_classes
           (table_rule east_china) [hangzhou_stay; nanjing_checkin] []).
  - intros e [<-|[<-|[]]]; reflexivity.
  - intros e [<-|[<-|[]]]; discriminate.
Defined.


(** X6 at Nanjing and Hangzhou, which the table of the partial-functions
    rule does not hold. *)
Lemma nanjing_hangzhou_pair_is_recorded :
  exists p,
    PartialFunctions.check_city_pair ("南京市", [nanjing_morning])
                                     ("杭州市", [hangzhou_evening])
    = ret (Some p)
    /\ PartialFunctions.ic_distance p = Infinity
    /\ PartialFunctions.ic_min_travel_hours p = Infinity.
Proof.
  apply unknown_pairs_are_always_recorded; [reflexivity|discriminate|discriminate].
Defined.


(** X8 at the same check-ins, taken in the other order. *)
Lemma guangzhou_beijing_checkins_are_flagged :
  exists found,
    check_checkin_pair (table_rule east_china) 200 1 150
                       guangzhou_checkin beijing_checkin = ret (Some found).
Proof.
  apply (proj1 (checkin_pair_order_is_irrelevant (table_rule east_china) 200 1 150
                  beijing_checkin guangzhou_checkin eq_refl eq_refl)).
  eexists. reflexivity.
Defined.

(** X10 at the flight and the train from Hangzhou to Nanjing. *)
Lemma flight_and_train_finding_is_sound :
  exists f,
    detect_multi_transport_same_route_time (table_rule east_china)
                                           [reversed_flight; same_route_train] []
    = Findings [f]
    /\ Forall (multi_transport_finding_of [reversed_flight; same_route_train]) [f].
Proof.
  eexists. split; [reflexivity|].
  apply (multi_transport_findings_are_sound (table_rule east_china)
           [reversed_flight; same_route_train] [] _ eq_refl).
Defined.

(** X11 at the stay in Hangzhou and the flight from Nanjing to Beijing: the
    flight departs and arrives elsewhere during the stay. *)
Lemma flight_elsewhere_during_stay_has_two_conflicts :
  map hf_conflict_type
      (flight_conflicts "u1" lakeside_stay "Hangzhou" nanjing_beijing_flight)
  = ["departure_during_stay"; "arrival_during_stay"].
Proof.
  refine (proj2 (hotel_flight_pair_has_at_most_two_conflicts
                   "u1" lakeside_stay nanjing_beijing_flight "Hangzhou" _ _) eq_refl);
    vm_compute; discriminate.
Defined.

(** X12 at the same stay and flight. *)
Lemma stay_and_flight_findings_are_sound :
  exists findings,
    detect_hotel_flight_temporal_conflict (table_rule east_china)
                                          [lakeside_stay; nanjing_beijing_flight] []
    = Findings findings
    /\ Forall (hotel_flight_finding_of [lakeside_stay; nanjing_beijing_flight]) findings.
Proof.
  eexists. split; [reflexivity|].
  apply (hotel_flight_findings_are_sound (table_rule east_china)
           [lakeside_stay; nanjing_beijing_flight] [] _ eq_refl).
Defined.

(** X13 at the flight that arrives thirty minutes before it departs. *)
Lemma reversed_flight_finding_is_reversed :
  exists f,
    detect_transport_reverse_time transport_classes (table_rule east_china)
                                  [reversed_flight] []
    = Finding f
    /\ rt_time_diff_formatted f = "0h 30m".
Proof.
  eexists. split; [reflexivity|].
  destruct (reverse_time_finding_means_reversed transport_classes (table_rule east_china)
              [reversed_flight] [] _ eq_refl)
    as (event & start_time & end_time & Hev & _ & Hs & He & _ & _ & _ & Hf).
  inversion Hev. subst event. inversion Hs. inversion He. subst start_time end_time.
  exact Hf.
Defined.

(** X14 at a taxi ride of 100 yuan and the default threshold. *)
Lemma taxi_ride_finding_is_expensive :
  exists f,
    detect_high_value_taxi (table_rule east_china) [taxi_ride "T1" 9] [] = Finding f
    /\ exists event,
         [taxi_ride "T1" 9] = [event]
         /\ event_class event = TaxiEvent
         /\ is_self_paid event = false
         /\ (context_get [] "taxi_high_value_threshold" 50 < amount event)%Q
         /\ hv_primary_event_id f = event_id event
         /\ (0 < hv_excess_amount f)%Q.
Proof.
  eexists. split; [reflexivity|].
  apply (high_value_finding_means_expensive (table_rule east_china)
           [taxi_ride "T1" 9] [] _ eq_refl).
Defined.

(** X15 at the check-ins in Beijing and Guangzhou: the pair is recorded for
    the wider windows, so it is for the original ones. *)
Lemma narrower_checkins_are_still_recorded :
  exists found,
    check_city_pair (table_rule east_china) 500 500
                    ("Beijing", [beijing_wide_checkin])
                    ("Guangzhou", [guangzhou_wide_checkin])
    = ret (Some found)
    /\ exists original,
         check_city_pair (table_rule east_china) 500 500
                         ("Beijing", [beijing_checkin]) ("Guangzhou", [guangzhou_checkin])
         = ret (Some original)
         /\ (cp_available_time_hours original <= cp_available_time_hours found)%Q.
Proof.
  eexists. split; [reflexivity|].
  apply (widening_never_adds_a_city_pair (table_rule east_china) 500 500
           "Beijing" "Guangzhou" [beijing_checkin] [guangzhou_checkin]
           [beijing_wide_checkin] [guangzhou_wide_checkin]).
  - constructor; [|constructor].
    split; [reflexivity|]. split; [reflexivity|]. split; vm_compute; discriminate.
  - constructor; [|constructor].
    split; [reflexivity|]. split; [reflexivity|]. split; vm_compute; discriminate.
  - constructor; [vm_compute; discriminate|constructor].
  - constructor; [vm_compute; discriminate|constructor].
  - reflexivity.
Defined.

(** X16 at the two stays of one user for the same night. *)
Lemma two_hotels_report_is_sound :
  holds_events two_hotels 2%nat [0%nat; 1%nat]
  /\ wp (detect_multi_hotel_same_night (table_rule east_china) 2%nat 3%nat)
        (sound_hotel_result (table_rule east_china) two_hotels [0%nat; 1%nat])
        no_exception two_hotels.
Proof.
  assert (H : holds_events two_hotels 2%nat [0%nat; 1%nat]).
  { split; [reflexivity|]. repeat constructor; eexists; reflexivity. }
  split; [exact H|].
  exact (multi_hotel_returns_sound_reports (table_rule east_china) 2%nat 3%nat
           two_hotels [0%nat; 1%nat] H).
Defined.


(** X18 at the same check-ins, Guangzhou first. *)
Lemma guangzhou_beijing_pair_is_recorded :
  exists found,
    check_city_pair (table_rule east_china) 500 500
                    ("Guangzhou", [guangzhou_checkin]) ("Beijing", [beijing_checkin])
    = ret (Some found).
Proof.
  apply (proj1 (city_pair_order_is_irrelevant (table_rule east_china) 500 500
                  "Beijing" "Guangzhou" [beijing_checkin] [guangzhou_checkin]
                  (fun e1 e2 H1 H2 =>
                     match H1, H2 with
                     | or_introl E1, or_introl E2 =>
                         match E1, E2 with eq_refl, eq_refl => eq_refl end
                     | or_intror F, _ => match F with end
                     | _, or_intror F => match F with end
                     end))).
  eexists. reflexivity.
Defined.
